(** * Habit tracker backend: completion ledger and progress aggregation

    A shallow embedding of [src/habit_tracker_backend/app.py]: the three
    habit endpoints ([get_habits], [save_habits], [progress]), the two
    tables they use and the Python values that cross the HTTP boundary.

    Conventions.
    - The database is a record of tables, each a list of rows in insertion
      order; an endpoint that writes returns the committed store.
    - A Python [dict] with hashable keys is a [gmap]; a [dict] whose order
      of insertion is observable ([habit_stats]) is an association list.
    - A [datetime.date] is its proleptic Gregorian ordinal
      ([date.toordinal()]), an integer between [1] (0001-01-01) and
      [3652059] (9999-12-31); arithmetic outside that range raises
      [OverflowError] as in CPython.
    - A Python [float] is a binary64 primitive float.
    - A [str] is the string of bytes of its UTF-8 encoding; case mapping,
      whitespace and decimal digits are those of Unicode, as in Python. *)

From Stdlib Require Import ZArith Floats Uint63 Ascii String.
From Equations Require Import Equations.
From Equations.Prop Require Import Logic.
From stdpp Require Import gmap strings list sorting pretty.

Local Open Scope Z_scope.

(** ** Python values *)

Module Py.

(** Keys of a [dict]: a JSON body only has string keys, the endpoints also
    look up integer keys. *)
Inductive key :=
  | KStr (s : string)
  | KInt (n : Z).

#[global] Instance key_eq_dec : EqDecision key.
Proof. solve_decision. Defined.

#[global] Instance key_countable : Countable key.
Proof.
  refine (inj_countable'
    (λ k, match k with KStr s => inl s | KInt n => inr n end)
    (λ x, match x with inl s => KStr s | inr n => KInt n end) _).
  by intros [].
Defined.

(* No induction over values is needed: the endpoints only inspect the
   outermost constructor. *)
#[local] Unset Elimination Schemes.
Inductive val :=
  | VNone
  | VBool (b : bool)
  | VInt (n : Z)
  | VFloat (x : float)
  | VStr (s : string)
  | VList (l : list val)
  | VDict (d : gmap key val).
#[local] Set Elimination Schemes.

(** Truth value testing, [bool(v)]. *)
Definition truthy (v : val) : bool :=
  match v with
  | VNone => false
  | VBool b => b
  | VInt n => negb (n =? 0)
  | VFloat x => negb (PrimFloat.eqb x 0%float)
  | VStr s => match s with EmptyString => false | _ => true end
  | VList l => match l with [] => false | _ => true end
  | VDict d => negb (bool_decide (d = ∅))
  end.

(** [a or b]: the first operand when it is truthy, else the second. *)
Definition or (a b : val) : val := if truthy a then a else b.

(** [d.get(k)], [None] when the key is absent. *)
Definition get (d : gmap key val) (k : key) : val := default VNone (d !! k).

(** [isinstance(v, dict)] with the dictionary it holds. *)
Definition as_dict (v : val) : option (gmap key val) :=
  match v with VDict d => Some d | _ => None end.

(** [str(n)] for an [int]. *)
Definition str (n : Z) : string := pretty n.

(** *** Text

    A [str] is held as the bytes of its UTF-8 encoding; a lone surrogate,
    which a JSON escape can produce, as the three bytes the same scheme
    gives it.  Functions that look at characters read the bytes as code
    points.  A byte that belongs to no well-formed sequence stands for no
    character: it is carried through unchanged, as the value
    [0x110000 + byte] beyond the code space, which no table lists.  The
    tables are those of Unicode 14.0.0, the version of CPython 3.11. *)

Definition byte (a : ascii) : Z := Z.of_N (N_of_ascii a).

Definition char_of_byte (b : Z) : ascii := ascii_of_N (Z.to_N b).

Definition continuation (b : Z) : bool := (0x80 <=? b) && (b <=? 0xBF).

(** The first character of a text and the text after it. *)
Definition next_char (s : string) : option (Z * string) :=
  match s with
  | EmptyString => None
  | String a0 r0 =>
      let b0 := byte a0 in
      let stray := Some (0x110000 + b0, r0) in
      if b0 <? 0x80 then Some (b0, r0) else
      match r0 with
      | String a1 r1 =>
          let b1 := byte a1 in
          if negb (continuation b1) then stray
          else if (0xC2 <=? b0) && (b0 <=? 0xDF)
          then Some ((b0 - 0xC0) * 0x40 + (b1 - 0x80), r1)
          else
            match r1 with
            | String a2 r2 =>
                let b2 := byte a2 in
                if negb (continuation b2) then stray
                else if (0xE0 <=? b0) && (b0 <=? 0xEF)
                then
                  let c := (b0 - 0xE0) * 0x1000 + (b1 - 0x80) * 0x40 + (b2 - 0x80) in
                  if 0x800 <=? c then Some (c, r2) else stray
                else
                  match r2 with
                  | String a3 r3 =>
                      let b3 := byte a3 in
                      let c := (b0 - 0xF0) * 0x40000 + (b1 - 0x80) * 0x1000
                               + (b2 - 0x80) * 0x40 + (b3 - 0x80) in
                      if continuation b3 && (0xF0 <=? b0) && (b0 <=? 0xF4)
                         && (0x10000 <=? c) && (c <=? 0x10FFFF)
                      then Some (c, r3) else stray
                  | EmptyString => stray
                  end
            | EmptyString => stray
            end
      | EmptyString => stray
      end
  end.

(** The characters of a text; every step consumes a byte, so [n] steps
    read a text of [n] bytes to its end. *)
Fixpoint decode_steps (n : nat) (s : string) : list Z :=
  match n with
  | O => []
  | S n =>
      match next_char s with
      | None => []
      | Some (c, r) => c :: decode_steps n r
      end
  end.

Definition decode (s : string) : list Z := decode_steps (String.length s) s.

Definition bytes_of_char (c : Z) : list Z :=
  if c <? 0x80 then [c]
  else if c <? 0x800 then [0xC0 + c / 0x40; 0x80 + c mod 0x40]
  else if c <? 0x10000
  then [0xE0 + c / 0x1000; 0x80 + c / 0x40 mod 0x40; 0x80 + c mod 0x40]
  else if c <? 0x110000
  then [0xF0 + c / 0x40000; 0x80 + c / 0x1000 mod 0x40;
        0x80 + c / 0x40 mod 0x40; 0x80 + c mod 0x40]
  else [c - 0x110000].

Definition encode (l : list Z) : string :=
  foldr (λ c s, foldr (λ b, String (char_of_byte b)) s (bytes_of_char c)) EmptyString l.

Definition in_ranges (c : Z) (table : list (Z * Z)) : bool :=
  existsb (λ '(lo, hi), (lo <=? c) && (c <=? hi)) table.

(** The characters [str.isspace] is true of, which [str.strip] removes:
    ranges of code points, both ends included. *)
Definition White_Space : list (Z * Z) :=
  [ (0x9, 0xD); (0x1C, 0x20); (0x85, 0x85); (0xA0, 0xA0); (0x1680, 0x1680);
    (0x2000, 0x200A); (0x2028, 0x2029); (0x202F, 0x202F); (0x205F, 0x205F);
    (0x3000, 0x3000) ].

(** The zero of every run of ten decimal digits (category [Nd]). *)
Definition decimal_zeros : list Z :=
  [ 0x30; 0x660; 0x6F0; 0x7C0; 0x966; 0x9E6; 0xA66; 0xAE6; 0xB66; 0xBE6;
    0xC66; 0xCE6; 0xD66; 0xDE6; 0xE50; 0xED0; 0xF20; 0x1040; 0x1090; 0x17E0;
    0x1810; 0x1946; 0x19D0; 0x1A80; 0x1A90; 0x1B50; 0x1BB0; 0x1C40; 0x1C50;
    0xA620; 0xA8D0; 0xA900; 0xA9D0; 0xA9F0; 0xAA50; 0xABF0; 0xFF10; 0x104A0;
    0x10D30; 0x11066; 0x110F0; 0x11136; 0x111D0; 0x112F0; 0x11450; 0x114D0;
    0x11650; 0x116C0; 0x11730; 0x118E0; 0x11950; 0x11C50; 0x11D50; 0x11DA0;
    0x16A60; 0x16AC0; 0x16B50; 0x1D7CE; 0x1D7D8; 0x1D7E2; 0x1D7EC; 0x1D7F6;
    0x1E140; 0x1E2F0; 0x1E950; 0x1FBF0 ].

(** The simple lower-case mappings: within [lo .. hi], every [step]-th
    code point from [lo] maps to itself plus [delta]. *)
Definition Lowercase_Mapping : list (Z * Z * Z * Z) :=
  [ (0x41, 0x5A, 1, 32); (0xC0, 0xD6, 1, 32); (0xD8, 0xDE, 1, 32);
    (0x100, 0x12E, 2, 1); (0x132, 0x136, 2, 1); (0x139, 0x147, 2, 1);
    (0x14A, 0x176, 2, 1); (0x178, 0x178, 1, (-121)); (0x179, 0x17D, 2, 1);
    (0x181, 0x181, 1, 210); (0x182, 0x184, 2, 1); (0x186, 0x186, 1, 206);
    (0x187, 0x187, 1, 1); (0x189, 0x18A, 1, 205); (0x18B, 0x18B, 1, 1);
    (0x18E, 0x18E, 1, 79); (0x18F, 0x18F, 1, 202); (0x190, 0x190, 1, 203);
    (0x191, 0x191, 1, 1); (0x193, 0x193, 1, 205); (0x194, 0x194, 1, 207);
    (0x196, 0x196, 1, 211); (0x197, 0x197, 1, 209); (0x198, 0x198, 1, 1);
    (0x19C, 0x19C, 1, 211); (0x19D, 0x19D, 1, 213); (0x19F, 0x19F, 1, 214);
    (0x1A0, 0x1A4, 2, 1); (0x1A6, 0x1A6, 1, 218); (0x1A7, 0x1A7, 1, 1);
    (0x1A9, 0x1A9, 1, 218); (0x1AC, 0x1AC, 1, 1); (0x1AE, 0x1AE, 1, 218);
    (0x1AF, 0x1AF, 1, 1); (0x1B1, 0x1B2, 1, 217); (0x1B3, 0x1B5, 2, 1);
    (0x1B7, 0x1B7, 1, 219); (0x1B8, 0x1B8, 1, 1); (0x1BC, 0x1BC, 1, 1);
    (0x1C4, 0x1C4, 1, 2); (0x1C5, 0x1C5, 1, 1); (0x1C7, 0x1C7, 1, 2);
    (0x1C8, 0x1C8, 1, 1); (0x1CA, 0x1CA, 1, 2); (0x1CB, 0x1DB, 2, 1);
    (0x1DE, 0x1EE, 2, 1); (0x1F1, 0x1F1, 1, 2); (0x1F2, 0x1F4, 2, 1);
    (0x1F6, 0x1F6, 1, (-97)); (0x1F7, 0x1F7, 1, (-56)); (0x1F8, 0x21E, 2, 1);
    (0x220, 0x220, 1, (-130)); (0x222, 0x232, 2, 1); (0x23A, 0x23A, 1, 10795);
    (0x23B, 0x23B, 1, 1); (0x23D, 0x23D, 1, (-163)); (0x23E, 0x23E, 1, 10792);
    (0x241, 0x241, 1, 1); (0x243, 0x243, 1, (-195)); (0x244, 0x244, 1, 69);
    (0x245, 0x245, 1, 71); (0x246, 0x24E, 2, 1); (0x370, 0x372, 2, 1);
    (0x376, 0x376, 1, 1); (0x37F, 0x37F, 1, 116); (0x386, 0x386, 1, 38);
    (0x388, 0x38A, 1, 37); (0x38C, 0x38C, 1, 64); (0x38E, 0x38F, 1, 63);
    (0x391, 0x3A1, 1, 32); (0x3A3, 0x3AB, 1, 32); (0x3CF, 0x3CF, 1, 8);
    (0x3D8, 0x3EE, 2, 1); (0x3F4, 0x3F4, 1, (-60)); (0x3F7, 0x3F7, 1, 1);
    (0x3F9, 0x3F9, 1, (-7)); (0x3FA, 0x3FA, 1, 1); (0x3FD, 0x3FF, 1, (-130));
    (0x400, 0x40F, 1, 80); (0x410, 0x42F, 1, 32); (0x460, 0x480, 2, 1);
    (0x48A, 0x4BE, 2, 1); (0x4C0, 0x4C0, 1, 15); (0x4C1, 0x4CD, 2, 1);
    (0x4D0, 0x52E, 2, 1); (0x531, 0x556, 1, 48); (0x10A0, 0x10C5, 1, 7264);
    (0x10C7, 0x10C7, 1, 7264); (0x10CD, 0x10CD, 1, 7264);
    (0x13A0, 0x13EF, 1, 38864); (0x13F0, 0x13F5, 1, 8);
    (0x1C90, 0x1CBA, 1, (-3008)); (0x1CBD, 0x1CBF, 1, (-3008));
    (0x1E00, 0x1E94, 2, 1); (0x1E9E, 0x1E9E, 1, (-7615));
    (0x1EA0, 0x1EFE, 2, 1); (0x1F08, 0x1F0F, 1, (-8));
    (0x1F18, 0x1F1D, 1, (-8)); (0x1F28, 0x1F2F, 1, (-8));
    (0x1F38, 0x1F3F, 1, (-8)); (0x1F48, 0x1F4D, 1, (-8));
    (0x1F59, 0x1F5F, 2, (-8)); (0x1F68, 0x1F6F, 1, (-8));
    (0x1F88, 0x1F8F, 1, (-8)); (0x1F98, 0x1F9F, 1, (-8));
    (0x1FA8, 0x1FAF, 1, (-8)); (0x1FB8, 0x1FB9, 1, (-8));
    (0x1FBA, 0x1FBB, 1, (-74)); (0x1FBC, 0x1FBC, 1, (-9));
    (0x1FC8, 0x1FCB, 1, (-86)); (0x1FCC, 0x1FCC, 1, (-9));
    (0x1FD8, 0x1FD9, 1, (-8)); (0x1FDA, 0x1FDB, 1, (-100));
    (0x1FE8, 0x1FE9, 1, (-8)); (0x1FEA, 0x1FEB, 1, (-112));
    (0x1FEC, 0x1FEC, 1, (-7)); (0x1FF8, 0x1FF9, 1, (-128));
    (0x1FFA, 0x1FFB, 1, (-126)); (0x1FFC, 0x1FFC, 1, (-9));
    (0x2126, 0x2126, 1, (-7517)); (0x212A, 0x212A, 1, (-8383));
    (0x212B, 0x212B, 1, (-8262)); (0x2132, 0x2132, 1, 28);
    (0x2160, 0x216F, 1, 16); (0x2183, 0x2183, 1, 1); (0x24B6, 0x24CF, 1, 26);
    (0x2C00, 0x2C2F, 1, 48); (0x2C60, 0x2C60, 1, 1);
    (0x2C62, 0x2C62, 1, (-10743)); (0x2C63, 0x2C63, 1, (-3814));
    (0x2C64, 0x2C64, 1, (-10727)); (0x2C67, 0x2C6B, 2, 1);
    (0x2C6D, 0x2C6D, 1, (-10780)); (0x2C6E, 0x2C6E, 1, (-10749));
    (0x2C6F, 0x2C6F, 1, (-10783)); (0x2C70, 0x2C70, 1, (-10782));
    (0x2C72, 0x2C72, 1, 1); (0x2C75, 0x2C75, 1, 1);
    (0x2C7E, 0x2C7F, 1, (-10815)); (0x2C80, 0x2CE2, 2, 1);
    (0x2CEB, 0x2CED, 2, 1); (0x2CF2, 0x2CF2, 1, 1); (0xA640, 0xA66C, 2, 1);
    (0xA680, 0xA69A, 2, 1); (0xA722, 0xA72E, 2, 1); (0xA732, 0xA76E, 2, 1);
    (0xA779, 0xA77B, 2, 1); (0xA77D, 0xA77D, 1, (-35332));
    (0xA77E, 0xA786, 2, 1); (0xA78B, 0xA78B, 1, 1);
    (0xA78D, 0xA78D, 1, (-42280)); (0xA790, 0xA792, 2, 1);
    (0xA796, 0xA7A8, 2, 1); (0xA7AA, 0xA7AA, 1, (-42308));
    (0xA7AB, 0xA7AB, 1, (-42319)); (0xA7AC, 0xA7AC, 1, (-42315));
    (0xA7AD, 0xA7AD, 1, (-42305)); (0xA7AE, 0xA7AE, 1, (-42308));
    (0xA7B0, 0xA7B0, 1, (-42258)); (0xA7B1, 0xA7B1, 1, (-42282));
    (0xA7B2, 0xA7B2, 1, (-42261)); (0xA7B3, 0xA7B3, 1, 928);
    (0xA7B4, 0xA7C2, 2, 1); (0xA7C4, 0xA7C4, 1, (-48));
    (0xA7C5, 0xA7C5, 1, (-42307)); (0xA7C6, 0xA7C6, 1, (-35384));
    (0xA7C7, 0xA7C9, 2, 1); (0xA7D0, 0xA7D0, 1, 1); (0xA7D6, 0xA7D8, 2, 1);
    (0xA7F5, 0xA7F5, 1, 1); (0xFF21, 0xFF3A, 1, 32);
    (0x10400, 0x10427, 1, 40); (0x104B0, 0x104D3, 1, 40);
    (0x10570, 0x1057A, 1, 39); (0x1057C, 0x1058A, 1, 39);
    (0x1058C, 0x10592, 1, 39); (0x10594, 0x10595, 1, 39);
    (0x10C80, 0x10CB2, 1, 64); (0x118A0, 0x118BF, 1, 32);
    (0x16E40, 0x16E5F, 1, 32); (0x1E900, 0x1E921, 1, 34) ].

(** The property [Cased]. *)
Definition Cased : list (Z * Z) :=
  [ (0x41, 0x5A); (0x61, 0x7A); (0xAA, 0xAA); (0xB5, 0xB5); (0xBA, 0xBA);
    (0xC0, 0xD6); (0xD8, 0xF6); (0xF8, 0x1BA); (0x1BC, 0x1BF); (0x1C4, 0x293);
    (0x295, 0x2B8); (0x2C0, 0x2C1); (0x2E0, 0x2E4); (0x345, 0x345);
    (0x370, 0x373); (0x376, 0x377); (0x37A, 0x37D); (0x37F, 0x37F);
    (0x386, 0x386); (0x388, 0x38A); (0x38C, 0x38C); (0x38E, 0x3A1);
    (0x3A3, 0x3F5); (0x3F7, 0x481); (0x48A, 0x52F); (0x531, 0x556);
    (0x560, 0x588); (0x10A0, 0x10C5); (0x10C7, 0x10C7); (0x10CD, 0x10CD);
    (0x10D0, 0x10FA); (0x10FD, 0x10FF); (0x13A0, 0x13F5); (0x13F8, 0x13FD);
    (0x1C80, 0x1C88); (0x1C90, 0x1CBA); (0x1CBD, 0x1CBF); (0x1D00, 0x1DBF);
    (0x1E00, 0x1F15); (0x1F18, 0x1F1D); (0x1F20, 0x1F45); (0x1F48, 0x1F4D);
    (0x1F50, 0x1F57); (0x1F59, 0x1F59); (0x1F5B, 0x1F5B); (0x1F5D, 0x1F5D);
    (0x1F5F, 0x1F7D); (0x1F80, 0x1FB4); (0x1FB6, 0x1FBC); (0x1FBE, 0x1FBE);
    (0x1FC2, 0x1FC4); (0x1FC6, 0x1FCC); (0x1FD0, 0x1FD3); (0x1FD6, 0x1FDB);
    (0x1FE0, 0x1FEC); (0x1FF2, 0x1FF4); (0x1FF6, 0x1FFC); (0x2071, 0x2071);
    (0x207F, 0x207F); (0x2090, 0x209C); (0x2102, 0x2102); (0x2107, 0x2107);
    (0x210A, 0x2113); (0x2115, 0x2115); (0x2119, 0x211D); (0x2124, 0x2124);
    (0x2126, 0x2126); (0x2128, 0x2128); (0x212A, 0x212D); (0x212F, 0x2134);
    (0x2139, 0x2139); (0x213C, 0x213F); (0x2145, 0x2149); (0x214E, 0x214E);
    (0x2160, 0x217F); (0x2183, 0x2184); (0x24B6, 0x24E9); (0x2C00, 0x2CE4);
    (0x2CEB, 0x2CEE); (0x2CF2, 0x2CF3); (0x2D00, 0x2D25); (0x2D27, 0x2D27);
    (0x2D2D, 0x2D2D); (0xA640, 0xA66D); (0xA680, 0xA69D); (0xA722, 0xA787);
    (0xA78B, 0xA78E); (0xA790, 0xA7CA); (0xA7D0, 0xA7D1); (0xA7D3, 0xA7D3);
    (0xA7D5, 0xA7D9); (0xA7F5, 0xA7F6); (0xA7F8, 0xA7FA); (0xAB30, 0xAB5A);
    (0xAB5C, 0xAB68); (0xAB70, 0xABBF); (0xFB00, 0xFB06); (0xFB13, 0xFB17);
    (0xFF21, 0xFF3A); (0xFF41, 0xFF5A); (0x10400, 0x1044F);
    (0x104B0, 0x104D3); (0x104D8, 0x104FB); (0x10570, 0x1057A);
    (0x1057C, 0x1058A); (0x1058C, 0x10592); (0x10594, 0x10595);
    (0x10597, 0x105A1); (0x105A3, 0x105B1); (0x105B3, 0x105B9);
    (0x105BB, 0x105BC); (0x10780, 0x10780); (0x10783, 0x10785);
    (0x10787, 0x107B0); (0x107B2, 0x107BA); (0x10C80, 0x10CB2);
    (0x10CC0, 0x10CF2); (0x118A0, 0x118DF); (0x16E40, 0x16E7F);
    (0x1D400, 0x1D454); (0x1D456, 0x1D49C); (0x1D49E, 0x1D49F);
    (0x1D4A2, 0x1D4A2); (0x1D4A5, 0x1D4A6); (0x1D4A9, 0x1D4AC);
    (0x1D4AE, 0x1D4B9); (0x1D4BB, 0x1D4BB); (0x1D4BD, 0x1D4C3);
    (0x1D4C5, 0x1D505); (0x1D507, 0x1D50A); (0x1D50D, 0x1D514);
    (0x1D516, 0x1D51C); (0x1D51E, 0x1D539); (0x1D53B, 0x1D53E);
    (0x1D540, 0x1D544); (0x1D546, 0x1D546); (0x1D54A, 0x1D550);
    (0x1D552, 0x1D6A5); (0x1D6A8, 0x1D6C0); (0x1D6C2, 0x1D6DA);
    (0x1D6DC, 0x1D6FA); (0x1D6FC, 0x1D714); (0x1D716, 0x1D734);
    (0x1D736, 0x1D74E); (0x1D750, 0x1D76E); (0x1D770, 0x1D788);
    (0x1D78A, 0x1D7A8); (0x1D7AA, 0x1D7C2); (0x1D7C4, 0x1D7CB);
    (0x1DF00, 0x1DF09); (0x1DF0B, 0x1DF1E); (0x1E900, 0x1E943);
    (0x1F130, 0x1F149); (0x1F150, 0x1F169); (0x1F170, 0x1F189) ].

(** The property [Case_Ignorable]. *)
Definition Case_Ignorable : list (Z * Z) :=
  [ (0x27, 0x27); (0x2E, 0x2E); (0x3A, 0x3A); (0x5E, 0x5E); (0x60, 0x60);
    (0xA8, 0xA8); (0xAD, 0xAD); (0xAF, 0xAF); (0xB4, 0xB4); (0xB7, 0xB8);
    (0x2B0, 0x36F); (0x374, 0x375); (0x37A, 0x37A); (0x384, 0x385);
    (0x387, 0x387); (0x483, 0x489); (0x559, 0x559); (0x55F, 0x55F);
    (0x591, 0x5BD); (0x5BF, 0x5BF); (0x5C1, 0x5C2); (0x5C4, 0x5C5);
    (0x5C7, 0x5C7); (0x5F4, 0x5F4); (0x600, 0x605); (0x610, 0x61A);
    (0x61C, 0x61C); (0x640, 0x640); (0x64B, 0x65F); (0x670, 0x670);
    (0x6D6, 0x6DD); (0x6DF, 0x6E8); (0x6EA, 0x6ED); (0x70F, 0x70F);
    (0x711, 0x711); (0x730, 0x74A); (0x7A6, 0x7B0); (0x7EB, 0x7F5);
    (0x7FA, 0x7FA); (0x7FD, 0x7FD); (0x816, 0x82D); (0x859, 0x85B);
    (0x888, 0x888); (0x890, 0x891); (0x898, 0x89F); (0x8C9, 0x902);
    (0x93A, 0x93A); (0x93C, 0x93C); (0x941, 0x948); (0x94D, 0x94D);
    (0x951, 0x957); (0x962, 0x963); (0x971, 0x971); (0x981, 0x981);
    (0x9BC, 0x9BC); (0x9C1, 0x9C4); (0x9CD, 0x9CD); (0x9E2, 0x9E3);
    (0x9FE, 0x9FE); (0xA01, 0xA02); (0xA3C, 0xA3C); (0xA41, 0xA42);
    (0xA47, 0xA48); (0xA4B, 0xA4D); (0xA51, 0xA51); (0xA70, 0xA71);
    (0xA75, 0xA75); (0xA81, 0xA82); (0xABC, 0xABC); (0xAC1, 0xAC5);
    (0xAC7, 0xAC8); (0xACD, 0xACD); (0xAE2, 0xAE3); (0xAFA, 0xAFF);
    (0xB01, 0xB01); (0xB3C, 0xB3C); (0xB3F, 0xB3F); (0xB41, 0xB44);
    (0xB4D, 0xB4D); (0xB55, 0xB56); (0xB62, 0xB63); (0xB82, 0xB82);
    (0xBC0, 0xBC0); (0xBCD, 0xBCD); (0xC00, 0xC00); (0xC04, 0xC04);
    (0xC3C, 0xC3C); (0xC3E, 0xC40); (0xC46, 0xC48); (0xC4A, 0xC4D);
    (0xC55, 0xC56); (0xC62, 0xC63); (0xC81, 0xC81); (0xCBC, 0xCBC);
    (0xCBF, 0xCBF); (0xCC6, 0xCC6); (0xCCC, 0xCCD); (0xCE2, 0xCE3);
    (0xD00, 0xD01); (0xD3B, 0xD3C); (0xD41, 0xD44); (0xD4D, 0xD4D);
    (0xD62, 0xD63); (0xD81, 0xD81); (0xDCA, 0xDCA); (0xDD2, 0xDD4);
    (0xDD6, 0xDD6); (0xE31, 0xE31); (0xE34, 0xE3A); (0xE46, 0xE4E);
    (0xEB1, 0xEB1); (0xEB4, 0xEBC); (0xEC6, 0xEC6); (0xEC8, 0xECD);
    (0xF18, 0xF19); (0xF35, 0xF35); (0xF37, 0xF37); (0xF39, 0xF39);
    (0xF71, 0xF7E); (0xF80, 0xF84); (0xF86, 0xF87); (0xF8D, 0xF97);
    (0xF99, 0xFBC); (0xFC6, 0xFC6); (0x102D, 0x1030); (0x1032, 0x1037);
    (0x1039, 0x103A); (0x103D, 0x103E); (0x1058, 0x1059); (0x105E, 0x1060);
    (0x1071, 0x1074); (0x1082, 0x1082); (0x1085, 0x1086); (0x108D, 0x108D);
    (0x109D, 0x109D); (0x10FC, 0x10FC); (0x135D, 0x135F); (0x1712, 0x1714);
    (0x1732, 0x1733); (0x1752, 0x1753); (0x1772, 0x1773); (0x17B4, 0x17B5);
    (0x17B7, 0x17BD); (0x17C6, 0x17C6); (0x17C9, 0x17D3); (0x17D7, 0x17D7);
    (0x17DD, 0x17DD); (0x180B, 0x180F); (0x1843, 0x1843); (0x1885, 0x1886);
    (0x18A9, 0x18A9); (0x1920, 0x1922); (0x1927, 0x1928); (0x1932, 0x1932);
    (0x1939, 0x193B); (0x1A17, 0x1A18); (0x1A1B, 0x1A1B); (0x1A56, 0x1A56);
    (0x1A58, 0x1A5E); (0x1A60, 0x1A60); (0x1A62, 0x1A62); (0x1A65, 0x1A6C);
    (0x1A73, 0x1A7C); (0x1A7F, 0x1A7F); (0x1AA7, 0x1AA7); (0x1AB0, 0x1ACE);
    (0x1B00, 0x1B03); (0x1B34, 0x1B34); (0x1B36, 0x1B3A); (0x1B3C, 0x1B3C);
    (0x1B42, 0x1B42); (0x1B6B, 0x1B73); (0x1B80, 0x1B81); (0x1BA2, 0x1BA5);
    (0x1BA8, 0x1BA9); (0x1BAB, 0x1BAD); (0x1BE6, 0x1BE6); (0x1BE8, 0x1BE9);
    (0x1BED, 0x1BED); (0x1BEF, 0x1BF1); (0x1C2C, 0x1C33); (0x1C36, 0x1C37);
    (0x1C78, 0x1C7D); (0x1CD0, 0x1CD2); (0x1CD4, 0x1CE0); (0x1CE2, 0x1CE8);
    (0x1CED, 0x1CED); (0x1CF4, 0x1CF4); (0x1CF8, 0x1CF9); (0x1D2C, 0x1D6A);
    (0x1D78, 0x1D78); (0x1D9B, 0x1DFF); (0x1FBD, 0x1FBD); (0x1FBF, 0x1FC1);
    (0x1FCD, 0x1FCF); (0x1FDD, 0x1FDF); (0x1FED, 0x1FEF); (0x1FFD, 0x1FFE);
    (0x200B, 0x200F); (0x2018, 0x2019); (0x2024, 0x2024); (0x2027, 0x2027);
    (0x202A, 0x202E); (0x2060, 0x2064); (0x2066, 0x206F); (0x2071, 0x2071);
    (0x207F, 0x207F); (0x2090, 0x209C); (0x20D0, 0x20F0); (0x2C7C, 0x2C7D);
    (0x2CEF, 0x2CF1); (0x2D6F, 0x2D6F); (0x2D7F, 0x2D7F); (0x2DE0, 0x2DFF);
    (0x2E2F, 0x2E2F); (0x3005, 0x3005); (0x302A, 0x302D); (0x3031, 0x3035);
    (0x303B, 0x303B); (0x3099, 0x309E); (0x30FC, 0x30FE); (0xA015, 0xA015);
    (0xA4F8, 0xA4FD); (0xA60C, 0xA60C); (0xA66F, 0xA672); (0xA674, 0xA67D);
    (0xA67F, 0xA67F); (0xA69C, 0xA69F); (0xA6F0, 0xA6F1); (0xA700, 0xA721);
    (0xA770, 0xA770); (0xA788, 0xA78A); (0xA7F2, 0xA7F4); (0xA7F8, 0xA7F9);
    (0xA802, 0xA802); (0xA806, 0xA806); (0xA80B, 0xA80B); (0xA825, 0xA826);
    (0xA82C, 0xA82C); (0xA8C4, 0xA8C5); (0xA8E0, 0xA8F1); (0xA8FF, 0xA8FF);
    (0xA926, 0xA92D); (0xA947, 0xA951); (0xA980, 0xA982); (0xA9B3, 0xA9B3);
    (0xA9B6, 0xA9B9); (0xA9BC, 0xA9BD); (0xA9CF, 0xA9CF); (0xA9E5, 0xA9E6);
    (0xAA29, 0xAA2E); (0xAA31, 0xAA32); (0xAA35, 0xAA36); (0xAA43, 0xAA43);
    (0xAA4C, 0xAA4C); (0xAA70, 0xAA70); (0xAA7C, 0xAA7C); (0xAAB0, 0xAAB0);
    (0xAAB2, 0xAAB4); (0xAAB7, 0xAAB8); (0xAABE, 0xAABF); (0xAAC1, 0xAAC1);
    (0xAADD, 0xAADD); (0xAAEC, 0xAAED); (0xAAF3, 0xAAF4); (0xAAF6, 0xAAF6);
    (0xAB5B, 0xAB5F); (0xAB69, 0xAB6B); (0xABE5, 0xABE5); (0xABE8, 0xABE8);
    (0xABED, 0xABED); (0xFB1E, 0xFB1E); (0xFBB2, 0xFBC2); (0xFE00, 0xFE0F);
    (0xFE13, 0xFE13); (0xFE20, 0xFE2F); (0xFE52, 0xFE52); (0xFE55, 0xFE55);
    (0xFEFF, 0xFEFF); (0xFF07, 0xFF07); (0xFF0E, 0xFF0E); (0xFF1A, 0xFF1A);
    (0xFF3E, 0xFF3E); (0xFF40, 0xFF40); (0xFF70, 0xFF70); (0xFF9E, 0xFF9F);
    (0xFFE3, 0xFFE3); (0xFFF9, 0xFFFB); (0x101FD, 0x101FD);
    (0x102E0, 0x102E0); (0x10376, 0x1037A); (0x10780, 0x10785);
    (0x10787, 0x107B0); (0x107B2, 0x107BA); (0x10A01, 0x10A03);
    (0x10A05, 0x10A06); (0x10A0C, 0x10A0F); (0x10A38, 0x10A3A);
    (0x10A3F, 0x10A3F); (0x10AE5, 0x10AE6); (0x10D24, 0x10D27);
    (0x10EAB, 0x10EAC); (0x10F46, 0x10F50); (0x10F82, 0x10F85);
    (0x11001, 0x11001); (0x11038, 0x11046); (0x11070, 0x11070);
    (0x11073, 0x11074); (0x1107F, 0x11081); (0x110B3, 0x110B6);
    (0x110B9, 0x110BA); (0x110BD, 0x110BD); (0x110C2, 0x110C2);
    (0x110CD, 0x110CD); (0x11100, 0x11102); (0x11127, 0x1112B);
    (0x1112D, 0x11134); (0x11173, 0x11173); (0x11180, 0x11181);
    (0x111B6, 0x111BE); (0x111C9, 0x111CC); (0x111CF, 0x111CF);
    (0x1122F, 0x11231); (0x11234, 0x11234); (0x11236, 0x11237);
    (0x1123E, 0x1123E); (0x112DF, 0x112DF); (0x112E3, 0x112EA);
    (0x11300, 0x11301); (0x1133B, 0x1133C); (0x11340, 0x11340);
    (0x11366, 0x1136C); (0x11370, 0x11374); (0x11438, 0x1143F);
    (0x11442, 0x11444); (0x11446, 0x11446); (0x1145E, 0x1145E);
    (0x114B3, 0x114B8); (0x114BA, 0x114BA); (0x114BF, 0x114C0);
    (0x114C2, 0x114C3); (0x115B2, 0x115B5); (0x115BC, 0x115BD);
    (0x115BF, 0x115C0); (0x115DC, 0x115DD); (0x11633, 0x1163A);
    (0x1163D, 0x1163D); (0x1163F, 0x11640); (0x116AB, 0x116AB);
    (0x116AD, 0x116AD); (0x116B0, 0x116B5); (0x116B7, 0x116B7);
    (0x1171D, 0x1171F); (0x11722, 0x11725); (0x11727, 0x1172B);
    (0x1182F, 0x11837); (0x11839, 0x1183A); (0x1193B, 0x1193C);
    (0x1193E, 0x1193E); (0x11943, 0x11943); (0x119D4, 0x119D7);
    (0x119DA, 0x119DB); (0x119E0, 0x119E0); (0x11A01, 0x11A0A);
    (0x11A33, 0x11A38); (0x11A3B, 0x11A3E); (0x11A47, 0x11A47);
    (0x11A51, 0x11A56); (0x11A59, 0x11A5B); (0x11A8A, 0x11A96);
    (0x11A98, 0x11A99); (0x11C30, 0x11C36); (0x11C38, 0x11C3D);
    (0x11C3F, 0x11C3F); (0x11C92, 0x11CA7); (0x11CAA, 0x11CB0);
    (0x11CB2, 0x11CB3); (0x11CB5, 0x11CB6); (0x11D31, 0x11D36);
    (0x11D3A, 0x11D3A); (0x11D3C, 0x11D3D); (0x11D3F, 0x11D45);
    (0x11D47, 0x11D47); (0x11D90, 0x11D91); (0x11D95, 0x11D95);
    (0x11D97, 0x11D97); (0x11EF3, 0x11EF4); (0x13430, 0x13438);
    (0x16AF0, 0x16AF4); (0x16B30, 0x16B36); (0x16B40, 0x16B43);
    (0x16F4F, 0x16F4F); (0x16F8F, 0x16F9F); (0x16FE0, 0x16FE1);
    (0x16FE3, 0x16FE4); (0x1AFF0, 0x1AFF3); (0x1AFF5, 0x1AFFB);
    (0x1AFFD, 0x1AFFE); (0x1BC9D, 0x1BC9E); (0x1BCA0, 0x1BCA3);
    (0x1CF00, 0x1CF2D); (0x1CF30, 0x1CF46); (0x1D167, 0x1D169);
    (0x1D173, 0x1D182); (0x1D185, 0x1D18B); (0x1D1AA, 0x1D1AD);
    (0x1D242, 0x1D244); (0x1DA00, 0x1DA36); (0x1DA3B, 0x1DA6C);
    (0x1DA75, 0x1DA75); (0x1DA84, 0x1DA84); (0x1DA9B, 0x1DA9F);
    (0x1DAA1, 0x1DAAF); (0x1E000, 0x1E006); (0x1E008, 0x1E018);
    (0x1E01B, 0x1E021); (0x1E023, 0x1E024); (0x1E026, 0x1E02A);
    (0x1E130, 0x1E13D); (0x1E2AE, 0x1E2AE); (0x1E2EC, 0x1E2EF);
    (0x1E8D0, 0x1E8D6); (0x1E944, 0x1E94B); (0x1F3FB, 0x1F3FF);
    (0xE0001, 0xE0001); (0xE0020, 0xE007F); (0xE0100, 0xE01EF) ].

(** [Py_UNICODE_ISSPACE]. *)
Definition is_space (c : Z) : bool := in_ranges c White_Space.

(** [Py_UNICODE_TODECIMAL]: the value of a decimal digit, of any script. *)
Definition decimal_value (c : Z) : option Z :=
  (λ zero, c - zero) <$> find (λ zero, (zero <=? c) && (c <=? zero + 9)) decimal_zeros.

(** [_PyUnicode_ToLowerFull]: one character can become two. *)
Definition lower_full (c : Z) : list Z :=
  if c =? 0x130 then [0x69; 0x307]
  else
    match find (λ '(lo, hi, step, _),
                  (lo <=? c) && (c <=? hi) && ((c - lo) mod step =? 0))
               Lowercase_Mapping with
    | Some (_, _, _, delta) => [c + delta]
    | None => [c]
    end.

(** The second half of the context [Final_Sigma]: what follows is not a
    run of case-ignorable characters and then a cased one. *)
Fixpoint final_after (l : list Z) : bool :=
  match l with
  | [] => true
  | c :: r => if in_ranges c Case_Ignorable then final_after r else negb (in_ranges c Cased)
  end.

(** [do_lower]: character by character, except that a capital sigma
    becomes a final sigma when a cased character precedes it, with only
    case-ignorable characters between, and none follows it in the same
    way.  [after_cased] is the first half of that context. *)
Fixpoint lower_chars (after_cased : bool) (l : list Z) : list Z :=
  match l with
  | [] => []
  | c :: r =>
      (if c =? 0x3A3
       then [if after_cased && final_after r then 0x3C2 else 0x3C3]
       else lower_full c)
      ++ lower_chars (if in_ranges c Case_Ignorable then after_cased
                      else in_ranges c Cased) r
  end.

(** [s.lower()]. *)
Definition lower (s : string) : string := encode (lower_chars false (decode s)).

(** [s.encode("utf-8")] succeeds: no character of the text is a
    surrogate. *)
Definition encodable (s : string) : bool :=
  forallb (λ c, (c <? 0x110000) && negb ((0xD800 <=? c) && (c <=? 0xDFFF))) (decode s).

Fixpoint lstrip_chars (l : list Z) : list Z :=
  match l with
  | [] => []
  | c :: r => if is_space c then lstrip_chars r else l
  end.

(** [s.strip()]. *)
Definition strip (s : string) : string :=
  encode (reverse (lstrip_chars (reverse (lstrip_chars (decode s))))).

(** Exceptions the endpoints can raise. *)
Inductive exn :=
  | ValueError
  | TypeError
  | AttributeError
  | KeyError
  | OverflowError
  | UnicodeEncodeError.

(** *** Floats *)

(** [float(n)] for [0 <= n < 2^63]; exact below [2^53]. *)
Definition float_of_Z (n : Z) : float := PrimFloat.of_uint63 (Uint63.of_Z n).

(** [a / b] on non-negative [int]s below [2^53]: both convert exactly and
    the quotient is rounded once. *)
Definition truediv (a b : Z) : float :=
  PrimFloat.div (float_of_Z a) (float_of_Z b).

(** Round-half-even of [num / den] to an integer, [den > 0]. *)
Definition div_half_even (num den : Z) : Z :=
  let q := num / den in
  let r := num mod den in
  if 2 * r <? den then q
  else if den <? 2 * r then q + 1
  else if Z.even q then q else q + 1.

(** [round(x, 2)]: the exact binary value of [x] is rounded half-even to
    two decimals, and the decimal is converted back to the nearest
    float (CPython's [double_round] through [dtoa] and [strtod]).  The
    nearest float to [n / 100] is the quotient of the two floats as long
    as [n] is below [2^53], which covers every percentage. *)
Definition round2 (x : float) : float :=
  match Prim2SF x with
  | S754_zero _ => x
  | S754_finite s m e =>
      let num := Z.pos m * 100 in
      let n := if 0 <=? e then num * 2 ^ e else div_half_even num (2 ^ (- e)) in
      let r := PrimFloat.div (float_of_Z n) (float_of_Z 100) in
      if s then PrimFloat.opp r else r
  | _ => x
  end.

End Py.

#[global] Instance exn_eq_dec : EqDecision Py.exn.
Proof. solve_decision. Defined.

(** ** Dates *)

(** A [datetime.date], by ordinal. *)
Abbreviation date := Z (only parsing).

Definition MINORDINAL : Z := 1.
Definition MAXORDINAL : Z := 3652059.

(** The ordinals of [date.min] to [date.max]. *)
Definition date_valid (d : date) : Prop := MINORDINAL ≤ d ≤ MAXORDINAL.

(** [d + timedelta(days=n)] ([n] may be negative). *)
Definition date_add_days (d : date) (n : Z) : Py.exn + date :=
  let o := d + n in
  if (MINORDINAL <=? o) && (o <=? MAXORDINAL) then inr o else inl Py.OverflowError.

Definition is_leap (y : Z) : bool :=
  (y mod 4 =? 0) && (negb (y mod 100 =? 0) || (y mod 400 =? 0)).

Definition days_in_month (y m : Z) : Z :=
  if m =? 2 then (if is_leap y then 29 else 28)
  else if (m =? 4) || (m =? 6) || (m =? 9) || (m =? 11) then 30
  else 31.

Definition days_before_year (y : Z) : Z :=
  let p := y - 1 in p * 365 + p / 4 - p / 100 + p / 400.

Definition days_before_month (y m : Z) : Z :=
  foldr Z.add 0 (days_in_month y <$> seqZ 1 (m - 1)).

(** [date(y, m, d)], [ValueError] unless it is a calendar date in years
    1 to 9999. *)
Definition date_of_ymd (y m d : Z) : Py.exn + date :=
  if (1 <=? y) && (y <=? 9999) && (1 <=? m) && (m <=? 12)
     && (1 <=? d) && (d <=? days_in_month y m)
  then inr (days_before_year y + days_before_month y m + d)
  else inl Py.ValueError.

(** *** [strptime(s, "%Y-%m-%d")]

    The format compiles to the regular expression
    [(\d\d\d\d)-(1[0-2]|0[1-9]|[1-9])-(3[01]|[12]\d|0[1-9]|[1-9]| [1-9])],
    matched as a prefix; text left over after the match is an error.  The
    classes in brackets are ASCII, [\d] is any decimal digit. *)

(** A character that [\d] matches, with the value [int] gives it: a
    decimal digit of any script. *)
Definition read_digit (s : string) : option (Z * string) :=
  '(c, r) ← Py.next_char s;
  v ← Py.decimal_value c;
  Some (v, r).

(** The value of an ASCII digit. *)
Definition digit (c : ascii) : Z := Z.of_nat (nat_of_ascii c) - 48.

Definition in_range (c lo hi : ascii) : bool :=
  let n := nat_of_ascii c in
  ((nat_of_ascii lo <=? n) && (n <=? nat_of_ascii hi))%nat.

(** [%Y]: exactly four digits. *)
Definition match_Y (s : string) : option (Z * string) :=
  '(a, s1) ← read_digit s;
  '(b, s2) ← read_digit s1;
  '(c, s3) ← read_digit s2;
  '(d, s4) ← read_digit s3;
  Some (a * 1000 + b * 100 + c * 10 + d, s4).

Definition match_dash (s : string) : option string :=
  match s with
  | String "-" r => Some r
  | _ => None
  end.

(** The alternatives of [%m], in the order the matcher tries them. *)
Definition alts_m (s : string) : list (Z * string) :=
  (match s with
   | String "1" (String b r) =>
       if in_range b "0" "2" then [(10 + digit b, r)] else []
   | _ => []
   end) ++
  (match s with
   | String "0" (String b r) =>
       if in_range b "1" "9" then [(digit b, r)] else []
   | _ => []
   end) ++
  (match s with
   | String a r => if in_range a "1" "9" then [(digit a, r)] else []
   | _ => []
   end).

(** The alternatives of [%d]. *)
Definition alts_d (s : string) : list (Z * string) :=
  (match s with
   | String "3" (String b r) =>
       if in_range b "0" "1" then [(30 + digit b, r)] else []
   | _ => []
   end) ++
  (match s with
   | String a s1 =>
       if in_range a "1" "2"
       then match read_digit s1 with
            | Some (b, r) => [(digit a * 10 + b, r)]
            | None => []
            end
       else []
   | _ => []
   end) ++
  (match s with
   | String "0" (String b r) =>
       if in_range b "1" "9" then [(digit b, r)] else []
   | _ => []
   end) ++
  (match s with
   | String a r => if in_range a "1" "9" then [(digit a, r)] else []
   | _ => []
   end) ++
  (match s with
   | String " " (String b r) =>
       if in_range b "1" "9" then [(digit b, r)] else []
   | _ => []
   end).

(** The first way to match the whole pattern as a prefix of [s]: year,
    month, day and the text that remains. *)
Definition match_format (s : string) : option (Z * Z * Z * string) :=
  '(y, s1) ← match_Y s;
  s2 ← match_dash s1;
  head (omap (λ '(m, s3),
          s4 ← match_dash s3;
          '(d, s5) ← head (alts_d s4);
          Some (y, m, d, s5)) (alts_m s2)).

Definition strptime_date (s : string) : Py.exn + date :=
  match match_format s with
  | Some (y, m, d, EmptyString) => date_of_ymd y m d
  | _ => inl Py.ValueError
  end.

(** [parse_date]: a [YYYY-MM-DD] string to a date; every failure of the
    parser is the [ValueError] the endpoints catch. *)
Definition parse_date (date_str : string) : Py.exn + date :=
  match strptime_date date_str with
  | inr d => inr d
  | inl _ => inl Py.ValueError
  end.

(** ** Tables *)

(** A row of [habits]; [id] is the primary key. *)
Record Habit := {
  habit_id : Z;
  habit_name : string;
}.

(** A row of [habit_entries].  The surrogate key is assigned by the
    storage engine and never read by the endpoints, so rows are identified
    by their position in the table. *)
Record HabitEntry := {
  entry_user_id : Z;
  entry_habit_id : Z;
  entry_date : date;
  entry_completed : bool;
}.

(** The tables [habits] and [habit_entries]. *)
Record Store := {
  habits_table : list Habit;
  entries_table : list HabitEntry;
}.

#[global] Instance Habit_eq_dec : EqDecision Habit.
Proof. solve_decision. Defined.

#[global] Instance HabitEntry_eq_dec : EqDecision HabitEntry.
Proof. solve_decision. Defined.

(** The columns of the constraint [user_habit_date_unique]. *)
Definition entry_key (e : HabitEntry) : Z * Z * date :=
  (entry_user_id e, entry_habit_id e, entry_date e).

(** [UniqueConstraint("user_id", "habit_id", "date")]. *)
Definition ledger_unique (es : list HabitEntry) : Prop :=
  NoDup (entry_key <$> es).

(** [primary_key=True] on [Habit.id]. *)
Definition catalog_unique (hs : list Habit) : Prop :=
  NoDup (habit_id <$> hs).

(** *** Queries *)

Definition habit_le (a b : Habit) : Prop := habit_id a ≤ habit_id b.

#[global] Instance habit_le_dec : RelDecision habit_le.
Proof. intros a b. unfold habit_le. apply _. Defined.

(** [Habit.query.order_by(Habit.id).all()]. *)
Definition all_habits_by_id (st : Store) : list Habit :=
  merge_sort habit_le (habits_table st).

(** [filter_by(user_id=..., date=...)]. *)
Definition by_user_date (user_id : Z) (d : date) (e : HabitEntry) : Prop :=
  entry_user_id e = user_id ∧ entry_date e = d.

#[global] Instance by_user_date_dec user_id d e : Decision (by_user_date user_id d e).
Proof. unfold by_user_date. apply _. Defined.

(** [filter_by(user_id=..., habit_id=..., date=...)]. *)
Definition by_key (user_id habit_id : Z) (d : date) (e : HabitEntry) : Prop :=
  entry_key e = (user_id, habit_id, d).

#[global] Instance by_key_dec user_id habit_id d e : Decision (by_key user_id habit_id d e).
Proof. unfold by_key. apply _. Defined.

(** ** Responses *)

(** What a view function produces: a 200 response, a 400 response with
    its error message, or an exception that leaves the function. *)
Inductive result (A : Type) :=
  | Ok (a : A)
  | BadRequest (msg : string)
  | Raised (e : Py.exn).
Arguments Ok {A} a.
Arguments BadRequest {A} msg.
Arguments Raised {A} e.

Definition date_format_error : string := "Date must be in YYYY-MM-DD format".

(** The optional query parameter holding a date: parsed when present and
    non-empty, else today's date. *)
Definition date_param (arg : option string) (today : date) : Py.exn + date :=
  match arg with
  | Some (String _ _ as date_str) => parse_date date_str
  | _ => inr today
  end.

(** ** GET /habits *)

Record HabitStatus := {
  status_id : Z;
  status_name : string;
  status_completed : bool;
}.

(** [{entry.habit_id: entry for entry in entries}]. *)
Definition entries_by_habit (entries : list HabitEntry) : gmap Z HabitEntry :=
  foldl (λ m entry, <[entry_habit_id entry := entry]> m) ∅ entries.

Definition habit_status (by_habit : gmap Z HabitEntry) (habit : Habit) : HabitStatus :=
  {| status_id := habit_id habit;
     status_name := habit_name habit;
     status_completed :=
       match by_habit !! habit_id habit with
       | Some entry => entry_completed entry
       | None => false
       end |}.

Definition get_habits (user_id : Z) (date_arg : option string) (today : date)
    (st : Store) : result (date * list HabitStatus) :=
  match date_param date_arg today with
  | inl _ => BadRequest date_format_error
  | inr target_date =>
      let habits := all_habits_by_id st in
      let by_habit :=
        entries_by_habit (filter (by_user_date user_id target_date) (entries_table st)) in
      Ok (target_date, habit_status by_habit <$> habits)
  end.

(** ** POST /habits *)

(** [entry.completed = completed]. *)
Definition set_completed (completed : bool) (e : HabitEntry) : HabitEntry :=
  {| entry_user_id := entry_user_id e;
     entry_habit_id := entry_habit_id e;
     entry_date := entry_date e;
     entry_completed := completed |}.

(** [bool(completions.get(str(habit.id)) or completions.get(habit.id))]. *)
Definition desired (completions : gmap Py.key Py.val) (id : Z) : bool :=
  Py.truthy (Py.or (Py.get completions (Py.KStr (Py.str id)))
                   (Py.get completions (Py.KInt id))).

(** The body of the loop over habits for the rows: the first row with the
    key is updated where it stands, or a row is added to the session. *)
Definition upsert (user_id : Z) (d : date) (id : Z) (completed : bool)
    (es : list HabitEntry) : list HabitEntry :=
  match list_find (by_key user_id id d) es with
  | Some (i, entry) => <[i := set_completed completed entry]> es
  | None =>
      es ++ [ {| entry_user_id := user_id; entry_habit_id := id;
                 entry_date := d; entry_completed := completed |} ]
  end.

(** One iteration: the session's rows and [completed_count]. *)
Definition save_entry (user_id : Z) (d : date) (completions : gmap Py.key Py.val)
    (acc : list HabitEntry * Z) (habit : Habit) : list HabitEntry * Z :=
  let completed := desired completions (habit_id habit) in
  (upsert user_id d (habit_id habit) completed acc.1,
   if completed then acc.2 + 1 else acc.2).

(** [(completed_count / len(habits) * 100) if habits else 0]. *)
Definition save_percentage (completed_count : Z) (habits : list Habit) : Py.val :=
  match habits with
  | [] => Py.VInt 0
  | _ =>
      Py.VFloat (PrimFloat.mul (Py.truediv completed_count (Z.of_nat (length habits)))
                               (Py.float_of_Z 100))
  end.

Definition payload_error : string :=
  "Invalid payload. 'date' and 'completions' are required.".

(** The view: [body] is what [request.get_json()] returned.  The set
    [habit_ids] the source builds is never used.  Nothing is committed
    on an early return or an exception. *)
Definition save_habits (user_id : Z) (body : Py.val) (st : Store)
    : result Py.val * Store :=
  match Py.as_dict (Py.or body (Py.VDict ∅)) with
  | None => (Raised Py.AttributeError, st)
  | Some data =>
      let date_str := Py.get data (Py.KStr "date") in
      match Py.truthy date_str, Py.as_dict (Py.get data (Py.KStr "completions")) with
      | true, Some completions =>
          match date_str with
          | Py.VStr s =>
              match parse_date s with
              | inl _ => (BadRequest date_format_error, st)
              | inr target_date =>
                  let habits := all_habits_by_id st in
                  let '(entries, completed_count) :=
                    foldl (save_entry user_id target_date completions)
                          (entries_table st, 0) habits in
                  (Ok (save_percentage completed_count habits),
                   {| habits_table := habits_table st; entries_table := entries |})
              end
          | _ => (Raised Py.TypeError, st)
          end
      | _, _ => (BadRequest payload_error, st)
      end
  end.

(** ** GET /progress *)

(** An entry of [habit_stats] before the percentages are filled in. *)
Record HabitStats := {
  stats_id : Z;
  stats_name : string;
  completed_days : Z;
  total_days : Z;
}.

(** A [dict] keyed by habit id whose values are listed in insertion
    order. *)
Abbreviation odict V := (list (Z * V)) (only parsing).

Definition has_key {V} (k : Z) (kv : Z * V) : Prop := kv.1 = k.

#[global] Instance has_key_dec {V} k (kv : Z * V) : Decision (has_key k kv).
Proof. unfold has_key. apply _. Defined.

(** [d[k]]; [None] stands for [KeyError]. *)
Definition odict_get {V} (k : Z) (d : odict V) : option V :=
  snd <$> (snd <$> list_find (has_key k) d).

(** [d[k] = v]: an existing key keeps its position. *)
Definition odict_set {V} (k : Z) (v : V) (d : odict V) : odict V :=
  match list_find (has_key k) d with
  | Some (i, _) => <[i := (k, v)]> d
  | None => d ++ [(k, v)]
  end.

Definition odict_values {V} (d : odict V) : list V := snd <$> d.

(** The comprehension that builds [habit_stats]. *)
Definition init_stats (habits : list Habit) : odict HabitStats :=
  foldl (λ d habit,
           odict_set (habit_id habit)
             {| stats_id := habit_id habit; stats_name := habit_name habit;
                completed_days := 0; total_days := 0 |} d)
        [] habits.

(** [{entry.habit_id: entry.completed for entry in entries}]. *)
Definition completed_by_habit (entries : list HabitEntry) : gmap Z bool :=
  foldl (λ m entry, <[entry_habit_id entry := entry_completed entry]> m) ∅ entries.

Definition add_day (completed : bool) (s : HabitStats) : HabitStats :=
  {| stats_id := stats_id s; stats_name := stats_name s;
     completed_days := if completed then completed_days s + 1 else completed_days s;
     total_days := total_days s + 1 |}.

(** The loop over habits for one day. *)
Fixpoint count_day (habits : list Habit) (entries_map : gmap Z bool)
    (habit_stats : odict HabitStats) : Py.exn + odict HabitStats :=
  match habits with
  | [] => inr habit_stats
  | habit :: rest =>
      match odict_get (habit_id habit) habit_stats with
      | None => inl Py.KeyError
      | Some stats =>
          let completed := default false (entries_map !! habit_id habit) in
          count_day rest entries_map
            (odict_set (habit_id habit) (add_day completed stats) habit_stats)
      end
  end.

(** [while current_date <= end_date: ...; current_date += timedelta(days=1)]. *)
Equations count_entries (user_id : Z) (habits : list Habit) (es : list HabitEntry)
    (end_date current_date : date) (habit_stats : odict HabitStats)
    : Py.exn + odict HabitStats
    by wf (Z.to_nat (end_date - current_date + 1)) lt :=
  count_entries user_id habits es end_date current_date habit_stats
    with decide (current_date ≤ end_date) := {
    | right _ => inr habit_stats
    | left _
        with count_day habits
               (completed_by_habit (filter (by_user_date user_id current_date) es))
               habit_stats := {
        | inl e => inl e
        | inr habit_stats'
            with inspect (date_add_days current_date 1) := {
            | exist _ (inl e) _ => inl e
            | exist _ (inr next) Hnext =>
                count_entries user_id habits es end_date next habit_stats' } } }.
Next Obligation.
  intros _ _ _ end_date current_date next Hnext Hle _ _ _.
  unfold date_add_days in Hnext. case_match; simplify_eq. lia.
Qed.

Record HabitProgress := {
  progress_id : Z;
  progress_name : string;
  progress_completed_days : Z;
  progress_total_days : Z;
  progress_percentage : float;
}.

(** [round(completed_days / total_days * 100, 2)], or [0.0]. *)
Definition percentage (completed total : Z) : float :=
  if 0 <? total
  then Py.round2 (PrimFloat.mul (Py.truediv completed total) (Py.float_of_Z 100))
  else 0%float.

Definition with_percentage (s : HabitStats) : HabitProgress :=
  {| progress_id := stats_id s;
     progress_name := stats_name s;
     progress_completed_days := completed_days s;
     progress_total_days := total_days s;
     progress_percentage := percentage (completed_days s) (total_days s) |}.

Record ProgressReport := {
  report_start_date : date;
  report_end_date : date;
  report_period : string;
  report_habits : list HabitProgress;
}.

Definition period_error : string := "Period must be 'weekly' or 'monthly'.".

(** The first day of the window; [None] for an unknown period. *)
Definition window_start (period : string) (end_date : date) : option (Py.exn + date) :=
  if decide (period = "weekly") then Some (date_add_days end_date (-6))
  else if decide (period = "monthly") then Some (date_add_days end_date (-29))
  else None.

Definition progress (user_id : Z) (period_arg end_date_arg : option string)
    (today : date) (st : Store) : result ProgressReport :=
  let period := Py.lower (default "weekly" period_arg) in
  match date_param end_date_arg today with
  | inl _ => BadRequest date_format_error
  | inr end_date =>
      match window_start period end_date with
      | None => BadRequest period_error
      | Some (inl e) => Raised e
      | Some (inr start_date) =>
          let habits := all_habits_by_id st in
          match count_entries user_id habits (entries_table st) end_date start_date
                  (init_stats habits) with
          | inl e => Raised e
          | inr habit_stats =>
              Ok {| report_start_date := start_date;
                    report_end_date := end_date;
                    report_period := period;
                    report_habits := with_percentage <$> odict_values habit_stats |}
          end
      end
  end.

(** ** Vocabulary of the statements *)

(** The row [save_habits] adds for a habit that has none. *)
Definition new_entry (user_id : Z) (d : date) (id : Z) (completed : bool) : HabitEntry :=
  {| entry_user_id := user_id; entry_habit_id := id;
     entry_date := d; entry_completed := completed |}.

(** The rows the loop of [save_habits] leaves in the session. *)
Definition save_rows (user_id : Z) (d : date) (completions : gmap Py.key Py.val)
    (habits : list Habit) (es : list HabitEntry) : list HabitEntry :=
  foldl (λ es habit,
           upsert user_id d (habit_id habit) (desired completions (habit_id habit)) es)
        es habits.

(** The number of habits whose requested state is "completed". *)
Definition count_desired (completions : gmap Py.key Py.val) (habits : list Habit) : Z :=
  Z.of_nat (length (filter (λ habit, desired completions (habit_id habit)) habits)).

(** The first row for a habit carries the requested flag. *)
Definition settled (user_id : Z) (d : date) (completions : gmap Py.key Py.val)
    (id : Z) (es : list HabitEntry) : Prop :=
  ∃ i e, list_find (by_key user_id id d) es = Some (i, e)
         ∧ entry_completed e = desired completions id.

(** A well-formed body of POST /habits: a JSON object with a [date]
    string that parses to [d] and a [completions] object; other members
    are ignored. *)
Definition save_request (data : gmap Py.key Py.val) (d : date)
    (completions : gmap Py.key Py.val) : Prop :=
  ∃ s, data !! Py.KStr "date" = Some (Py.VStr s)
       ∧ parse_date s = inr d
       ∧ data !! Py.KStr "completions" = Some (Py.VDict completions).

(** What [get_habits] and [progress] read for a habit on day [d]. *)
Definition completed_on (user_id : Z) (d : date) (es : list HabitEntry) (id : Z) : bool :=
  match entries_by_habit (filter (by_user_date user_id d) es) !! id with
  | Some entry => entry_completed entry
  | None => false
  end.

(** The entry of [habit_stats] for a habit, with its two counters. *)
Definition stats_row (f : Z → Z) (n : Z) (habit : Habit) : Z * HabitStats :=
  (habit_id habit,
   {| stats_id := habit_id habit; stats_name := habit_name habit;
      completed_days := f (habit_id habit); total_days := n |}).

(** The number of days among [k] days from [start] on which the habit
    reads as completed. *)
Definition days_completed (user_id : Z) (es : list HabitEntry) (id : Z)
    (start : date) (k : nat) : Z :=
  Z.of_nat (length (filter (λ day, completed_on user_id day es id)
                           (seqZ start (Z.of_nat k)))).

(** The checks [save_habits] makes before its first query: the response
    of a rejected body, or the date and mapping of an accepted one. *)
Definition save_validate (body : Py.val)
    : result Py.val + (date * gmap Py.key Py.val) :=
  match Py.as_dict (Py.or body (Py.VDict ∅)) with
  | None => inl (Raised Py.AttributeError)
  | Some data =>
      let date_str := Py.get data (Py.KStr "date") in
      match Py.truthy date_str, Py.as_dict (Py.get data (Py.KStr "completions")) with
      | true, Some completions =>
          match date_str with
          | Py.VStr s =>
              match parse_date s with
              | inl _ => inl (BadRequest date_format_error)
              | inr target_date => inr (target_date, completions)
              end
          | _ => inl (Raised Py.TypeError)
          end
      | _, _ => inl (BadRequest payload_error)
      end
  end.

(** The stores that a history of requests to POST /habits produces from
    an empty ledger. *)
Inductive reachable : Store → Prop :=
  | reachable_init hs :
      reachable {| habits_table := hs; entries_table := [] |}
  | reachable_save st user_id body :
      reachable st → reachable (save_habits user_id body st).2.

(** The ledger holds a completed entry for the key. *)
Definition has_completed_entry (es : list HabitEntry) (user_id id : Z) (d : date) : Prop :=
  Exists (λ e, entry_key e = (user_id, id, d) ∧ entry_completed e = true) es.

#[global] Instance has_completed_entry_dec es user_id id d :
  Decision (has_completed_entry es user_id id d).
Proof. unfold has_completed_entry. apply _. Defined.

(** The submitted state of a habit: truthy under the string form of its
    id, or truthy under the id itself. *)
Definition requested (completions : gmap Py.key Py.val) (id : Z) : bool :=
  Py.truthy (Py.get completions (Py.KStr (Py.str id)))
  || Py.truthy (Py.get completions (Py.KInt id)).

(** The entry of the report for a habit, given its count of completed
    days in a window of [days] days. *)
Definition report_row (days c : Z) (h : Habit) : HabitProgress :=
  {| progress_id := habit_id h; progress_name := habit_name h;
     progress_completed_days := c; progress_total_days := days;
     progress_percentage := percentage c days |}.

(** A period name and the length of its window. *)
Definition period_days (period : string) (days : Z) : Prop :=
  (period = "weekly" ∧ days = 7) ∨ (period = "monthly" ∧ days = 30).

(** ** Seeding and sample data *)

Definition default_habits : list string :=
  [ "Wake early"; "Hydrate"; "Read"; "Exercise"; "Pray"; "Plan day";
    "Sleep Well"; "Learn"; "Eat Healthy"; "Limit screentime"; "Journal";
    "Gratitude"; "Clean room"; "Family time"; "Walk" ].

(** [seed_habits]: an empty [habits] table receives the default list, the
    keys counting from 1. *)
Definition seed_habits (st : Store) : Store :=
  match habits_table st with
  | [] =>
      {| habits_table :=
           imap (λ i name, {| habit_id := Z.of_nat i + 1; habit_name := name |})
                default_habits;
         entries_table := entries_table st |}
  | _ => st
  end.

Definition empty_store : Store := {| habits_table := []; entries_table := [] |}.

(** The store after [initialize_database]. *)
Definition seeded : Store := seed_habits empty_store.

(** The body [{"date": date_str, "completions": completions}]. *)
Definition save_body (date_str : string) (completions : gmap Py.key Py.val) : Py.val :=
  Py.VDict (<[Py.KStr "date" := Py.VStr date_str]>
             (<[Py.KStr "completions" := Py.VDict completions]> ∅)).

(** Habits 1 and 2 done. *)
Definition two_done : gmap Py.key Py.val :=
  <[Py.KStr "1" := Py.VBool true]> (<[Py.KStr "2" := Py.VBool true]> ∅).

(** The seeded store after user 7 saved [two_done] for 2024-01-01. *)
Definition after_first_save : Store :=
  (save_habits 7 (save_body "2024-01-01" two_done) seeded).2.

(** A mapping with [false] under ["3"] and [true] under [3]. *)
Definition masked_three : gmap Py.key Py.val :=
  <[Py.KStr "3" := Py.VBool false]> (<[Py.KInt 3 := Py.VBool true]> ∅).

(** A mapping that holds habit 2 only, under its string key. *)
Definition only_two : gmap Py.key Py.val := <[Py.KStr "2" := Py.VBool true]> ∅.

(** Habit 2 under its string key; habit 3 with [false] under ["3"] and
    [true] under [3]. *)
Definition two_and_three : gmap Py.key Py.val :=
  <[Py.KStr "2" := Py.VBool true]> masked_three.

(** * The rest of the application *)

(** ** Dates as text *)

(** [_DAYS_IN_MONTH] and [_DAYS_BEFORE_MONTH] of the [datetime] module,
    for a year that is not a leap year; index 0 is a placeholder. *)
Definition DAYS_IN_MONTH : list Z :=
  [-1; 31; 28; 31; 30; 31; 30; 31; 31; 30; 31; 30; 31].

Definition DAYS_BEFORE_MONTH : list Z :=
  [-1; 0; 31; 59; 90; 120; 151; 181; 212; 243; 273; 304; 334].

(** Month and day of the day number [n] (from 0) of a year. *)
Definition month_day (leapyear : bool) (n : Z) : Z * Z :=
  let month := Z.shiftr (n + 50) 5 in
  let preceding :=
    default 0 (DAYS_BEFORE_MONTH !! Z.to_nat month)
    + (if (2 <? month) && leapyear then 1 else 0) in
  if n <? preceding then
    let month := month - 1 in
    let preceding :=
      preceding - (default 0 (DAYS_IN_MONTH !! Z.to_nat month)
                   + (if (month =? 2) && leapyear then 1 else 0)) in
    (month, n - preceding + 1)
  else (month, n - preceding + 1).

(** [_ord2ymd]: year, month and day of an ordinal. *)
Definition ord2ymd (n : Z) : Z * Z * Z :=
  let n := n - 1 in
  let n400 := n / 146097 in
  let n := n mod 146097 in
  let n100 := n / 36524 in
  let n := n mod 36524 in
  let n4 := n / 1461 in
  let n := n mod 1461 in
  let n1 := n / 365 in
  let n := n mod 365 in
  let year := n400 * 400 + 1 + n100 * 100 + n4 * 4 + n1 in
  if (n1 =? 4) || (n100 =? 4) then (year - 1, 12, 31)
  else
    let leapyear := (n1 =? 3) && (negb (n4 =? 24) || (n100 =? 3)) in
    let '(month, day) := month_day leapyear n in
    (year, month, day).

(** The character of a decimal digit. *)
Definition digit_char (k : Z) : ascii := ascii_of_nat (48 + Z.to_nat k).

(** ["%02d" % k] for [0 <= k <= 99]. *)
Definition pad2 (k : Z) : string :=
  String (digit_char (k / 10)) (String (digit_char (k mod 10)) EmptyString).

(** ["%04d" % k] for [0 <= k <= 9999]. *)
Definition pad4 (k : Z) : string :=
  String (digit_char (k / 1000))
    (String (digit_char (k / 100 mod 10))
       (String (digit_char (k / 10 mod 10))
          (String (digit_char (k mod 10)) EmptyString))).

(** [d.isoformat()]: ["%04d-%02d-%02d" % (year, month, day)], the text of
    a date in the responses of GET /habits and GET /progress. *)
Definition isoformat (d : date) : string :=
  let '(year, month, day) := ord2ymd d in
  pad4 year +:+ "-" +:+ pad2 month +:+ "-" +:+ pad2 day.

(** A number below 100 without a leading zero, as [strptime] also
    accepts it for the month and the day. *)
Definition unpadded (k : Z) : string :=
  if k <? 10 then String (digit_char k) EmptyString else pad2 k.

(** ** GET /quote *)

(** The quote served when the quote service cannot be used. *)
Definition fallback_quote : Py.val * Py.val :=
  (Py.VStr ("Every day is a new opportunity to improve yourself."
            +:+ " Be mindful, grateful, and purposeful."),
   Py.VStr "Unknown").

(** The body of the [try] once the payload is decoded: the pair
    [(quote, author)] when the [return] is reached, nothing when the
    [if] is not taken; [data[0].get] raises when the first element is not
    an object. *)
Definition quote_of_payload (data : Py.val) : Py.exn + option (Py.val * Py.val) :=
  match data with
  | Py.VList (first :: _) =>
      match first with
      | Py.VDict item =>
          inr (Some (Py.get item (Py.KStr "q"), Py.get item (Py.KStr "a")))
      | _ => inl Py.AttributeError
      end
  | _ => inr None
  end.

(** [get_quote]: [fetched] is the decoded payload, or the exception of
    [requests.get], [raise_for_status] or [response.json]; every exception
    is swallowed by [except Exception: pass]. *)
Definition get_quote {E : Type} (fetched : E + Py.val) : result (Py.val * Py.val) :=
  match fetched with
  | inl _ => Ok fallback_quote
  | inr data =>
      match quote_of_payload data with
      | inr (Some quote) => Ok quote
      | inr None => Ok fallback_quote
      | inl _ => Ok fallback_quote
      end
  end.

(** ** Accounts *)

(** A row of [users]. *)
Record User := {
  account_id : Z;
  account_username : string;
  account_password_hash : string;
  account_created_at : Z;
}.

(** A response with its status code, or an exception that leaves the
    view. *)
Inductive reply (A : Type) :=
  | Reply (status : Z) (payload : A)
  | Failed (e : Py.exn).
Arguments Reply {A} status payload.
Arguments Failed {A} e.

#[global] Instance reply_eq_dec {A} `{EqDecision A} : EqDecision (reply A).
Proof. solve_decision. Defined.

(** [data.get("username", "").strip().lower()]: a value that is not a
    string has no [strip]. *)
Definition username_field (data : gmap Py.key Py.val) : Py.exn + string :=
  match data !! Py.KStr "username" with
  | None => inr (Py.lower (Py.strip ""))
  | Some (Py.VStr raw) => inr (Py.lower (Py.strip raw))
  | Some _ => inl Py.AttributeError
  end.

(** [data.get("password", "")]. *)
Definition password_field (data : gmap Py.key Py.val) : Py.val :=
  default (Py.VStr "") (data !! Py.KStr "password").

(** [filter_by(username=...)]; the rows are found by [list_find] once
    the driver has bound the parameter, which it does by encoding the text
    ([UnicodeEncodeError] for a text with a surrogate). *)
Definition by_username (username : string) (u : User) : Prop :=
  account_username u = username.

#[global] Instance by_username_dec username u : Decision (by_username username u).
Proof. unfold by_username. apply _. Defined.

(** The key the storage engine gives a new row: one more than the
    largest key in use. *)
Definition next_account_id (users : list User) : Z :=
  foldr Z.max 0 (account_id <$> users) + 1.

Definition credentials_required : string := "Username and password are required.".
Definition username_taken : string := "Username already exists.".
Definition registered : string := "User registered successfully.".
Definition invalid_credentials : string := "Invalid username or password.".

Section accounts.
(** The password and token capabilities, as the libraries provide them:
    hashing draws a salt, and both hashing and checking can raise on a
    password that is not a string. *)
Variable generate_password_hash : string → Py.val → Py.exn + string.
Variable check_password_hash : string → Py.val → Py.exn + bool.
Variable create_access_token : Z → string.

(** POST /register; [now] is [datetime.utcnow()] and [salt] the salt
    drawn for the hash. *)
Definition register (now : Z) (salt : string) (body : Py.val) (users : list User)
    : reply string * list User :=
  match Py.as_dict (Py.or body (Py.VDict ∅)) with
  | None => (Failed Py.AttributeError, users)
  | Some data =>
      match username_field data with
      | inl e => (Failed e, users)
      | inr username =>
          let password := password_field data in
          if negb (bool_decide (username ≠ "")) || negb (Py.truthy password)
          then (Reply 400 credentials_required, users)
          else if negb (Py.encodable username)
          then (Failed Py.UnicodeEncodeError, users)
          else
            match list_find (by_username username) users with
            | Some _ => (Reply 409 username_taken, users)
            | None =>
                match generate_password_hash salt password with
                | inl e => (Failed e, users)
                | inr password_hash =>
                    (Reply 201 registered,
                     users ++ [ {| account_id := next_account_id users;
                                   account_username := username;
                                   account_password_hash := password_hash;
                                   account_created_at := now |} ])
                end
            end
      end
  end.

(** POST /login: the token on success, the error message otherwise. *)
Definition login (body : Py.val) (users : list User) : reply (string + string) :=
  match Py.as_dict (Py.or body (Py.VDict ∅)) with
  | None => Failed Py.AttributeError
  | Some data =>
      match username_field data with
      | inl e => Failed e
      | inr username =>
          let password := password_field data in
          if negb (Py.encodable username) then Failed Py.UnicodeEncodeError else
          match list_find (by_username username) users with
          | None => Reply 401 (inr invalid_credentials)
          | Some (_, user) =>
              match check_password_hash (account_password_hash user) password with
              | inl e => Failed e
              | inr true => Reply 200 (inl (create_access_token (account_id user)))
              | inr false => Reply 401 (inr invalid_credentials)
              end
          end
      end
  end.

End accounts.

(** The [plain] method of the hashing library, used in the examples. *)
Definition plain_hash (salt : string) (password : Py.val) : Py.exn + string :=
  match password with
  | Py.VStr p => inr ("plain$$" +:+ p)
  | _ => inl Py.AttributeError
  end.

Definition plain_check (pwhash : string) (password : Py.val) : Py.exn + bool :=
  match password with
  | Py.VStr p => inr (bool_decide (pwhash = "plain$$" +:+ p))
  | _ => inl Py.AttributeError
  end.

(** The body [{"username": username, "password": password}]. *)
Definition credentials (username password : string) : Py.val :=
  Py.VDict (<[Py.KStr "username" := Py.VStr username]>
             (<[Py.KStr "password" := Py.VStr password]> ∅)).

(** U+00A0 NO-BREAK SPACE, U+2003 EM SPACE and U+212A KELVIN SIGN, by
    their bytes. *)
Definition nbsp : string := String "194" (String "160" "").
Definition em_space : string := String "226" (String "128" (String "131" "")).
Definition kelvin_sign : string := String "226" (String "132" (String "170" "")).

(** U+D800, a surrogate on its own, as the JSON text ["\ud800"] gives. *)
Definition lone_surrogate : string := String "237" (String "160" (String "128" "")).

(** The table after a registration as [ÉCOLE], sent with a no-break
    space before the name and an em space after it. *)
Definition ecole_table : list User :=
  (register plain_hash 5 "s" (credentials (nbsp +:+ "ÉCOLE" +:+ em_space) "pw") []).2.

(** The user tables that registrations produce from an empty table. *)
Inductive registrations (generate_password_hash : string → Py.val → Py.exn + string)
    : list User → Prop :=
  | registrations_none : registrations generate_password_hash []
  | registrations_more users now salt body :
      registrations generate_password_hash users →
      registrations generate_password_hash
        (register generate_password_hash now salt body users).2.

(** The fields [register] and [login] read from a body: the normalized
    username and the password as sent. *)
Definition auth_request (body : Py.val) (username : string) (password : Py.val) : Prop :=
  ∃ data, Py.as_dict (Py.or body (Py.VDict ∅)) = Some data
          ∧ username_field data = inr username
          ∧ password_field data = password.

(** ** The views seen together *)

(** The [completed] flag GET /habits answers for the habit at position
    [i] of its list, asked for [day] by the text of the day. *)
Definition reads_completed (user_id : Z) (today : date) (st : Store) (i : nat)
    (day : date) : bool :=
  match get_habits user_id (Some (isoformat day)) today st with
  | Ok (_, statuses) =>
      match statuses !! i with
      | Some s => status_completed s
      | None => false
      end
  | _ => false
  end.

(** * Properties *)

(** ** Text *)

Lemma char_of_byte_byte a : Py.char_of_byte (Py.byte a) = a.
Proof. unfold Py.char_of_byte, Py.byte. by rewrite N2Z.id, ascii_N_embedding. Qed.

Lemma byte_range a : 0 ≤ Py.byte a < 256.
Proof. unfold Py.byte. pose proof (N_ascii_bounded a). lia. Qed.

Ltac bool_to_prop :=
  repeat match goal with
    | H : negb _ = true |- _ => apply negb_true_iff in H
    | H : negb _ = false |- _ => apply negb_false_iff in H
    | H : (_ && _) = true |- _ => apply andb_true_iff in H as [? ?]
    | H : (_ <=? _) = true |- _ => apply Z.leb_le in H
    | H : (_ <=? _) = false |- _ => apply Z.leb_gt in H
    | H : (_ <? _) = true |- _ => apply Z.ltb_lt in H
    | H : (_ <? _) = false |- _ => apply Z.ltb_ge in H
    end.

(** The bytes of the first character, followed by the rest, are the
    text: reading consumes at least one byte and loses none. *)
Lemma next_char_bytes s c r :
  Py.next_char s = Some (c, r) →
  foldr (λ b, String (Py.char_of_byte b)) r (Py.bytes_of_char c) = s.
Proof.
  destruct s as [|a0 r0]; [done|]. unfold Py.next_char, Py.continuation.
  pose proof (byte_range a0).
  intros Hnext.
  repeat match type of Hnext with
    | (if ?b then _ else _) = _ => destruct b eqn:?
    | match ?x with EmptyString => _ | String _ _ => _ end = _ => destruct x as [|? ?]
    end;
    injection Hnext as <- <-; bool_to_prop;
    repeat match goal with a : ascii |- _ => 
             lazymatch goal with
             | H : 0 ≤ Py.byte a < 256 |- _ => fail
             | _ => pose proof (byte_range a)
             end
           end;
    unfold Py.bytes_of_char;
    repeat (case_match; bool_to_prop; try lia);
    cbn [foldr];
    repeat (f_equal; try (etransitivity; [|apply char_of_byte_byte]; f_equal;
                          Z.to_euclidean_division_equations; lia)).
Qed.

Lemma next_char_None s : Py.next_char s = None → s = "".
Proof.
  destruct s as [|a0 r0]; [done|]. unfold Py.next_char.
  repeat case_match; done.
Qed.

Lemma bytes_of_char_nonempty c : Py.bytes_of_char c ≠ [].
Proof. unfold Py.bytes_of_char. by repeat case_match. Qed.

Lemma next_char_shorter s c r :
  Py.next_char s = Some (c, r) → (String.length r < String.length s)%nat.
Proof.
  intros <-%next_char_bytes. pose proof (bytes_of_char_nonempty c).
  assert (∀ bs, String.length (foldr (λ b, String (Py.char_of_byte b)) r bs)
                = (length bs + String.length r)%nat) as Hlen.
  { induction bs as [|b bs IH]; cbn [foldr String.length length]; lia. }
  rewrite Hlen. destruct (Py.bytes_of_char c); [done|]. cbn [length]. lia.
Qed.

Lemma encode_cons c l :
  Py.encode (c :: l) =
  foldr (λ b, String (Py.char_of_byte b)) (Py.encode l) (Py.bytes_of_char c).
Proof. done. Qed.

(** A text is the encoding of its characters: [decode] reads every text
    to its end, whatever its bytes. *)
Lemma encode_decode s : Py.encode (Py.decode s) = s.
Proof.
  unfold Py.decode.
  assert (∀ n s, (String.length s ≤ n)%nat → Py.encode (Py.decode_steps n s) = s)
    as Hall; [|by apply Hall].
  clear s. induction n as [|n IH]; intros s Hn.
  - destruct s; [done|]. cbn [String.length] in Hn. lia.
  - cbn [Py.decode_steps].
    destruct (Py.next_char s) as [[c r]|] eqn:Hnext.
    + rewrite encode_cons, IH; [by apply next_char_bytes|].
      apply next_char_shorter in Hnext. lia.
    + by apply next_char_None in Hnext as ->.
Qed.

(** ** The catalog query *)

#[global] Instance habit_le_total : Total habit_le.
Proof. intros a b. unfold habit_le. lia. Qed.

#[global] Instance habit_le_trans : Transitive habit_le.
Proof. intros a b c. unfold habit_le. lia. Qed.

Lemma all_habits_perm st : all_habits_by_id st ≡ₚ habits_table st.
Proof. apply merge_sort_Permutation. Qed.

Lemma all_habits_sorted st : StronglySorted habit_le (all_habits_by_id st).
Proof. apply (StronglySorted_merge_sort habit_le). Qed.

Lemma all_habits_length st : length (all_habits_by_id st) = length (habits_table st).
Proof. by rewrite all_habits_perm. Qed.

Lemma all_habits_elem st h : h ∈ all_habits_by_id st ↔ h ∈ habits_table st.
Proof. by rewrite all_habits_perm. Qed.

Lemma all_habits_unique st :
  catalog_unique (habits_table st) → catalog_unique (all_habits_by_id st).
Proof. unfold catalog_unique. by rewrite all_habits_perm. Qed.

(** ** Generic facts on lists *)

Section list_facts.
Context {A : Type} (P : A → Prop) `{!∀ x, Decision (P x)}.

(** Replacing an element that does not satisfy [P] by another such
    element does not move the first match. *)
Lemma list_find_insert_irrel (l : list A) i x y :
  l !! i = Some x → ¬ P x → ¬ P y →
  list_find P (<[i:=y]> l) = list_find P l.
Proof.
  revert i. induction l as [|a l IH]; intros [|i] Hi Hx Hy; simplify_eq/=.
  - by rewrite !decide_False.
  - case_decide; [done|]. by rewrite (IH i).
Qed.

Lemma list_find_snoc_Some (l : list A) z r :
  list_find P l = Some r → list_find P (l ++ [z]) = Some r.
Proof. destruct r as [i x]. apply list_find_app_l. Qed.

Lemma list_find_snoc_None (l : list A) z :
  list_find P l = None → ¬ P z → list_find P (l ++ [z]) = None.
Proof.
  intros Hl%list_find_None Hz. apply list_find_None, Forall_app. split.
  - done.
  - by constructor.
Qed.

Lemma list_find_snoc_new (l : list A) z :
  list_find P l = None → P z → list_find P (l ++ [z]) = Some (length l, z).
Proof.
  intros Hl Hz. rewrite list_find_app_r by done. simpl.
  by rewrite decide_True.
Qed.
End list_facts.

Lemma filter_none {A} (P : A → Prop) `{!∀ x, Decision (P x)} (l : list A) :
  (∀ x, x ∈ l → ¬ P x) → filter P l = [].
Proof.
  induction l as [|x l IH]; intros Hl; [done|].
  rewrite filter_cons_False by (apply Hl; by left).
  apply IH. intros y Hy. apply Hl. by right.
Qed.

Lemma NoDup_fmap_inj_on {A B} (f : A → B) (l : list A) x y :
  NoDup (f <$> l) → x ∈ l → y ∈ l → f x = f y → x = y.
Proof.
  intros Hnd [i Hi]%list_elem_of_lookup [j Hj]%list_elem_of_lookup Hf.
  assert (i = j) as ->; [|congruence].
  eapply (NoDup_lookup _ i j (f x) Hnd).
  - by rewrite list_lookup_fmap, Hi.
  - by rewrite list_lookup_fmap, Hj, Hf.
Qed.

(** ** The upsert of one row *)

Section upsert.
Context (user_id : Z) (d : date).

Lemma entry_key_set_completed c e : entry_key (set_completed c e) = entry_key e.
Proof. done. Qed.

Lemma set_completed_id e : set_completed (entry_completed e) e = e.
Proof. by destruct e. Qed.

(** The two cases of the loop body. *)
Lemma upsert_cases id c es :
  (∃ i e, list_find (by_key user_id id d) es = Some (i, e)
          ∧ upsert user_id d id c es = <[i := set_completed c e]> es)
  ∨ (list_find (by_key user_id id d) es = None
     ∧ upsert user_id d id c es = es ++ [new_entry user_id d id c]).
Proof.
  unfold upsert. destruct (list_find _ es) as [[i e]|] eqn:Hf; eauto.
Qed.

(** An update keeps the key columns of every row; an insertion adds the
    one key that was missing. *)
Lemma upsert_keys id c es :
  entry_key <$> upsert user_id d id c es =
    (entry_key <$> es) ++
    (if decide ((user_id, id, d) ∈ entry_key <$> es) then [] else [(user_id, id, d)]).
Proof.
  destruct (upsert_cases id c es) as [(i & e & Hf & ->)|[Hf ->]].
  - apply list_find_Some in Hf as (Hi & Hk & _).
    rewrite decide_True.
    + rewrite app_nil_r, list_fmap_insert, entry_key_set_completed.
      apply list_insert_id. by rewrite list_lookup_fmap, Hi.
    + rewrite <-Hk. apply list_elem_of_fmap_2. by eapply list_elem_of_lookup_2.
  - rewrite decide_False; [by rewrite fmap_app|].
    intros (e & He & Hin)%list_elem_of_fmap.
    apply list_find_None in Hf. rewrite Forall_forall in Hf.
    by apply (Hf e).
Qed.

Lemma upsert_unique id c es :
  ledger_unique es → ledger_unique (upsert user_id d id c es).
Proof.
  unfold ledger_unique. rewrite upsert_keys. intros Hnd.
  case_decide; [by rewrite app_nil_r|].
  apply NoDup_app. split_and!; [done| |apply NoDup_singleton].
  intros k Hk ->%list_elem_of_singleton. done.
Qed.

(** After the body has run, the first row with the key carries the
    requested flag. *)
Lemma upsert_find id c es :
  ∃ i e, list_find (by_key user_id id d) (upsert user_id d id c es) = Some (i, e)
         ∧ entry_completed e = c.
Proof.
  destruct (upsert_cases id c es) as [(i & e & Hf & ->)|[Hf ->]].
  - exists i, (set_completed c e). split; [|done].
    apply list_find_Some in Hf as (Hi & Hk & Hlt).
    apply list_find_Some. split_and!.
    + apply list_lookup_insert_eq. by eapply lookup_lt_Some.
    + done.
    + intros j y Hj Hji. rewrite list_lookup_insert_ne in Hj by lia. eauto.
  - exists (length es), (new_entry user_id d id c). split; [|done].
    by apply list_find_snoc_new.
Qed.

(** The first row of another key is not affected. *)
Lemma upsert_find_other id c es u' id' d' :
  (u', id', d') ≠ (user_id, id, d) →
  list_find (by_key u' id' d') (upsert user_id d id c es) =
  list_find (by_key u' id' d') es.
Proof.
  intros Hne.
  destruct (upsert_cases id c es) as [(i & e & Hf & ->)|[Hf ->]].
  - apply list_find_Some in Hf as (Hi & Hk & _).
    apply (list_find_insert_irrel _ _ _ e); [done|..];
      unfold by_key in *; rewrite ?entry_key_set_completed; congruence.
  - destruct (list_find (by_key u' id' d') es) as [r|] eqn:Hf'.
    + by apply list_find_snoc_Some.
    + apply list_find_snoc_None; [done|]. unfold by_key. simpl.
      unfold entry_key. simpl. congruence.
Qed.

(** Writing the flag a row already has changes nothing. *)
Lemma upsert_same id es i e :
  list_find (by_key user_id id d) es = Some (i, e) →
  upsert user_id d id (entry_completed e) es = es.
Proof.
  intros Hf. unfold upsert. rewrite Hf, set_completed_id.
  apply list_insert_id. by apply list_find_Some in Hf as (? & _).
Qed.

(** Rows of another user or another date stay where they are, as they
    are. *)
Lemma upsert_frame id c es j e :
  ¬ by_user_date user_id d e →
  upsert user_id d id c es !! j = Some e ↔ es !! j = Some e.
Proof.
  intros He.
  assert (∀ e', entry_key e' = (user_id, id, d) → e' ≠ e) as Hkey.
  { intros e' Hk <-. apply He. unfold by_user_date, entry_key in *.
    by simplify_eq. }
  destruct (upsert_cases id c es) as [(i & x & Hf & ->)|[Hf ->]].
  - apply list_find_Some in Hf as (Hi & Hk & _).
    destruct (decide (i = j)) as [->|]; [|by rewrite list_lookup_insert_ne].
    rewrite list_lookup_insert_eq by (by eapply lookup_lt_Some).
    rewrite Hi. split; intros [= <-]; exfalso.
    + by eapply (Hkey (set_completed c x)).
    + by eapply (Hkey x).
  - destruct (decide (j < length es)%nat).
    + by rewrite lookup_app_l.
    + rewrite lookup_app_r, (lookup_ge_None_2 es) by lia.
      split; [|done]. intros Hj.
      apply list_lookup_singleton_Some in Hj as [_ <-].
      exfalso. by eapply (Hkey (new_entry user_id d id c)).
Qed.
End upsert.

(** ** The loop of [save_habits] *)

Section save_loop.
Context (user_id : Z) (d : date) (completions : gmap Py.key Py.val).

Lemma save_loop_split habits es n :
  foldl (save_entry user_id d completions) (es, n) habits =
  (save_rows user_id d completions habits es, n + count_desired completions habits).
Proof.
  revert es n. induction habits as [|h hs IH]; intros es n; simpl.
  - unfold count_desired. simpl. f_equal. lia.
  - destruct (save_entry user_id d completions (es, n) h) as [es1 n1] eqn:Hstep.
    rewrite IH. unfold save_entry in Hstep. simpl in Hstep.
    injection Hstep as <- <-. f_equal. unfold count_desired.
    destruct (desired completions (habit_id h)) eqn:Hd.
    + rewrite filter_cons_True by (simpl; rewrite Hd; exact I). simpl. lia.
    + rewrite filter_cons_False by (simpl; rewrite Hd; exact id). lia.
Qed.

Lemma save_rows_unique habits es :
  ledger_unique es → ledger_unique (save_rows user_id d completions habits es).
Proof.
  revert es. induction habits as [|h hs IH]; intros es Hes; simpl; [done|].
  by apply IH, upsert_unique.
Qed.

(** Old rows keep their key and their place; the rows added have fresh,
    pairwise distinct keys of catalog habits for this user and date. *)
Lemma save_rows_keys habits es :
  ∃ new,
    entry_key <$> save_rows user_id d completions habits es = (entry_key <$> es) ++ new
    ∧ NoDup new
    ∧ ∀ k, k ∈ new →
        (k ∉ entry_key <$> es) ∧ ∃ h, h ∈ habits ∧ k = (user_id, habit_id h, d).
Proof.
  revert es. induction habits as [|h hs IH]; intros es; simpl.
  { exists []. rewrite app_nil_r. split_and!; [done|constructor|].
    by intros k ?%elem_of_nil. }
  destruct (IH (upsert user_id d (habit_id h) (desired completions (habit_id h)) es))
    as (new & Hkeys & Hnd & Hnew).
  rewrite upsert_keys in Hkeys, Hnew.
  case_decide as Hin.
  - rewrite app_nil_r in Hkeys, Hnew. exists new. split_and!; [done..|].
    intros k Hk. destruct (Hnew k Hk) as (? & h' & ? & ?).
    split; [done|]. exists h'. split; [by right|done].
  - exists ((user_id, habit_id h, d) :: new). split_and!.
    + by rewrite Hkeys, <-app_assoc.
    + constructor; [|done]. intros Hk. destruct (Hnew _ Hk) as [Hk' _].
      apply Hk', elem_of_app. right. by left.
    + intros k [->|Hk]%elem_of_cons.
      * split; [done|]. exists h. split; [by left|done].
      * destruct (Hnew k Hk) as (Hk' & h' & ? & ?). split.
        -- intros ?. apply Hk', elem_of_app. by left.
        -- exists h'. split; [by right|done].
Qed.

Lemma settled_upsert id es :
  settled user_id d completions id (upsert user_id d id (desired completions id) es).
Proof. apply upsert_find. Qed.

Lemma settled_upsert_other id id' es :
  settled user_id d completions id es →
  settled user_id d completions id (upsert user_id d id' (desired completions id') es).
Proof.
  intros Hs. destruct (decide (id = id')) as [<-|Hne]; [apply settled_upsert|].
  unfold settled. rewrite upsert_find_other; [done|congruence].
Qed.

Lemma save_rows_settled habits es id :
  (∃ h, h ∈ habits ∧ habit_id h = id) ∨ settled user_id d completions id es →
  settled user_id d completions id (save_rows user_id d completions habits es).
Proof.
  revert es. induction habits as [|h hs IH]; intros es H; simpl.
  - destruct H as [(h & []%elem_of_nil & _)|?]; done.
  - apply IH. destruct H as [(h' & [->|Hin]%elem_of_cons & <-)|Hs].
    + right. apply settled_upsert.
    + left. eauto.
    + right. by apply settled_upsert_other.
Qed.

Lemma save_rows_fixed habits es :
  (∀ h, h ∈ habits → settled user_id d completions (habit_id h) es) → save_rows user_id d completions habits es = es.
Proof.
  induction habits as [|h hs IH]; intros Hs; simpl; [done|].
  destruct (Hs h) as (i & e & Hf & <-); [by left|].
  rewrite (upsert_same _ _ _ _ _ _ Hf). apply IH.
  intros h' Hh'. apply Hs. by right.
Qed.

(** Running the loop again on its own output is the identity. *)
Lemma save_rows_idem habits es :
  save_rows user_id d completions habits (save_rows user_id d completions habits es) = save_rows user_id d completions habits es.
Proof.
  apply save_rows_fixed. intros h Hh. apply save_rows_settled. left. eauto.
Qed.

Lemma save_rows_frame habits es j e :
  ¬ by_user_date user_id d e →
  save_rows user_id d completions habits es !! j = Some e ↔ es !! j = Some e.
Proof.
  intros He. revert es. induction habits as [|h hs IH]; intros es; simpl; [done|].
  by rewrite IH, upsert_frame.
Qed.

(** What a reader finds: a row with the habit's key and requested flag. *)
Lemma save_rows_entry habits es h :
  h ∈ habits →
  ∃ e, e ∈ save_rows user_id d completions habits es
       ∧ entry_key e = (user_id, habit_id h, d)
       ∧ entry_completed e = desired completions (habit_id h).
Proof.
  intros Hh.
  destruct (save_rows_settled habits es (habit_id h)) as (i & e & Hf & Hc); [eauto|].
  apply list_find_Some in Hf as (Hi & Hk & _).
  exists e. split_and!; [by eapply list_elem_of_lookup_2|done..].
Qed.
End save_loop.

(** ** [save_habits] on a well-formed body *)

Lemma parse_date_nonempty s d : parse_date s = inr d → s ≠ "".
Proof. by intros H ->. Qed.

Lemma save_habits_ok user_id data d completions st :
  save_request data d completions →
  save_habits user_id (Py.VDict data) st =
    (Ok (save_percentage (count_desired completions (all_habits_by_id st))
                         (all_habits_by_id st)),
     {| habits_table := habits_table st;
        entries_table :=
          save_rows user_id d completions (all_habits_by_id st) (entries_table st) |}).
Proof.
  intros (s & Hdate & Hparse & Hcompl).
  unfold save_habits, Py.or. simpl.
  assert (data ≠ ∅) as Hne by (intros ->; by rewrite lookup_empty in Hdate).
  rewrite bool_decide_false by done. simpl.
  unfold Py.get. rewrite Hdate, Hcompl. simpl.
  destruct s as [|c s]; [done|]. simpl. rewrite Hparse.
  by rewrite save_loop_split.
Qed.

(** ** Reading a day *)

Section read.
Context (user_id : Z) (d : date).

Lemma entries_by_habit_snoc l e :
  entries_by_habit (l ++ [e]) = <[entry_habit_id e := e]> (entries_by_habit l).
Proof. unfold entries_by_habit. by rewrite foldl_snoc. Qed.

Lemma completed_by_habit_snoc l e :
  completed_by_habit (l ++ [e]) =
  <[entry_habit_id e := entry_completed e]> (completed_by_habit l).
Proof. unfold completed_by_habit. by rewrite foldl_snoc. Qed.

(** The two comprehensions agree: one keeps the row, the other its flag. *)
Lemma completed_by_habit_fmap l :
  completed_by_habit l = entry_completed <$> entries_by_habit l.
Proof.
  induction l as [|e l IH] using rev_ind.
  - unfold completed_by_habit, entries_by_habit. simpl. by rewrite fmap_empty.
  - by rewrite completed_by_habit_snoc, entries_by_habit_snoc, fmap_insert, IH.
Qed.

(** A key of the dictionary maps to one of the rows it was built from. *)
Lemma entries_by_habit_Some l id e :
  entries_by_habit l !! id = Some e → e ∈ l ∧ entry_habit_id e = id.
Proof.
  induction l as [|x l IH] using rev_ind.
  - unfold entries_by_habit. simpl. by rewrite lookup_empty.
  - rewrite entries_by_habit_snoc, lookup_insert. case_decide as Hx.
    + intros [= <-]. split; [|done]. apply elem_of_app. right. by left.
    + intros [? ?]%IH. split; [|done]. apply elem_of_app. by left.
Qed.

Lemma entries_by_habit_None l id :
  entries_by_habit l !! id = None ↔ ∀ e, e ∈ l → entry_habit_id e ≠ id.
Proof.
  induction l as [|x l IH] using rev_ind.
  - unfold entries_by_habit. simpl. rewrite lookup_empty.
    split; [|done]. by intros _ e ?%elem_of_nil.
  - rewrite entries_by_habit_snoc, lookup_insert. case_decide as Hx.
    + split; [done|]. intros H. destruct (H x); [|done].
      apply elem_of_app. right. by left.
    + rewrite IH. split.
      * intros H e [?|He%list_elem_of_singleton]%elem_of_app; [by apply H|by subst].
      * intros H e ?. apply H, elem_of_app. by left.
Qed.

Lemma completed_on_alt es id :
  default false (completed_by_habit (filter (by_user_date user_id d) es) !! id)
  = completed_on user_id d es id.
Proof.
  unfold completed_on. rewrite completed_by_habit_fmap, lookup_fmap.
  by destruct (_ !! id).
Qed.

Lemma elem_of_filter_key (es : list HabitEntry) e id :
  e ∈ filter (by_user_date user_id d) es ∧ entry_habit_id e = id
  ↔ e ∈ es ∧ entry_key e = (user_id, id, d).
Proof.
  rewrite list_elem_of_filter. unfold by_user_date, entry_key. split.
  - intros [[[Hu Hd] He] Hid]. split; [done|]. by rewrite Hu, Hd, Hid.
  - intros [He [= Hu Hid Hd]]. by split_and!.
Qed.

(** No row for the key: reported as not completed. *)
Lemma completed_on_absent es id :
  (∀ e, e ∈ es → entry_key e ≠ (user_id, id, d)) → completed_on user_id d es id = false.
Proof.
  intros Hno. unfold completed_on.
  destruct (_ !! id) as [e|] eqn:He; [|done].
  apply entries_by_habit_Some in He. apply elem_of_filter_key in He as [? ?].
  by destruct (Hno e).
Qed.

(** Under the uniqueness constraint the flag read is the flag of the
    row with the key. *)
Lemma completed_on_entry es id e :
  ledger_unique es → e ∈ es → entry_key e = (user_id, id, d) →
  completed_on user_id d es id = entry_completed e.
Proof.
  intros Hu He Hk. unfold completed_on.
  destruct (_ !! id) as [e'|] eqn:He'.
  - apply entries_by_habit_Some, elem_of_filter_key in He' as [? ?].
    f_equal. apply (NoDup_fmap_inj_on entry_key es e' e Hu); [done..|congruence].
  - rewrite entries_by_habit_None in He'.
    assert (e ∈ filter (by_user_date user_id d) es ∧ entry_habit_id e = id)
      as [? ?] by (by apply elem_of_filter_key).
    by destruct (He' e).
Qed.

Lemma completed_on_true es id :
  ledger_unique es →
  completed_on user_id d es id = true ↔
  ∃ e, e ∈ es ∧ entry_key e = (user_id, id, d) ∧ entry_completed e = true.
Proof.
  intros Hu. split.
  - unfold completed_on. destruct (_ !! id) as [e|] eqn:He; [|done].
    intros Hc. apply entries_by_habit_Some, elem_of_filter_key in He as [? ?].
    eauto.
  - intros (e & He & Hk & Hc). by rewrite (completed_on_entry es id e).
Qed.

Lemma habit_status_completed es habit :
  status_completed
    (habit_status (entries_by_habit (filter (by_user_date user_id d) es)) habit)
  = completed_on user_id d es (habit_id habit).
Proof. done. Qed.
End read.

(** ** The aggregation loops *)

(** The loop of [progress], one step unfolded. *)
Lemma count_entries_step user_id habits es end_date current_date habit_stats :
  count_entries user_id habits es end_date current_date habit_stats =
  if decide (current_date ≤ end_date) then
    match count_day habits
            (completed_by_habit (filter (by_user_date user_id current_date) es))
            habit_stats with
    | inl e => inl e
    | inr habit_stats' =>
        match date_add_days current_date 1 with
        | inl e => inl e
        | inr next => count_entries user_id habits es end_date next habit_stats'
        end
    end
  else inr habit_stats.
Proof.
  rewrite count_entries_equation_1.
  destruct (decide (current_date ≤ end_date)); simpl; [|done].
  destruct (count_day _ _ _); simpl; [done|].
  by destruct (date_add_days current_date 1).
Qed.

Section odict.
Context {V : Type}.
Implicit Types (a b : odict V) (k : Z) (v : V).

Lemma odict_find_mid a k v b :
  k ∉ a.*1 → list_find (has_key k) (a ++ (k, v) :: b) = Some (length a, (k, v)).
Proof.
  intros Hk. rewrite list_find_app_r.
  - simpl. by rewrite decide_True.
  - apply list_find_None, Forall_forall. intros [k' v'] Hin <-.
    apply Hk. by apply (list_elem_of_fmap_2 fst) in Hin.
Qed.

Lemma odict_get_mid a k v b : k ∉ a.*1 → odict_get k (a ++ (k, v) :: b) = Some v.
Proof. intros Hk. unfold odict_get. by rewrite odict_find_mid. Qed.

Lemma odict_set_mid a k v v' b :
  k ∉ a.*1 → odict_set k v' (a ++ (k, v) :: b) = a ++ (k, v') :: b.
Proof.
  intros Hk. unfold odict_set. rewrite odict_find_mid by done. simpl.
  by rewrite insert_app_r_alt, Nat.sub_diag by done.
Qed.

Lemma odict_set_new a k v : k ∉ a.*1 → odict_set k v a = a ++ [(k, v)].
Proof.
  intros Hk. unfold odict_set.
  assert (list_find (has_key k) a = None) as ->; [|done].
  apply list_find_None, Forall_forall. intros [k' v'] Hin <-.
  apply Hk. by apply (list_elem_of_fmap_2 fst) in Hin.
Qed.
End odict.

Section aggregate.
Context (user_id : Z) (es : list HabitEntry).

Lemma stats_row_keys f n (habits : list Habit) :
  (stats_row f n <$> habits).*1 = habit_id <$> habits.
Proof. rewrite <-list_fmap_compose. by apply list_fmap_ext. Qed.

Lemma stats_row_ext f g n m (habits : list Habit) :
  (∀ id, f id = g id) → n = m →
  stats_row f n <$> habits = stats_row g m <$> habits.
Proof.
  intros Hfg ->. apply list_fmap_ext. intros i h _. unfold stats_row.
  by rewrite Hfg.
Qed.

Lemma init_stats_rows habits :
  catalog_unique habits → init_stats habits = stats_row (λ _, 0) 0 <$> habits.
Proof.
  unfold init_stats, catalog_unique.
  change (@nil (Z * HabitStats)) with (stats_row (λ _, 0) 0 <$> []).
  change habits with ([] ++ habits) at 1 3.
  generalize (@nil Habit) as pre. induction habits as [|h hs IH]; intros pre Hnd.
  - by rewrite app_nil_r.
  - simpl. rewrite odict_set_new.
    + rewrite (cons_middle h pre hs), app_assoc in Hnd |- *.
      rewrite <-(IH (pre ++ [h]) Hnd). by rewrite fmap_app.
    + rewrite stats_row_keys. rewrite fmap_app in Hnd.
      apply NoDup_app in Hnd as (_ & Hnd & _). intros Hin.
      apply (Hnd _ Hin). by left.
Qed.

(** The flags of one day are added to every habit's counters. *)
Lemma count_day_rows m f n pre rest :
  let f' := λ id, if default false (m !! id) then f id + 1 else f id in
  NoDup (habit_id <$> pre ++ rest) →
  count_day rest m ((stats_row f' (n + 1) <$> pre) ++ (stats_row f n <$> rest)) =
  inr (stats_row f' (n + 1) <$> pre ++ rest).
Proof.
  intros f'. revert pre. induction rest as [|h hs IH]; intros pre Hnd; simpl.
  - by rewrite !app_nil_r.
  - assert (habit_id h ∉ (stats_row f' (n + 1) <$> pre).*1) as Hh.
    { rewrite stats_row_keys. rewrite fmap_app in Hnd.
      apply NoDup_app in Hnd as (_ & Hnd & _). intros Hin.
      apply (Hnd _ Hin). by left. }
    change (stats_row f n h) with (habit_id h, (stats_row f n h).2).
    rewrite odict_get_mid, odict_set_mid by done.
    rewrite (cons_middle h pre hs), app_assoc in Hnd |- *.
    rewrite <-(IH (pre ++ [h]) Hnd). by rewrite fmap_app, <-app_assoc.
Qed.

Lemma days_completed_0 id start : days_completed user_id es id start 0 = 0.
Proof. done. Qed.

Lemma days_completed_S id start k :
  days_completed user_id es id start (S k) =
  (if completed_on user_id start es id then 1 else 0)
  + days_completed user_id es id (start + 1) k.
Proof.
  unfold days_completed. rewrite seqZ_cons by lia.
  replace (Z.pred (Z.of_nat (S k))) with (Z.of_nat k) by lia.
  replace (Z.succ start) with (start + 1) by lia.
  destruct (completed_on user_id start es id) eqn:Hc.
  - rewrite filter_cons_True by (simpl; rewrite Hc; exact I). cbn [length]. lia.
  - rewrite filter_cons_False by (simpl; rewrite Hc; exact (λ x, x)). lia.
Qed.

Lemma days_completed_bounds id start k :
  0 ≤ days_completed user_id es id start k ≤ Z.of_nat k.
Proof.
  unfold days_completed. split; [lia|].
  pose proof (length_filter (λ day, completed_on user_id day es id)
                (seqZ start (Z.of_nat k))) as H.
  rewrite length_seqZ in H. lia.
Qed.

(** The loop over the [k] days up to [end_date], when the day after
    [end_date] is still a date. *)
Lemma count_entries_rows habits end_date k :
  catalog_unique habits → end_date < MAXORDINAL →
  ∀ current_date f n,
    MINORDINAL ≤ current_date →
    current_date + Z.of_nat k = end_date + 1 →
    count_entries user_id habits es end_date current_date
      (stats_row f n <$> habits) =
    inr (stats_row (λ id, f id + days_completed user_id es id current_date k)
           (n + Z.of_nat k) <$> habits).
Proof.
  intros Hnd Hmax. induction k as [|k IH]; intros cur f n Hmin Hcur;
    rewrite count_entries_step.
  - rewrite decide_False by lia. f_equal.
    apply stats_row_ext; [|lia]. intros id. rewrite days_completed_0. lia.
  - rewrite decide_True by lia.
    rewrite (count_day_rows _ f n [] habits Hnd). simpl.
    unfold date_add_days. unfold MINORDINAL in *.
    rewrite (proj2 (Z.leb_le _ _)), (proj2 (Z.leb_le _ _)) by lia. simpl.
    rewrite IH by lia. f_equal. apply stats_row_ext; [|lia].
    intros id. rewrite days_completed_S, completed_on_alt.
    destruct (completed_on user_id cur es id); lia.
Qed.
End aggregate.

(** ** Floats: a zero count gives a zero percentage *)

Lemma digits2_pos_lower p : 2 ^ (Z.pos (digits2_pos p) - 1) ≤ Z.pos p.
Proof.
  induction p as [p IH|p IH|]; simpl digits2_pos.
  - rewrite Pos2Z.inj_succ.
    replace (Z.succ (Z.pos (digits2_pos p)) - 1)
      with (Z.succ (Z.pos (digits2_pos p) - 1)) by lia.
    rewrite Z.pow_succ_r by lia. lia.
  - rewrite Pos2Z.inj_succ.
    replace (Z.succ (Z.pos (digits2_pos p)) - 1)
      with (Z.succ (Z.pos (digits2_pos p) - 1)) by lia.
    rewrite Z.pow_succ_r by lia. lia.
  - done.
Qed.

Lemma digits2_pos_iter p d :
  digits2_pos (Pos.iter xO p d) = (digits2_pos p + d)%positive.
Proof.
  induction d as [|d IH] using Pos.peano_ind.
  - simpl. lia.
  - rewrite Pos.iter_succ. simpl. rewrite IH. lia.
Qed.

(** A mantissa of exactly 53 bits is not rounded. *)
Lemma binary_round_aux_exact mz ez :
  Z.pos (digits2_pos mz) = 53 → (-52 ≤ ez ≤ 0) →
  binary_round_aux prec emax false (Z.pos mz) ez loc_Exact = S754_finite false mz ez.
Proof.
  intros Hd He. unfold binary_round_aux, shr_fexp, fexp, Zdigits2.
  rewrite Hd.
  assert (Z.max (53 + ez - prec) (SpecFloat.emin prec emax) - ez = 0) as ->.
  { unfold SpecFloat.emin, prec, emax. lia. }
  simpl. rewrite Hd.
  assert (Z.max (53 + ez - prec) (SpecFloat.emin prec emax) - ez = 0) as ->.
  { unfold SpecFloat.emin, prec, emax. lia. }
  simpl.
  assert ((ez <=? emax - prec) = true) as ->; [|done].
  apply Z.leb_le. unfold emax, prec. lia.
Qed.

(** [float(n)] is a positive finite number for [0 < n < 2^53]. *)
Lemma float_of_Z_finite n :
  0 < n < 2 ^ 53 → ∃ m e, Prim2SF (Py.float_of_Z n) = S754_finite false m e.
Proof.
  intros Hn. unfold Py.float_of_Z.
  rewrite FloatAxioms.of_uint63_spec, Uint63.of_Z_spec.
  assert (2 ^ 53 < wB) as HwB by (by apply Z.ltb_lt).
  rewrite Z.mod_small by lia.
  destruct n as [|p|p]; [lia| |lia]. simpl.
  unfold binary_round, shl_align, fexp.
  pose proof (digits2_pos_lower p) as Hlow.
  assert (Z.pos (digits2_pos p) ≤ 53) as Hdg.
  { destruct (decide (Z.pos (digits2_pos p) ≤ 53)); [done|].
    assert (2 ^ 53 ≤ 2 ^ (Z.pos (digits2_pos p) - 1)); [|lia].
    apply Z.pow_le_mono_r; lia. }
  assert (Z.max (Z.pos (digits2_pos p) + 0 - prec) (SpecFloat.emin prec emax)
          = Z.pos (digits2_pos p) - 53) as ->.
  { unfold SpecFloat.emin, prec, emax. lia. }
  destruct (Z.pos (digits2_pos p) - 53 - 0) as [|q|q] eqn:Hq; [|lia|].
  - rewrite binary_round_aux_exact by lia. eauto.
  - replace (Z.pos (digits2_pos p) - 53) with (Z.neg q) by lia.
    rewrite binary_round_aux_exact; [eauto| |lia].
    rewrite digits2_pos_iter. lia.
Qed.

(** [0 / n * 100 == 0.0]. *)
Lemma zero_truediv_mul n :
  0 < n < 2 ^ 53 →
  PrimFloat.mul (Py.truediv 0 n) (Py.float_of_Z 100) = 0%float.
Proof.
  intros Hn. destruct (float_of_Z_finite n Hn) as (m & e & Hfin).
  apply Prim2SF_inj. rewrite FloatAxioms.mul_spec. unfold Py.truediv.
  rewrite FloatAxioms.div_spec, Hfin. reflexivity.
Qed.

(** ** The requested state *)

Lemma desired_requested completions id :
  desired completions id = requested completions id.
Proof.
  unfold desired, requested, Py.or.
  by destruct (Py.truthy (Py.get completions (Py.KStr (Py.str id)))) eqn:Ha.
Qed.

Lemma count_desired_perm completions (hs hs' : list Habit) :
  hs ≡ₚ hs' → count_desired completions hs = count_desired completions hs'.
Proof. intros H. unfold count_desired. by rewrite H. Qed.

Lemma count_desired_requested completions (hs : list Habit) :
  count_desired completions hs =
  Z.of_nat (length (filter (λ h, requested completions (habit_id h)) hs)).
Proof.
  unfold count_desired. do 2 f_equal. apply list_filter_iff. intros h.
  by rewrite desired_requested.
Qed.

(** ** Sample data *)

Lemma seeded_catalog_unique : catalog_unique (habits_table seeded).
Proof. apply (bool_decide_unpack _). by vm_compute. Qed.

Lemma two_done_request :
  save_request
    (<[Py.KStr "date" := Py.VStr "2024-01-01"]>
       (<[Py.KStr "completions" := Py.VDict two_done]> ∅))
    738886 two_done.
Proof. exists "2024-01-01". split_and!; by vm_compute. Qed.

(** ** The outcomes of [save_habits] *)

(** The view is its checks followed by the loop and the commit. *)
Lemma save_habits_split user_id body st :
  save_habits user_id body st =
  match save_validate body with
  | inl r => (r, st)
  | inr (d, completions) =>
      (Ok (save_percentage (count_desired completions (all_habits_by_id st))
                           (all_habits_by_id st)),
       {| habits_table := habits_table st;
          entries_table :=
            save_rows user_id d completions (all_habits_by_id st)
                      (entries_table st) |})
  end.
Proof.
  unfold save_habits, save_validate.
  destruct (Py.as_dict _) as [data|]; [|done].
  destruct (Py.truthy _); [|done].
  destruct (Py.as_dict (Py.get data _)) as [completions|]; [|done].
  destruct (Py.get data (Py.KStr "date")); try done.
  destruct (parse_date s) as [e|d]; [done|].
  by rewrite save_loop_split.
Qed.

Lemma save_validate_error body r : save_validate body = inl r → ∀ a, r ≠ Ok a.
Proof.
  unfold save_validate. intros H a ->. revert H.
  repeat case_match; congruence.
Qed.

(** Either nothing is committed and the response is an error, or the
    loop ran for some date and mapping. *)
Lemma save_habits_cases user_id body st :
  (∃ r, save_habits user_id body st = (r, st) ∧ ∀ a, r ≠ Ok a)
  ∨ (∃ d completions,
       save_habits user_id body st =
         (Ok (save_percentage (count_desired completions (all_habits_by_id st))
                              (all_habits_by_id st)),
          {| habits_table := habits_table st;
             entries_table :=
               save_rows user_id d completions (all_habits_by_id st)
                         (entries_table st) |})).
Proof.
  rewrite save_habits_split.
  destruct (save_validate body) as [r|[d completions]] eqn:Hv.
  - left. exists r. split; [done|]. by eapply save_validate_error.
  - right. eauto.
Qed.

(** ** C1: at most one row per user, habit and date *)

Lemma save_habits_keeps_unique user_id body st :
  ledger_unique (entries_table st) →
  ledger_unique (entries_table (save_habits user_id body st).2).
Proof.
  intros Hu. rewrite save_habits_split.
  destruct (save_validate body) as [r|[d completions]]; simpl; [done|].
  by apply save_rows_unique.
Qed.

(** The constraint holds in every store the view can produce, without
    the storage engine ever having to refuse a row. *)
Corollary reachable_ledger_unique st : reachable st → ledger_unique (entries_table st).
Proof.
  induction 1 as [hs|st user_id body _ IH].
  - constructor.
  - by apply save_habits_keeps_unique.
Qed.

(** A row whose key the body of the loop does not look for stays as it
    is. *)
Lemma upsert_other_row user_id d id c es j e :
  es !! j = Some e → entry_key e ≠ (user_id, id, d) →
  upsert user_id d id c es !! j = Some e.
Proof.
  intros Hj Hk.
  destruct (upsert_cases user_id d id c es) as [(i & x & Hf & ->)|[Hf ->]].
  - apply list_find_Some in Hf as (Hi & Hx & _).
    destruct (decide (i = j)) as [->|]; [|by rewrite list_lookup_insert_ne].
    rewrite Hi in Hj. injection Hj as ->. done.
  - by apply lookup_app_l_Some.
Qed.

Lemma save_rows_other_row user_id d completions habits es j e :
  es !! j = Some e →
  (∀ h, h ∈ habits → entry_key e ≠ (user_id, habit_id h, d)) →
  save_rows user_id d completions habits es !! j = Some e.
Proof.
  revert es. induction habits as [|h hs IH]; intros es Hj Hk; simpl; [done|].
  apply IH.
  - apply upsert_other_row; [done|]. apply Hk. by left.
  - intros h' Hh'. apply Hk. by right.
Qed.

(** The row that held the key of a catalog habit holds it still, with the
    requested flag. *)
Lemma save_rows_updated user_id d completions habits es h i e :
  ledger_unique es → h ∈ habits →
  es !! i = Some e → entry_key e = (user_id, habit_id h, d) →
  ∃ e', save_rows user_id d completions habits es !! i = Some e'
        ∧ entry_key e' = entry_key e
        ∧ entry_completed e' = requested completions (habit_id h).
Proof.
  intros Hu Hh Hi Hk.
  destruct (save_rows_keys user_id d completions habits es) as (new & Hkeys & _ & _).
  assert ((entry_key <$> save_rows user_id d completions habits es) !! i
          = Some (entry_key e)) as Hi'.
  { rewrite Hkeys. apply lookup_app_l_Some. by rewrite list_lookup_fmap, Hi. }
  destruct (list_lookup_fmap_Some_1 _ _ _ _ Hi') as (e' & Hk' & He').
  exists e'. split_and!; [done..|].
  destruct (save_rows_settled user_id d completions habits es (habit_id h))
    as (i0 & e0 & Hf & Hc); [left; eauto|].
  apply list_find_Some in Hf as (Hi0 & Hk0 & _).
  assert (i0 = i) as ->.
  { eapply (NoDup_lookup (entry_key <$> save_rows user_id d completions habits es));
      [by apply save_rows_unique| |exact Hi'].
    rewrite list_lookup_fmap, Hi0. simpl. f_equal.
    unfold by_key in Hk0. congruence. }
  rewrite He' in Hi0. injection Hi0 as ->. by rewrite Hc, desired_requested.
Qed.

(** The row added for a catalog habit that had none. *)
Lemma save_rows_inserted user_id d completions habits es h :
  h ∈ habits → (user_id, habit_id h, d) ∉ entry_key <$> es →
  ∃ i e', (length es ≤ i)%nat
          ∧ save_rows user_id d completions habits es !! i = Some e'
          ∧ entry_key e' = (user_id, habit_id h, d)
          ∧ entry_completed e' = requested completions (habit_id h).
Proof.
  intros Hh Hnew.
  destruct (save_rows_keys user_id d completions habits es) as (new & Hkeys & _ & _).
  destruct (save_rows_entry user_id d completions habits es h Hh) as (e' & He' & Hk & Hc).
  apply list_elem_of_lookup in He' as [i Hi].
  exists i, e'. split_and!; [|done..|by rewrite Hc, desired_requested].
  destruct (decide (length es ≤ i)%nat) as [|Hlt]; [done|]. exfalso. apply Hnew.
  assert ((entry_key <$> save_rows user_id d completions habits es) !! i
          = Some (user_id, habit_id h, d)) as Hi'.
  { by rewrite list_lookup_fmap, Hi, <-Hk. }
  rewrite Hkeys, lookup_app_l in Hi' by (rewrite length_fmap; lia).
  by eapply list_elem_of_lookup_2.
Qed.

(** C1. Whatever the request, [save_habits] leaves every row of the ledger
    in its place with its key columns and adds rows only for keys that had
    no row, each such key once and only for this user and a catalog habit.
    Hence a ledger with at most one row per (user_id, habit_id, date) has
    at most one row per key after the save.  After a save that succeeds
    for date [d], every catalog habit has a row for (user_id, habit_id, d):
    the row that held the key before, at the same place and with its
    [completed] column set to the submitted state, or, when there was
    none, one row added after the old ones with that state; a row that
    holds no such key is as it was. *)
Theorem save_habits_unique user_id body st :
  ledger_unique (entries_table st) →
  let st' := (save_habits user_id body st).2 in
  ledger_unique (entries_table st')
  ∧ (∃ new,
       entry_key <$> entries_table st' = (entry_key <$> entries_table st) ++ new
       ∧ NoDup new
       ∧ ∀ k, k ∈ new →
           (k ∉ entry_key <$> entries_table st)
           ∧ k.1.1 = user_id ∧ ∃ h, h ∈ habits_table st ∧ k.1.2 = habit_id h)
  ∧ (∀ data d completions,
       body = Py.VDict data → save_request data d completions →
       (∀ h, h ∈ habits_table st →
          (user_id, habit_id h, d) ∈ entry_key <$> entries_table st'
          ∧ (∀ i e, entries_table st !! i = Some e →
               entry_key e = (user_id, habit_id h, d) →
               ∃ e', entries_table st' !! i = Some e'
                     ∧ entry_user_id e' = user_id
                     ∧ entry_habit_id e' = habit_id h
                     ∧ entry_date e' = d
                     ∧ entry_completed e' = requested completions (habit_id h))
          ∧ ((user_id, habit_id h, d) ∉ entry_key <$> entries_table st →
               ∃ i e', (length (entries_table st) ≤ i)%nat
                       ∧ entries_table st' !! i = Some e'
                       ∧ entry_user_id e' = user_id
                       ∧ entry_habit_id e' = habit_id h
                       ∧ entry_date e' = d
                       ∧ entry_completed e' = requested completions (habit_id h)))
       ∧ (∀ i e, entries_table st !! i = Some e →
            (∀ h, h ∈ habits_table st → entry_key e ≠ (user_id, habit_id h, d)) →
            entries_table st' !! i = Some e)).
Proof.
  intros Hu st'. subst st'.
  destruct (save_habits_cases user_id body st)
    as [(r & Hr & Hne)|(d & completions & Hr)].
  - rewrite Hr. simpl. split_and!; [done| |].
    + exists []. rewrite app_nil_r. split_and!; [done|constructor|].
      by intros k ?%elem_of_nil.
    + intros data d completions -> Hreq.
      rewrite (save_habits_ok _ _ _ _ _ Hreq) in Hr. injection Hr as <- _.
      exfalso. by eapply Hne.
  - rewrite Hr. simpl. split_and!.
    + by apply save_rows_unique.
    + destruct (save_rows_keys user_id d completions (all_habits_by_id st)
                  (entries_table st)) as (new & Hkeys & Hnd & Hnew).
      exists new. split_and!; [done..|]. intros k Hk.
      destruct (Hnew k Hk) as (Hfresh & h & Hh & ->). split_and!; [done..|].
      exists h. split; [by apply all_habits_elem|done].
    + intros data d' completions' -> Hreq.
      rewrite (save_habits_ok _ _ _ _ _ Hreq) in Hr. injection Hr as _ Hst.
      rewrite <-Hst. clear Hst. split.
      * intros h Hh%all_habits_elem. split_and!.
        -- destruct (save_rows_entry user_id d' completions' (all_habits_by_id st)
                       (entries_table st) h Hh) as (e & He & Hk & _).
           rewrite <-Hk. by apply list_elem_of_fmap_2.
        -- intros i e Hi Hk.
           destruct (save_rows_updated user_id d' completions' (all_habits_by_id st)
                       (entries_table st) h i e Hu Hh Hi Hk)
             as (e' & He' & Hk' & Hc).
           exists e'. rewrite Hk in Hk'. unfold entry_key in Hk'.
           injection Hk' as ? ? ?. by split_and!.
        -- intros Hnew.
           destruct (save_rows_inserted user_id d' completions' (all_habits_by_id st)
                       (entries_table st) h Hh Hnew)
             as (i & e' & Hlen & He' & Hk' & Hc).
           exists i, e'. unfold entry_key in Hk'. injection Hk' as ? ? ?.
           by split_and!.
      * intros i e Hi Hother. apply save_rows_other_row; [done|].
        intros h Hh%all_habits_elem. by apply Hother.
Qed.

(** User 7, who has stored habits 1 and 2 as completed, sends a mapping
    that holds habit 2 only: the ledger keeps its fifteen rows, with one
    row per key, and the row of habit 1 stays first, now not completed. *)
Lemma save_habits_unique_witness :
  entries_table after_first_save !! 0%nat = Some (new_entry 7 738886 1 true)
  ∧ ledger_unique
      (entries_table (save_habits 7 (save_body "2024-01-01" only_two) after_first_save).2)
  ∧ ∃ e', entries_table (save_habits 7 (save_body "2024-01-01" only_two)
                           after_first_save).2 !! 0%nat = Some e'
          ∧ entry_user_id e' = 7 ∧ entry_habit_id e' = 1 ∧ entry_date e' = 738886
          ∧ entry_completed e' = false.
Proof.
  assert (ledger_unique (entries_table after_first_save)) as Hu.
  { apply (bool_decide_unpack _). by vm_compute. }
  destruct (save_habits_unique 7 (save_body "2024-01-01" only_two) after_first_save Hu)
    as (Hu' & _ & Hrows).
  split_and!; [by vm_compute|exact Hu'|].
  destruct (Hrows _ 738886 only_two eq_refl) as [Hhabit _].
  { exists "2024-01-01". split_and!; by vm_compute. }
  destruct (Hhabit {| habit_id := 1; habit_name := "Wake early" |}) as (_ & Hold & _).
  { apply (bool_decide_unpack _). by vm_compute. }
  destruct (Hold 0%nat (new_entry 7 738886 1 true)) as (e' & He' & ? & ? & ? & Hc);
    [by vm_compute|done|].
  exists e'. split_and!; [done..|]. rewrite Hc. by vm_compute.
Defined.

(** ** C2: reading a day *)

(** C2. When the date parameter is absent or parses, [get_habits] answers
    with one record per catalog habit, in ascending order of habit id, so
    as many records as the catalog has habits whatever the ledger holds.
    A record is completed exactly when the ledger has a row for
    (user_id, habit_id, date) with [completed] set, and a habit without a
    row for that user and date is reported as not completed. *)
Theorem get_habits_total user_id date_arg today st d :
  ledger_unique (entries_table st) →
  date_param date_arg today = inr d →
  ∃ records,
    get_habits user_id date_arg today st = Ok (d, records)
    ∧ (λ r, {| habit_id := status_id r; habit_name := status_name r |}) <$> records
      ≡ₚ habits_table st
    ∧ StronglySorted Z.le (status_id <$> records)
    ∧ length records = length (habits_table st)
    ∧ ∀ r, r ∈ records →
        (status_completed r = true ↔
           has_completed_entry (entries_table st) user_id (status_id r) d)
        ∧ ((∀ e, e ∈ entries_table st → entry_key e ≠ (user_id, status_id r, d)) →
           status_completed r = false).
Proof.
  intros Hu Hd. unfold get_habits. rewrite Hd.
  eexists. split; [reflexivity|]. split_and!.
  - rewrite <-list_fmap_compose, <-(all_habits_perm st).
    rewrite <-(list_fmap_id (all_habits_by_id st)) at 2.
    erewrite list_fmap_ext; [reflexivity|]. by intros i [] _.
  - rewrite <-list_fmap_compose.
    apply (StronglySorted_fmap _ habit_le); [done|apply all_habits_sorted].
  - by rewrite length_fmap, all_habits_length.
  - intros r (h & -> & Hh)%list_elem_of_fmap. rewrite habit_status_completed.
    simpl. split.
    + rewrite completed_on_true by done. unfold has_completed_entry.
      rewrite Exists_exists. naive_solver.
    + apply completed_on_absent.
Qed.

(** The seeded store, empty ledger, explicit date. *)
Lemma get_habits_total_witness :
  ∃ records,
    get_habits 7 (Some "2024-01-01") 738000 seeded = Ok (738886, records)
    ∧ length records = 15%nat.
Proof.
  destruct (get_habits_total 7 (Some "2024-01-01") 738000 seeded 738886)
    as (records & Hget & _ & _ & Hlen & _).
  - constructor.
  - reflexivity.
  - exists records. split; [exact Hget|exact Hlen].
Defined.

(** ** C3: a save followed by a read *)

(** Two mappings that agree on the keys of catalog habits ask for the same
    rows. *)
Lemma save_rows_ext user_id d completions completions' (habits : list Habit) es :
  (∀ h, h ∈ habits → desired completions' (habit_id h) = desired completions (habit_id h)) →
  save_rows user_id d completions' habits es = save_rows user_id d completions habits es.
Proof.
  revert es. induction habits as [|h hs IH]; intros es Hagree; simpl; [done|].
  rewrite Hagree by (by left). apply IH. intros h' Hh'. apply Hagree. by right.
Qed.

Lemma count_desired_ext completions completions' (habits : list Habit) :
  (∀ h, h ∈ habits → desired completions' (habit_id h) = desired completions (habit_id h)) →
  count_desired completions' habits = count_desired completions habits.
Proof.
  intros Hagree. unfold count_desired.
  induction habits as [|h hs IH]; [done|].
  rewrite !filter_cons, Hagree by (by left).
  assert (length (filter (λ habit, desired completions' (habit_id habit)) hs)
          = length (filter (λ habit, desired completions (habit_id habit)) hs)) as Hlen.
  { apply Nat2Z.inj, IH. intros h' Hh'. apply Hagree. by right. }
  destruct (decide _); simpl; by rewrite Hlen.
Qed.

(** What a read finds after a save. *)
Lemma read_after_save user_id d completions st h :
  ledger_unique (entries_table st) → h ∈ habits_table st →
  completed_on user_id d
    (save_rows user_id d completions (all_habits_by_id st) (entries_table st))
    (habit_id h)
  = requested completions (habit_id h).
Proof.
  intros Hu Hh.
  destruct (save_rows_entry user_id d completions (all_habits_by_id st)
              (entries_table st) h) as (e & He & Hk & Hc).
  { by apply all_habits_elem. }
  rewrite (completed_on_entry _ _ _ _ e); [|by apply save_rows_unique|done..].
  by rewrite Hc, desired_requested.
Qed.

(** C3. After [save_habits] has stored a mapping for a date, [get_habits]
    for that user and date reports, for each catalog habit in id order,
    the state submitted for it: completed when the mapping holds a truthy
    value for the habit (under either form of its id), not completed when
    the habit is absent or its value falsy.  A second mapping that agrees
    with the first on the keys of catalog habits leads to the same store
    and response: other keys have no effect. *)
Theorem save_then_read user_id data d completions date_arg today st :
  ledger_unique (entries_table st) →
  save_request data d completions →
  date_param date_arg today = inr d →
  let st' := (save_habits user_id (Py.VDict data) st).2 in
  get_habits user_id date_arg today st' =
    Ok (d, (λ h, {| status_id := habit_id h; status_name := habit_name h;
                    status_completed := requested completions (habit_id h) |})
             <$> all_habits_by_id st)
  ∧ (∀ id, completions !! Py.KStr (Py.str id) = None →
           completions !! Py.KInt id = None → requested completions id = false)
  ∧ (∀ data' completions',
       save_request data' d completions' →
       (∀ h, h ∈ habits_table st →
          Py.get completions' (Py.KStr (Py.str (habit_id h)))
            = Py.get completions (Py.KStr (Py.str (habit_id h)))
          ∧ Py.get completions' (Py.KInt (habit_id h))
            = Py.get completions (Py.KInt (habit_id h))) →
       save_habits user_id (Py.VDict data') st = save_habits user_id (Py.VDict data) st).
Proof.
  intros Hu Hreq Hd st'. subst st'. rewrite (save_habits_ok _ _ _ _ _ Hreq).
  simpl. split_and!.
  - unfold get_habits. rewrite Hd. simpl. do 2 f_equal.
    change (all_habits_by_id {| habits_table := habits_table st;
                                entries_table := _ |})
      with (all_habits_by_id st).
    apply list_fmap_ext. intros i h Hh. unfold habit_status. f_equal.
    apply (read_after_save user_id d completions st h Hu).
    apply all_habits_elem. by eapply list_elem_of_lookup_2.
  - intros id H1 H2. unfold requested, Py.get. by rewrite H1, H2.
  - intros data' completions' Hreq' Hagree.
    rewrite (save_habits_ok _ _ _ _ _ Hreq').
    assert (∀ h, h ∈ all_habits_by_id st →
              desired completions' (habit_id h) = desired completions (habit_id h))
      as Hdes.
    { intros h Hh%all_habits_elem. destruct (Hagree h Hh) as [H1 H2].
      unfold desired. by rewrite H1, H2. }
    by rewrite (save_rows_ext _ _ _ _ _ _ Hdes), (count_desired_ext _ _ _ Hdes).
Qed.

(** The sample request on the seeded store: habits 1 and 2 read as
    completed, the thirteen others as not completed. *)
Lemma save_then_read_witness :
  get_habits 7 (Some "2024-01-01") 738000 after_first_save =
    Ok (738886,
        (λ h, {| status_id := habit_id h; status_name := habit_name h;
                 status_completed := bool_decide (habit_id h ≤ 2) |})
          <$> habits_table seeded).
Proof.
  pose proof (save_then_read 7 _ 738886 two_done (Some "2024-01-01") 738000 seeded
                (NoDup_nil_2 : ledger_unique (entries_table seeded))
                two_done_request eq_refl) as [Hread _].
  etransitivity; [exact Hread|]. by vm_compute.
Defined.

(** ** C4: the percentage a save returns *)

Lemma save_percentage_alt count (habits : list Habit) :
  save_percentage count habits =
  if decide (Z.of_nat (length habits) = 0) then Py.VInt 0
  else Py.VFloat (PrimFloat.mul (Py.truediv count (Z.of_nat (length habits)))
                                (Py.float_of_Z 100)).
Proof.
  destruct habits as [|h hs]; [done|]. unfold save_percentage.
  rewrite decide_False; [done|]. rewrite length_cons. lia.
Qed.

Lemma requested_empty id : requested ∅ id = false.
Proof. unfold requested, Py.get. by rewrite !lookup_empty. Qed.

(** Every row of a catalog habit for the saved day carries the requested
    flag. *)
Lemma saved_flags user_id d completions st h e :
  ledger_unique (entries_table st) → h ∈ habits_table st →
  e ∈ save_rows user_id d completions (all_habits_by_id st) (entries_table st) →
  entry_key e = (user_id, habit_id h, d) →
  entry_completed e = requested completions (habit_id h).
Proof.
  intros Hu Hh He Hk.
  rewrite <-(read_after_save user_id d completions st h Hu Hh).
  symmetry. apply completed_on_entry; [by apply save_rows_unique|done..].
Qed.

(** C4. For a well-formed request, [save_habits] gives each catalog habit
    the state found in the mapping under the string form of its id or
    under the id itself (absent or falsy: not completed), and returns
    [completed_count / total * 100], where [completed_count] counts the
    catalog habits whose state is completed and [total] the catalog, or
    [0] for an empty catalog: the quotient of the two counts as floats,
    times one hundred, each operation rounded to binary64.  Two habits of
    fifteen give 13.333333333333334, one of three 33.33333333333333, all
    fifteen 100.0.  With an empty mapping every habit is set to not
    completed and the percentage is zero. *)
Theorem save_habits_percentage user_id data d completions st :
  ledger_unique (entries_table st) →
  save_request data d completions →
  let total := Z.of_nat (length (habits_table st)) in
  let completed_count :=
    Z.of_nat (length (filter (λ h, requested completions (habit_id h))
                             (habits_table st))) in
  let response := (save_habits user_id (Py.VDict data) st).1 in
  let st' := (save_habits user_id (Py.VDict data) st).2 in
  response =
    Ok (if decide (total = 0) then Py.VInt 0
        else Py.VFloat
               (PrimFloat.mul
                  (PrimFloat.div (PrimFloat.of_uint63 (Uint63.of_Z completed_count))
                                 (PrimFloat.of_uint63 (Uint63.of_Z total)))
                  (PrimFloat.of_uint63 (Uint63.of_Z 100))))
  ∧ (completed_count = 2 → total = 15 →
       response = Ok (Py.VFloat 0x1.aaaaaaaaaaaabp+3%float))
  ∧ (completed_count = 1 → total = 3 →
       response = Ok (Py.VFloat 0x1.0aaaaaaaaaaaap+5%float))
  ∧ (completed_count = 15 → total = 15 →
       response = Ok (Py.VFloat 0x1.9p+6%float))
  ∧ (∀ h e, h ∈ habits_table st → e ∈ entries_table st' →
       entry_key e = (user_id, habit_id h, d) →
       entry_completed e = requested completions (habit_id h))
  ∧ (completions = ∅ → total < 2 ^ 53 →
       (∀ h e, h ∈ habits_table st → e ∈ entries_table st' →
          entry_key e = (user_id, habit_id h, d) → entry_completed e = false)
       ∧ response = Ok (if decide (total = 0) then Py.VInt 0 else Py.VFloat 0%float)).
Proof.
  intros Hu Hreq total completed_count response st'.
  subst response st'. rewrite (save_habits_ok _ _ _ _ _ Hreq). simpl.
  assert (save_percentage (count_desired completions (all_habits_by_id st))
            (all_habits_by_id st)
          = if decide (total = 0) then Py.VInt 0
            else Py.VFloat (PrimFloat.mul (Py.truediv completed_count total)
                                          (Py.float_of_Z 100))) as Hpct.
  { rewrite save_percentage_alt, all_habits_length.
    rewrite (count_desired_perm _ _ _ (all_habits_perm st)).
    by rewrite count_desired_requested. }
  split_and!.
  - by rewrite Hpct.
  - intros Hc Ht. rewrite Hpct, Hc, Ht. by vm_compute.
  - intros Hc Ht. rewrite Hpct, Hc, Ht. by vm_compute.
  - intros Hc Ht. rewrite Hpct, Hc, Ht. by vm_compute.
  - intros h e Hh He Hk. by apply (saved_flags user_id d completions st h e).
  - intros -> Htotal. split.
    + intros h e Hh He Hk.
      rewrite (saved_flags user_id d ∅ st h e) by done. apply requested_empty.
    + rewrite Hpct. f_equal. destruct (decide (total = 0)); [done|].
      assert (completed_count = 0) as ->.
      { subst completed_count.
        rewrite filter_none; [done|].
        intros h _. rewrite requested_empty. exact (λ x, x). }
      f_equal. apply zero_truediv_mul. lia.
Qed.

(** The sample request on the seeded store, two habits of fifteen,
    returns 13.333333333333334. *)
Lemma save_habits_percentage_witness :
  (save_habits 7 (save_body "2024-01-01" two_done) seeded).1
  = Ok (Py.VFloat 0x1.aaaaaaaaaaaabp+3%float).
Proof.
  pose proof (save_habits_percentage 7 _ 738886 two_done seeded
                (NoDup_nil_2 : ledger_unique (entries_table seeded))
                two_done_request) as (_ & Hpct & _).
  apply Hpct; by vm_compute.
Defined.

(** ** C8: saving twice *)

(** C8. Sending the same request a second time leaves the store as the
    first call left it, row for row, and returns the same response, hence
    the same percentage.  A request the view rejects changes nothing
    either time. *)
Theorem save_habits_idempotent user_id body st :
  save_habits user_id body (save_habits user_id body st).2
  = save_habits user_id body st.
Proof.
  rewrite !save_habits_split.
  destruct (save_validate body) as [r|[d completions]]; simpl; [done|].
  change (all_habits_by_id {| habits_table := habits_table st;
                              entries_table := _ |})
    with (all_habits_by_id st).
  by rewrite save_rows_idem.
Qed.

(** The sample request sent twice. *)
Lemma save_habits_idempotent_witness :
  save_habits 7 (save_body "2024-01-01" two_done) after_first_save
  = (Ok (Py.VFloat (PrimFloat.mul (Py.truediv 2 15) (Py.float_of_Z 100))),
     after_first_save).
Proof.
  unfold after_first_save.
  etransitivity; [apply save_habits_idempotent|]. by vm_compute.
Defined.

(** ** C9: either form of the key marks a habit *)

(** The string form of the ids 0 to 99: one decimal digit below ten, two
    from ten on. *)
Lemma str_two_digits k :
  0 ≤ k ≤ 99 →
  Py.str k =
  if k <? 10 then String (ascii_of_nat (Z.to_nat (48 + k))) EmptyString
  else String (ascii_of_nat (Z.to_nat (48 + k / 10)))
         (String (ascii_of_nat (Z.to_nat (48 + k mod 10))) EmptyString).
Proof.
  intros Hk.
  assert (Forall (λ k, Py.str k =
                       if k <? 10
                       then String (ascii_of_nat (Z.to_nat (48 + k))) EmptyString
                       else String (ascii_of_nat (Z.to_nat (48 + k / 10)))
                              (String (ascii_of_nat (Z.to_nat (48 + k mod 10)))
                                 EmptyString))
                 (seqZ 0 100)) as Hall.
  { apply (bool_decide_unpack _). by vm_compute. }
  rewrite Forall_forall in Hall. apply Hall, elem_of_seqZ. lia.
Qed.

(** C9. After a save, the row of a catalog habit for the saved day is
    completed exactly when the mapping holds a truthy value under the
    string form of the habit's id, its decimal text (["3"] for 3, ["12"]
    for 12), or a truthy value under the id itself.  In particular a falsy
    value under the string key does not mask a truthy value under the
    native key: the habit is stored as completed. *)
Theorem save_habits_either_key user_id data d completions st h :
  ledger_unique (entries_table st) →
  save_request data d completions →
  h ∈ habits_table st →
  let st' := (save_habits user_id (Py.VDict data) st).2 in
  let by_string := Py.truthy (Py.get completions (Py.KStr (Py.str (habit_id h)))) in
  let by_native := Py.truthy (Py.get completions (Py.KInt (habit_id h))) in
  desired completions (habit_id h) = by_string || by_native
  ∧ (∃ e, e ∈ entries_table st' ∧ entry_key e = (user_id, habit_id h, d))
  ∧ (∀ e, e ∈ entries_table st' → entry_key e = (user_id, habit_id h, d) →
       entry_completed e = by_string || by_native)
  ∧ (by_string = false → by_native = true →
       has_completed_entry (entries_table st') user_id (habit_id h) d)
  ∧ (has_completed_entry (entries_table st') user_id (habit_id h) d
     ↔ by_string = true ∨ by_native = true)
  ∧ Py.str 3 = "3" ∧ Py.str 12 = "12"
  ∧ (0 ≤ habit_id h ≤ 99 →
       Py.str (habit_id h) =
       if habit_id h <? 10
       then String (ascii_of_nat (Z.to_nat (48 + habit_id h))) EmptyString
       else String (ascii_of_nat (Z.to_nat (48 + habit_id h / 10)))
              (String (ascii_of_nat (Z.to_nat (48 + habit_id h mod 10))) EmptyString)).
Proof.
  intros Hu Hreq Hh st' by_string by_native. subst st' by_string by_native.
  rewrite (save_habits_ok _ _ _ _ _ Hreq). simpl.
  destruct (save_rows_entry user_id d completions (all_habits_by_id st)
              (entries_table st) h) as (e & He & Hk & Hc).
  { by apply all_habits_elem. }
  split_and!.
  - apply desired_requested.
  - eauto.
  - intros e' He' Hk'. by apply (saved_flags user_id d completions st h e').
  - intros Hs Hn. apply Exists_exists. exists e. split_and!; [done..|].
    rewrite Hc, desired_requested. unfold requested. by rewrite Hs, Hn.
  - rewrite <-orb_true_iff. unfold has_completed_entry. rewrite Exists_exists. split.
    + intros (e' & He' & Hk' & Hc').
      by rewrite <-Hc', (saved_flags user_id d completions st h e').
    + intros Hreqd. exists e. split_and!; [done..|].
      by rewrite Hc, desired_requested.
  - by vm_compute.
  - by vm_compute.
  - apply str_two_digits.
Qed.

(** A mapping with habit 2 under the key ["2"] only, and habit 3 with
    [false] under ["3"] and [true] under [3]: habits 2 and 3 are stored as
    completed, habit 1 is not. *)
Lemma save_habits_either_key_witness :
  has_completed_entry
    (entries_table (save_habits 7 (save_body "2024-01-01" two_and_three) seeded).2)
    7 2 738886
  ∧ has_completed_entry
      (entries_table (save_habits 7 (save_body "2024-01-01" two_and_three) seeded).2)
      7 3 738886
  ∧ ¬ has_completed_entry
        (entries_table (save_habits 7 (save_body "2024-01-01" two_and_three) seeded).2)
        7 1 738886.
Proof.
  assert (save_request
            (<[Py.KStr "date" := Py.VStr "2024-01-01"]>
               (<[Py.KStr "completions" := Py.VDict two_and_three]> ∅))
            738886 two_and_three) as Hreq.
  { exists "2024-01-01". split_and!; by vm_compute. }
  pose proof (λ h Hh, save_habits_either_key 7 _ 738886 two_and_three seeded h
                        (NoDup_nil_2 : ledger_unique (entries_table seeded)) Hreq Hh)
    as Hkey.
  split_and!.
  - destruct (Hkey {| habit_id := 2; habit_name := "Hydrate" |})
      as (_ & _ & _ & _ & Hiff & _).
    { apply (bool_decide_unpack _). by vm_compute. }
    apply Hiff. left. by vm_compute.
  - destruct (Hkey {| habit_id := 3; habit_name := "Read" |})
      as (_ & _ & _ & Hmask & _).
    { apply (bool_decide_unpack _). by vm_compute. }
    apply Hmask; by vm_compute.
  - destruct (Hkey {| habit_id := 1; habit_name := "Wake early" |})
      as (_ & _ & _ & _ & Hiff & _).
    { apply (bool_decide_unpack _). by vm_compute. }
    intros [Hs|Hn]%Hiff; by vm_compute in Hs || by vm_compute in Hn.
Defined.

(** ** C10: what a save leaves alone *)

(** C10. A successful save for a user and a date leaves the habit catalog
    as it was, and every row that belongs to another user or to another
    date stays at its position with all its columns; no such row appears
    or disappears. *)
Theorem save_habits_frame user_id data d completions st :
  save_request data d completions →
  let st' := (save_habits user_id (Py.VDict data) st).2 in
  habits_table st' = habits_table st
  ∧ ∀ j e, entry_user_id e ≠ user_id ∨ entry_date e ≠ d →
      entries_table st' !! j = Some e ↔ entries_table st !! j = Some e.
Proof.
  intros Hreq st'. subst st'. rewrite (save_habits_ok _ _ _ _ _ Hreq). simpl.
  split; [done|]. intros j e He. apply save_rows_frame.
  unfold by_user_date. tauto.
Qed.

(** After the sample, user 8 saves for the same day: the catalog is the
    same and the first row of user 7 is where and what it was. *)
Lemma save_habits_frame_witness :
  habits_table (save_habits 8 (save_body "2024-01-01" two_done) after_first_save).2
  = habits_table after_first_save
  ∧ (entries_table (save_habits 8 (save_body "2024-01-01" two_done) after_first_save).2
       !! 0%nat = Some (new_entry 7 738886 1 true)
     ↔ entries_table after_first_save !! 0%nat = Some (new_entry 7 738886 1 true)).
Proof.
  destruct (save_habits_frame 8 _ 738886 two_done after_first_save two_done_request)
    as [Hcat Hrows].
  split; [exact Hcat|]. apply Hrows. left. by vm_compute.
Defined.

(** ** The report of [progress] *)

Lemma days_completed_spec user_id es id start k :
  ledger_unique es →
  days_completed user_id es id start k =
  Z.of_nat (length (filter (λ day, has_completed_entry es user_id id day)
                           (seqZ start (Z.of_nat k)))).
Proof.
  intros Hu. unfold days_completed. do 2 f_equal. apply list_filter_iff.
  intros day. rewrite Is_true_true, completed_on_true by done.
  unfold has_completed_entry. by rewrite Exists_exists.
Qed.

(** The window is within the dates Python has and does not end on the
    last of them: the view returns the counters of the loop. *)
Lemma progress_report user_id period_arg end_date_arg today st end_date period days :
  catalog_unique (habits_table st) →
  date_param end_date_arg today = inr end_date →
  Py.lower (default "weekly" period_arg) = period →
  period_days period days →
  MINORDINAL ≤ end_date - (days - 1) → end_date < MAXORDINAL →
  progress user_id period_arg end_date_arg today st =
    Ok {| report_start_date := end_date - (days - 1);
          report_end_date := end_date;
          report_period := period;
          report_habits :=
            (λ h, report_row days
                    (days_completed user_id (entries_table st) (habit_id h)
                       (end_date - (days - 1)) (Z.to_nat days)) h)
              <$> all_habits_by_id st |}.
Proof.
  intros Hnd Hd Hp Hdays Hmin Hmax. unfold progress. rewrite Hd, Hp.
  assert (window_start period end_date = Some (inr (end_date - (days - 1)))) as ->.
  { unfold window_start, date_add_days. unfold MINORDINAL in *.
    destruct Hdays as [[-> ->]|[-> ->]]; simpl;
      rewrite (proj2 (Z.leb_le _ _)), (proj2 (Z.leb_le _ _)) by lia;
      simpl; do 2 f_equal; lia. }
  rewrite init_stats_rows by (by apply all_habits_unique).
  rewrite (count_entries_rows user_id (entries_table st) (all_habits_by_id st)
             end_date (Z.to_nat days)); [|by apply all_habits_unique|done..|].
  - do 2 f_equal. unfold odict_values. rewrite <-!list_fmap_compose.
    apply list_fmap_ext. intros i h _. simpl. unfold with_percentage, report_row.
    simpl. rewrite !Z.add_0_l, Z2Nat.id; [done|].
    destruct Hdays as [[_ ->]|[_ ->]]; lia.
  - destruct Hdays as [[_ ->]|[_ ->]]; simpl; lia.
Qed.

(** ** C5: the window of [progress] *)

(** C5 as stated fails three days into year 1: the first day of the weekly
    window would lie before 0001-01-01, the subtraction raises and no
    statistics are returned. *)
Lemma progress_weekly_year_one :
  parse_date "0001-01-03" = inr 3
  ∧ progress 7 (Some "weekly") (Some "0001-01-03") 738000 seeded
    = Raised Py.OverflowError
  ∧ ¬ ∃ report,
        progress 7 (Some "weekly") (Some "0001-01-03") 738000 seeded = Ok report
        ∧ report_start_date report = 3 - 6.
Proof.
  split_and!; [by vm_compute..|].
  intros (report & H & _). by vm_compute in H.
Qed.

(** C5 (amended). For an end date whose window starts on or after
    0001-01-01 and which is earlier than 9999-12-31 (the first day of the
    window and the day after its last are dates), [progress] takes
    [end_date - 6] as the first day for the period [weekly] and
    [end_date - 29] for [monthly], both ends included, and every habit of
    the report has [total_days] equal to the length of the window, 7 or
    30, the same for all habits of the call. *)
Theorem progress_window user_id period days end_date_arg today st end_date :
  catalog_unique (habits_table st) →
  date_param end_date_arg today = inr end_date →
  period_days period days →
  date_valid (end_date - (days - 1)) → date_valid (end_date + 1) →
  ∃ report,
    progress user_id (Some period) end_date_arg today st = Ok report
    ∧ report_start_date report = end_date - (days - 1)
    ∧ report_end_date report = end_date
    ∧ report_end_date report - report_start_date report + 1 = days
    ∧ length (report_habits report) = length (habits_table st)
    ∧ ∀ p, p ∈ report_habits report → progress_total_days p = days.
Proof.
  intros Hnd Hd Hdays [Hmin _] [_ Hnext].
  assert (end_date < MAXORDINAL) as Hmax by lia.
  assert (Py.lower (default "weekly" (Some period)) = period) as Hp.
  { by destruct Hdays as [[-> _]|[-> _]]. }
  eexists. split.
  { by apply (progress_report user_id (Some period) end_date_arg today st
                end_date period days). }
  simpl. split_and!; [done|done|lia| |].
  - by rewrite length_fmap, all_habits_length.
  - by intros p (h & -> & _)%list_elem_of_fmap.
Qed.

(** A week ending on 2024-01-07, on the store of the sample. *)
Lemma progress_window_witness :
  ∃ report,
    progress 7 (Some "weekly") (Some "2024-01-07") 738000 after_first_save = Ok report
    ∧ report_start_date report = 738886
    ∧ ∀ p, p ∈ report_habits report → progress_total_days p = 7.
Proof.
  destruct (progress_window 7 "weekly" 7 (Some "2024-01-07") 738000
              after_first_save 738892)
    as (report & Hrun & Hstart & _ & _ & _ & Htotal).
  - apply (bool_decide_unpack _). by vm_compute.
  - by vm_compute.
  - by left.
  - split; by vm_compute.
  - split; by vm_compute.
  - exists report. split_and!; [exact Hrun|exact Hstart|exact Htotal].
Defined.

(** ** C6: the counters and the percentage of [progress] *)

(** C6 as stated fails for a month ending on 0001-01-15: the window would
    start before the first date, and nothing is reported. *)
Lemma progress_monthly_year_one :
  parse_date "0001-01-15" = inr 15
  ∧ ¬ ∃ report,
        progress 7 (Some "monthly") (Some "0001-01-15") 738000 after_first_save
        = Ok report.
Proof.
  split; [by vm_compute|]. intros (report & H). by vm_compute in H.
Qed.

(** The loop also fails after its last round when the window ends on
    9999-12-31: the increment of [current_date] leaves the range of
    dates. *)
Example progress_last_day :
  progress 7 (Some "weekly") (Some "9999-12-31") 738000 seeded
  = Raised Py.OverflowError.
Proof. by vm_compute. Qed.

(** C6 (amended). For a valid period and an end date whose window starts
    on or after 0001-01-01 and which is earlier than 9999-12-31, the
    report lists the catalog habits in id order, and for each habit
    [completed_days] is the number of days of the window on which the
    ledger holds a completed row for (user_id, habit_id, day),
    [total_days] is the length of the window, and [percentage] is
    [round(completed_days / total_days * 100, 2)]; the percentage of a
    habit with [total_days = 0] would be [0.0].  One completed day in a
    week gives 14.29. *)
Theorem progress_counts user_id period days end_date_arg today st end_date :
  catalog_unique (habits_table st) →
  ledger_unique (entries_table st) →
  date_param end_date_arg today = inr end_date →
  period_days period days →
  date_valid (end_date - (days - 1)) → date_valid (end_date + 1) →
  (∃ report,
     progress user_id (Some period) end_date_arg today st = Ok report
     ∧ (λ p, {| habit_id := progress_id p; habit_name := progress_name p |})
         <$> report_habits report = all_habits_by_id st
     ∧ ∀ p, p ∈ report_habits report →
         progress_total_days p = days
         ∧ progress_completed_days p =
             Z.of_nat (length (filter
               (λ day, has_completed_entry (entries_table st) user_id (progress_id p) day)
               (seqZ (end_date - (days - 1)) days)))
         ∧ progress_percentage p =
             Py.round2 (PrimFloat.mul
               (Py.truediv (progress_completed_days p) (progress_total_days p))
               (Py.float_of_Z 100)))
  ∧ (∀ completed, percentage completed 0 = 0%float)
  ∧ percentage 1 7 = 0x1.c947ae147ae14p+3%float.
Proof.
  intros Hnd Hu Hd Hdays [Hmin _] [_ Hnext].
  assert (end_date < MAXORDINAL) as Hmax by lia.
  assert (Py.lower (default "weekly" (Some period)) = period) as Hp.
  { by destruct Hdays as [[-> _]|[-> _]]. }
  assert (0 < days) as Hpos by (destruct Hdays as [[_ ->]|[_ ->]]; lia).
  split_and!; [|done|by vm_compute].
  eexists. split.
  { by apply (progress_report user_id (Some period) end_date_arg today st
                end_date period days). }
  simpl. split.
  - rewrite <-list_fmap_compose.
    rewrite <-(list_fmap_id (all_habits_by_id st)) at 2.
    apply list_fmap_ext. by intros i [] _.
  - intros p (h & -> & _)%list_elem_of_fmap. simpl. split_and!; [done| |].
    + rewrite days_completed_spec by done. by rewrite Z2Nat.id by lia.
    + unfold percentage. by rewrite (proj2 (Z.ltb_lt _ _) Hpos).
Qed.

(** The week ending on 2024-01-07 after the sample save: habit 1 has one
    completed day out of seven, 14.29 per cent. *)
Lemma progress_counts_witness :
  ∃ report,
    progress 7 (Some "weekly") (Some "2024-01-07") 738000 after_first_save = Ok report
    ∧ report_habits report !! 0%nat =
        Some {| progress_id := 1; progress_name := "Wake early";
                progress_completed_days := 1; progress_total_days := 7;
                progress_percentage := 0x1.c947ae147ae14p+3%float |}.
Proof.
  destruct (progress_counts 7 "weekly" 7 (Some "2024-01-07") 738000
              after_first_save 738892)
    as [(report & Hrun & _) _].
  - apply (bool_decide_unpack _). by vm_compute.
  - apply (bool_decide_unpack _). by vm_compute.
  - by vm_compute.
  - by left.
  - split; by vm_compute.
  - split; by vm_compute.
  - exists report. split; [exact Hrun|].
    assert (Ok report = progress 7 (Some "weekly") (Some "2024-01-07") 738000
                          after_first_save) as Heq by (by rewrite Hrun).
    vm_compute in Heq. by injection Heq as ->.
Defined.

(** ** C7: requests that are rejected *)


(** Case is mapped as [str.lower] maps it: the Kelvin sign becomes [k]. *)
Example progress_kelvin_sign :
  ∃ report,
    progress 7 (Some ("WEE" +:+ kelvin_sign +:+ "LY")) (Some "2024-01-07") 738000 seeded
    = Ok report
    ∧ report_period report = "weekly".
Proof. eexists. split; [by vm_compute|done]. Qed.

(** Digits are read as [strptime] reads them: a year and a day in
    full-width digits are a date, and the save is stored under it. *)
Example save_habits_fullwidth_date :
  parse_date "２０２４-01-1５" = inr 738900
  ∧ ∃ percentage st',
      save_habits 7 (save_body "２０２４-01-1５" two_done) seeded = (Ok percentage, st')
      ∧ entries_table st' !! 0%nat = Some (new_entry 7 738900 1 true).
Proof. split; [by vm_compute|]. do 2 eexists. split; by vm_compute. Qed.

(** A body that is not a JSON object has no [get]. *)
Example save_habits_list_body :
  save_habits 7 (Py.VList [Py.VInt 1]) seeded = (Raised Py.AttributeError, seeded).
Proof. by vm_compute. Qed.

(** A date that is not a string is not caught by the handler of
    [ValueError]. *)
Example save_habits_numeric_date :
  save_habits 7
    (Py.VDict (<[Py.KStr "date" := Py.VInt 20240101]>
                 (<[Py.KStr "completions" := Py.VDict two_done]> ∅)))
    seeded
  = (Raised Py.TypeError, seeded).
Proof. by vm_compute. Qed.



(** * Properties of the rest of the application *)

(** ** Dates as text *)

Lemma days_before_year_bounds y :
  1 ≤ y ≤ 9999 → 0 ≤ days_before_year y ≤ 3651694.
Proof. unfold days_before_year. Z.to_euclidean_division_equations. lia. Qed.

Lemma days_before_year_step y :
  1 ≤ y → days_before_year (y + 1) = days_before_year y + (if is_leap y then 366 else 365).
Proof.
  intros Hy. unfold days_before_year, is_leap.
  replace (y + 1 - 1) with y by lia.
  repeat (match goal with |- context [?a =? ?b] => destruct (Z.eqb_spec a b) end);
    simpl; Z.to_euclidean_division_equations; lia.
Qed.

Ltac split_eqb :=
  repeat match goal with
    | |- context [?a =? ?b] => destruct (Z.eqb_spec a b)
    | |- context [?a <=? ?b] => destruct (Z.leb_spec a b)
    | |- context [?a <? ?b] => destruct (Z.ltb_spec a b)
    end.

(** The month table agrees with the lengths of the months. *)
Lemma days_before_month_table y m :
  1 ≤ m ≤ 12 →
  days_before_month y m =
  default 0 (DAYS_BEFORE_MONTH !! Z.to_nat m)
  + (if (2 <? m) && is_leap y then 1 else 0).
Proof.
  intros Hm. unfold days_before_month, days_in_month.
  destruct (is_leap y);
    destruct m as [|p|p]; try lia;
    do 4 (try (destruct p as [p|p|]; try lia)); reflexivity.
Qed.

Lemma days_in_month_table y m :
  1 ≤ m ≤ 12 →
  days_in_month y m =
  default 0 (DAYS_IN_MONTH !! Z.to_nat m)
  + (if (m =? 2) && is_leap y then 1 else 0).
Proof.
  intros Hm. unfold days_in_month.
  destruct (is_leap y);
    destruct m as [|p|p]; try lia;
    do 4 (try (destruct p as [p|p|]; try lia)); reflexivity.
Qed.

(** Every day number of a year has its month and day. *)
Lemma month_day_spec (leapyear : bool) (n : Z) :
  0 ≤ n < (if leapyear then 366 else 365) →
  1 ≤ (month_day leapyear n).1 ≤ 12
  ∧ 1 ≤ (month_day leapyear n).2
      ≤ default 0 (DAYS_IN_MONTH !! Z.to_nat (month_day leapyear n).1)
        + (if ((month_day leapyear n).1 =? 2) && leapyear then 1 else 0)
  ∧ default 0 (DAYS_BEFORE_MONTH !! Z.to_nat (month_day leapyear n).1)
    + (if (2 <? (month_day leapyear n).1) && leapyear then 1 else 0)
    + (month_day leapyear n).2 = n + 1.
Proof.
  intros Hn.
  pose (P := λ (leapyear : bool) (n : Z),
    1 ≤ (month_day leapyear n).1 ≤ 12
    ∧ 1 ≤ (month_day leapyear n).2
        ≤ default 0 (DAYS_IN_MONTH !! Z.to_nat (month_day leapyear n).1)
          + (if ((month_day leapyear n).1 =? 2) && leapyear then 1 else 0)
    ∧ default 0 (DAYS_BEFORE_MONTH !! Z.to_nat (month_day leapyear n).1)
      + (if (2 <? (month_day leapyear n).1) && leapyear then 1 else 0)
      + (month_day leapyear n).2 = n + 1).
  assert (Forall (P true) (seqZ 0 366)) as Hleap.
  { apply (bool_decide_unpack _). by vm_compute. }
  assert (Forall (P false) (seqZ 0 365)) as Hplain.
  { apply (bool_decide_unpack _). by vm_compute. }
  rewrite Forall_forall in Hleap, Hplain.
  destruct leapyear; [apply (Hleap n)|apply (Hplain n)]; apply elem_of_seqZ; lia.
Qed.

(** [date(y, m, d)] in terms of the tables. *)
Lemma date_of_ymd_table y m d :
  1 ≤ y ≤ 9999 → 1 ≤ m ≤ 12 →
  1 ≤ d ≤ default 0 (DAYS_IN_MONTH !! Z.to_nat m)
          + (if (m =? 2) && is_leap y then 1 else 0) →
  date_of_ymd y m d =
  inr (days_before_year y
       + (default 0 (DAYS_BEFORE_MONTH !! Z.to_nat m)
          + (if (2 <? m) && is_leap y then 1 else 0))
       + d).
Proof.
  intros Hy Hm Hd. unfold date_of_ymd.
  rewrite (days_in_month_table y m Hm), (days_before_month_table y m Hm).
  repeat match goal with
    | |- context [?a <=? ?b] => rewrite (proj2 (Z.leb_le a b)) by lia
    end.
  done.
Qed.

(** The year, month and day of an ordinal denote that ordinal. *)
Lemma ord2ymd_spec n :
  date_valid n →
  date_of_ymd (ord2ymd n).1.1 (ord2ymd n).1.2 (ord2ymd n).2 = inr n
  ∧ 1 ≤ (ord2ymd n).1.1 ≤ 9999
  ∧ 1 ≤ (ord2ymd n).1.2 ≤ 12
  ∧ 1 ≤ (ord2ymd n).2 ≤ 31.
Proof.
  unfold date_valid, MINORDINAL, MAXORDINAL. intros Hn. unfold ord2ymd.
  set (n0 := n - 1).
  set (n400 := n0 / 146097). set (r1 := n0 mod 146097).
  set (n100 := r1 / 36524). set (r2 := r1 mod 36524).
  set (n4 := r2 / 1461). set (r3 := r2 mod 1461).
  set (n1 := r3 / 365). set (r4 := r3 mod 365).
  set (year := n400 * 400 + 1 + n100 * 100 + n4 * 4 + n1).
  assert (0 ≤ n400 ≤ 24 ∧ 0 ≤ r1 < 146097 ∧ n0 = 146097 * n400 + r1) as (H400 & Hr1 & E1).
  { subst n400 r1 n0. Z.to_euclidean_division_equations. lia. }
  assert (0 ≤ n100 ≤ 4 ∧ 0 ≤ r2 < 36524 ∧ r1 = 36524 * n100 + r2) as (H100 & Hr2 & E2).
  { subst n100 r2. Z.to_euclidean_division_equations. lia. }
  assert (0 ≤ n4 ≤ 24 ∧ 0 ≤ r3 < 1461 ∧ r2 = 1461 * n4 + r3) as (H4 & Hr3 & E3).
  { subst n4 r3. Z.to_euclidean_division_equations. lia. }
  assert (0 ≤ n1 ≤ 4 ∧ 0 ≤ r4 < 365 ∧ r3 = 365 * n1 + r4) as (H1 & Hr4 & E4).
  { subst n1 r4. Z.to_euclidean_division_equations. lia. }
  clearbody n400 r1 n100 r2 n4 r3 n1 r4.
  destruct ((n1 =? 4) || (n100 =? 4)) eqn:Hlast.
  - (* the last day of a leap year *)
    simpl.
    assert (is_leap (year - 1) = true ∧ days_before_year (year - 1) + 366 = n
            ∧ 1 ≤ year - 1 ≤ 9999) as (Hleap & Hdays & Hyear).
    { apply orb_true_iff in Hlast. unfold is_leap, days_before_year. subst year.
      rewrite !Z.eqb_eq in Hlast. split_and!.
      - apply andb_true_iff. rewrite orb_true_iff, negb_true_iff, !Z.eqb_eq, Z.eqb_neq.
        Z.to_euclidean_division_equations. lia.
      - Z.to_euclidean_division_equations. lia.
      - lia.
      - lia. }
    rewrite (date_of_ymd_table _ 12 31); [|lia|lia|simpl; lia].
    rewrite Hleap. simpl. split_and!; [f_equal; lia|lia..].
  - apply orb_false_iff in Hlast as [Hn1 Hn100]. rewrite Z.eqb_neq in Hn1, Hn100.
    set (leapyear := (n1 =? 3) && (negb (n4 =? 24) || (n100 =? 3))).
    assert (is_leap year = leapyear ∧ days_before_year year = n0 - r4
            ∧ 1 ≤ year ≤ 9999) as (Hleap & Hdays & Hyear).
    { unfold is_leap, days_before_year. subst year leapyear. split_and!.
      - destruct (Z.eqb_spec n1 3), (Z.eqb_spec n4 24), (Z.eqb_spec n100 3); simpl.
        all: repeat match goal with
               | |- context [?a =? ?b] => destruct (Z.eqb_spec a b)
               end; simpl; try reflexivity; exfalso;
             Z.to_euclidean_division_equations; lia.
      - Z.to_euclidean_division_equations. lia.
      - lia.
      - subst n0. lia. }
    assert (0 ≤ r4 < (if leapyear then 366 else 365)) as Hr by (destruct leapyear; lia).
    pose proof (month_day_spec leapyear r4 Hr) as (Hm & Hd & Hsum).
    destruct (month_day leapyear r4) as [m d] eqn:Hmd. simpl in *.
    rewrite (date_of_ymd_table year m d Hyear Hm); rewrite Hleap; [|done].
    split_and!; [f_equal; subst n0; lia|lia..| |].
    + lia.
    + assert (default 0 (DAYS_IN_MONTH !! Z.to_nat m) ≤ 31); [|destruct ((m =? 2) && leapyear) eqn:H2; [|lia]].
      * destruct m as [|p|p]; try lia.
        do 4 (try (destruct p as [p|p|]; try lia)); by vm_compute.
      * apply andb_true_iff in H2 as [->%Z.eqb_eq _]. simpl in Hd. lia.
Qed.

Ltac cases_small k :=
  let p := fresh "p" in
  destruct k as [|p|p]; try lia;
  do 5 (try (destruct p as [p|p|]; try lia)).

Lemma read_digit_char k rest :
  0 ≤ k ≤ 9 → read_digit (String (digit_char k) rest) = Some (k, rest).
Proof. intros Hk. cases_small k; reflexivity. Qed.

(** Four digits are read back as the number they spell. *)
Lemma match_Y_pad4 y rest :
  0 ≤ y ≤ 9999 → match_Y (pad4 y +:+ rest) = Some (y, rest).
Proof.
  intros Hy.
  change (pad4 y +:+ rest)
    with (String (digit_char (y / 1000))
            (String (digit_char (y / 100 mod 10))
               (String (digit_char (y / 10 mod 10))
                  (String (digit_char (y mod 10)) rest)))).
  unfold match_Y.
  do 4 (rewrite read_digit_char by (Z.to_euclidean_division_equations; lia);
        cbn [mbind option_bind]).
  do 2 f_equal. Z.to_euclidean_division_equations. lia.
Qed.

(** The text ["%04d-%02d-%02d"] of a year, a month and a day is matched
    as that year, month and day, with nothing left over. *)
Lemma match_format_padded y m d :
  0 ≤ y ≤ 9999 → 1 ≤ m ≤ 12 → 1 ≤ d ≤ 31 →
  match_format (pad4 y +:+ "-" +:+ pad2 m +:+ "-" +:+ pad2 d) = Some (y, m, d, "").
Proof.
  intros Hy Hm Hd. unfold match_format. rewrite match_Y_pad4 by done.
  cases_small m; cases_small d; reflexivity.
Qed.

(** The parser reads the text of a date as that date. *)
Lemma strptime_isoformat d : date_valid d → strptime_date (isoformat d) = inr d.
Proof.
  intros Hd. destruct (ord2ymd_spec d Hd) as (Hdate & Hy & Hm & Hday).
  unfold isoformat. destruct (ord2ymd d) as [[y m] day]. simpl in *.
  unfold strptime_date. by rewrite match_format_padded by lia.
Qed.

(** The text of a date as the query parameter of a view. *)
Lemma date_param_isoformat d today :
  date_valid d → date_param (Some (isoformat d)) today = inr d.
Proof.
  intros Hd. pose proof (strptime_isoformat d Hd) as Hs. unfold date_param.
  destruct (isoformat d) as [|c s]; [done|].
  unfold parse_date. by rewrite Hs.
Qed.

(** X1. The text the views send for a date, [isoformat()], parses back to
    the same date, for every date Python has. *)
Theorem parse_date_isoformat d :
  date_valid d → parse_date (isoformat d) = inr d.
Proof. intros Hd. unfold parse_date. by rewrite strptime_isoformat. Qed.

(** A calendar date has an ordinal in the range of [date]. *)
Lemma date_of_ymd_valid y m d n : date_of_ymd y m d = inr n → date_valid n.
Proof.
  unfold date_of_ymd. destruct (_ && _) eqn:Hok; [|done]. intros [= <-].
  repeat (apply andb_true_iff in Hok as [Hok ?]).
  repeat match goal with H : (_ <=? _) = true |- _ => apply Z.leb_le in H end.
  assert (1 ≤ m ≤ 12) as Hm by lia.
  rewrite (days_in_month_table y m Hm) in *.
  rewrite (days_before_month_table y m Hm).
  pose proof (days_before_year_bounds y ltac:(lia)) as Hy.
  assert (is_leap y = true → y ≤ 9996) as Hleap.
  { unfold is_leap. intros [H4 _]%andb_true_iff. apply Z.eqb_eq in H4.
    Z.to_euclidean_division_equations. lia. }
  assert (y ≤ 9998 → days_before_year y ≤ 3651329) as Hy'.
  { unfold days_before_year. intros ?. Z.to_euclidean_division_equations. lia. }
  unfold date_valid, MINORDINAL, MAXORDINAL.
  destruct (is_leap y); [specialize (Hleap eq_refl)|];
    cases_small m; simpl in *; lia.
Qed.

Lemma strptime_date_valid s d : strptime_date s = inr d → date_valid d.
Proof.
  unfold strptime_date.
  destruct (match_format s) as [[[[y m] day] rest]|]; [|done].
  destruct rest; [|done]. apply date_of_ymd_valid.
Qed.

(** A view's date is a date of the supported range when today's is. *)
Lemma date_param_valid arg today d :
  date_valid today → date_param arg today = inr d → date_valid d.
Proof.
  intros Htoday. unfold date_param, parse_date.
  destruct arg as [[|c s]|]; try (by intros [= <-]).
  destruct (strptime_date _) as [e|n] eqn:Hs; [done|].
  intros [= <-]. by eapply strptime_date_valid.
Qed.


(** X3. A date text is accepted with or without leading zeros in the month
    and the day, and stands for the same calendar date either way; what is
    not a calendar date is refused. *)
Theorem parse_date_spellings y m d ms ds :
  0 ≤ y ≤ 9999 → 1 ≤ m ≤ 12 → 1 ≤ d ≤ 31 →
  ms ∈ [pad2 m; unpadded m] → ds ∈ [pad2 d; unpadded d] →
  parse_date (pad4 y +:+ "-" +:+ ms +:+ "-" +:+ ds) =
  match date_of_ymd y m d with
  | inr n => inr n
  | inl _ => inl Py.ValueError
  end.
Proof.
  intros Hy Hm Hd Hms Hds.
  assert (match_format (pad4 y +:+ "-" +:+ ms +:+ "-" +:+ ds) = Some (y, m, d, ""))
    as Hmatch.
  { unfold match_format. rewrite match_Y_pad4 by done.
    apply elem_of_cons in Hms as [->|Hms]; [|apply list_elem_of_singleton in Hms as ->];
    (apply elem_of_cons in Hds as [->|Hds]; [|apply list_elem_of_singleton in Hds as ->]);
    cases_small m; cases_small d; reflexivity. }
  unfold parse_date, strptime_date. by rewrite Hmatch.
Qed.

Lemma parse_date_spellings_witness :
  parse_date "2024-1-7" = inr 738892 ∧ parse_date "2024-02-30" = inl Py.ValueError.
Proof.
  split.
  - apply (parse_date_spellings 2024 1 7 "1" "7"); [lia..| |]; set_solver.
  - apply (parse_date_spellings 2024 2 30 "02" "30"); [lia..| |]; set_solver.
Defined.

Lemma parse_date_isoformat_witness : parse_date (isoformat 738892) = inr 738892.
Proof. apply parse_date_isoformat. split; by vm_compute. Defined.


(** ** Accounts *)

Lemma next_account_id_fresh users : next_account_id users ∉ account_id <$> users.
Proof.
  assert (∀ i, i ∈ account_id <$> users → i < next_account_id users) as Hlt.
  { unfold next_account_id. induction users as [|u us IH].
    - by intros i ?%elem_of_nil.
    - rewrite fmap_cons. cbn [foldr].
      intros i [->|Hi]%elem_of_cons; [lia|]. specialize (IH i Hi). lia. }
  intros Hin. specialize (Hlt _ Hin). lia.
Qed.

Section accounts_facts.
Context (generate_password_hash : string → Py.val → Py.exn + string).
Context (check_password_hash : string → Py.val → Py.exn + bool).
Context (create_access_token : Z → string).

(** What a call of [register] does to the table, by the fields of its
    body. *)
Lemma register_cases now salt body users :
  (∃ r, register generate_password_hash now salt body users = (r, users)
        ∧ r ≠ Reply 201 registered)
  ∨ (∃ username password password_hash,
       auth_request body username password
       ∧ username ≠ ""
       ∧ Py.encodable username = true
       ∧ Py.truthy password = true
       ∧ list_find (by_username username) users = None
       ∧ generate_password_hash salt password = inr password_hash
       ∧ register generate_password_hash now salt body users =
           (Reply 201 registered,
            users ++ [ {| account_id := next_account_id users;
                          account_username := username;
                          account_password_hash := password_hash;
                          account_created_at := now |} ])).
Proof.
  unfold register.
  destruct (Py.as_dict _) as [data|] eqn:Hdata; [|left; eauto].
  destruct (username_field data) as [e|username] eqn:Hu; [left; eauto|].
  destruct (bool_decide (username ≠ "")) eqn:Hne; simpl; [|left; eauto].
  destruct (Py.truthy (password_field data)) eqn:Hpw; simpl; [|left; eauto].
  destruct (Py.encodable username) eqn:Henc; simpl; [|left; eauto].
  destruct (list_find _ users) as [[i u]|] eqn:Hfind; [left; eauto|].
  destruct (generate_password_hash salt (password_field data)) as [e|h] eqn:Hgen;
    [left; eauto|].
  right. exists username, (password_field data), h.
  apply bool_decide_eq_true in Hne. split_and!; try done.
  by exists data.
Qed.

(** X4. An account that has just been created can log in with the body it
    was registered with, and the token is issued for its key. *)
Theorem register_then_login now salt body users msg users' :
  (∀ salt password h,
     generate_password_hash salt password = inr h →
     check_password_hash h password = inr true) →
  register generate_password_hash now salt body users = (Reply 201 msg, users') →
  login check_password_hash create_access_token body users'
  = Reply 200 (inl (create_access_token (next_account_id users))).
Proof.
  intros Hcheck Hreg.
  destruct (register_cases now salt body users)
    as [(r & Hr & Hne)|(username & password & h & Hreq & _ & Henc & _ & Hfree & Hgen & Hr)];
    rewrite Hr in Hreg.
  - injection Hreg as -> _. unfold registered in Hne.
    destruct (register generate_password_hash now salt body users) eqn:Hrun.
    revert Hrun. unfold register.
    repeat case_match; intros [= <- <-]; simplify_eq; done.
  - injection Hreg as _ <-. destruct Hreq as (data & Hdata & Hu & Hp).
    unfold login. rewrite Hdata, Hu, Hp, Henc. simpl.
    rewrite (list_find_snoc_new _ _ _ Hfree) by done. simpl.
    by rewrite (Hcheck _ _ _ Hgen).
Qed.

(** The account [register] appends when it answers 201: the username and
    the password are those read from the body. *)
Lemma register_appends now salt body users :
  (register generate_password_hash now salt body users).1 = Reply 201 registered →
  ∃ username password password_hash,
    auth_request body username password
    ∧ generate_password_hash salt password = inr password_hash
    ∧ username ≠ ""
    ∧ Py.encodable username = true
    ∧ (username ∉ account_username <$> users)
    ∧ (next_account_id users ∉ account_id <$> users)
    ∧ (register generate_password_hash now salt body users).2 =
        users ++ [ {| account_id := next_account_id users;
                      account_username := username;
                      account_password_hash := password_hash;
                      account_created_at := now |} ].
Proof.
  destruct (register_cases now salt body users)
    as [(r & Hr & Hne)|(username & password & h & Hreq & Hnonempty & Henc & _ & Hfree & Hgen & Hr)];
    rewrite Hr; simpl; [done|].
  intros _. exists username, password, h. split_and!; try done.
  - intros (u & Hu & Hin)%list_elem_of_fmap.
    apply list_find_None in Hfree. rewrite Forall_forall in Hfree.
    by apply (Hfree u Hin).
  - apply next_account_id_fresh.
Qed.

Lemma register_unchanged now salt body users :
  (register generate_password_hash now salt body users).1 ≠ Reply 201 registered →
  (register generate_password_hash now salt body users).2 = users.
Proof.
  destruct (register_cases now salt body users)
    as [(r & Hr & Hne)|(username & password & h & _ & _ & _ & _ & _ & _ & Hr)];
    rewrite Hr; simpl; done.
Qed.

(** X5. [register] changes the table only when it answers 201; it then
    appends one account and leaves the others as they are.  The new
    account has a key no account has, the username of the body, stripped
    and lower-cased, which is not empty, can be encoded and was not in the
    table, the hash of the password of the body, and the time of the
    call. *)
Theorem register_effect now salt body users :
  let r := (register generate_password_hash now salt body users).1 in
  let users' := (register generate_password_hash now salt body users).2 in
  (r ≠ Reply 201 registered → users' = users)
  ∧ (r = Reply 201 registered →
     ∃ username password password_hash,
       auth_request body username password
       ∧ generate_password_hash salt password = inr password_hash
       ∧ username ≠ ""
       ∧ Py.encodable username = true
       ∧ (username ∉ account_username <$> users)
       ∧ (next_account_id users ∉ account_id <$> users)
       ∧ users' =
           users ++ [ {| account_id := next_account_id users;
                         account_username := username;
                         account_password_hash := password_hash;
                         account_created_at := now |} ]).
Proof.
  split; [apply register_unchanged|apply register_appends].
Qed.

(** X6. Once a username is registered, a further registration whose
    username is the same after [strip()] and [lower()] is answered 409,
    whatever its password, and changes nothing. *)
Theorem register_again now salt body users msg users' username password
    now' salt' body' password' :
  register generate_password_hash now salt body users = (Reply 201 msg, users') →
  auth_request body username password →
  auth_request body' username password' →
  Py.truthy password' = true →
  register generate_password_hash now' salt' body' users'
  = (Reply 409 username_taken, users').
Proof.
  intros Hreg (data & Hdata & Hu & _) (data' & Hdata' & Hu' & Hp') Htruthy.
  destruct (register_cases now salt body users)
    as [(r & Hr & Hne)|(username0 & password0 & h & Hreq & Hnonempty & Henc & _ & Hfree & _ & Hr)];
    rewrite Hr in Hreg.
  - injection Hreg as -> _.
    destruct (register generate_password_hash now salt body users) eqn:Hrun.
    revert Hrun. unfold register.
    repeat case_match; intros [= <- <-]; simplify_eq; done.
  - injection Hreg as _ <-. destruct Hreq as (data0 & Hdata0 & Hu0 & _).
    assert (username0 = username) as -> by congruence.
    unfold register. rewrite Hdata', Hu', Hp', Htruthy, Henc.
    rewrite bool_decide_true by done. simpl.
    by rewrite (list_find_snoc_new _ _ _ Hfree).
Qed.

(** X7. A token is only issued to a body whose username, stripped and
    lower-cased, is that of an account in the table and whose password the
    stored hash of that account accepts; the token is the one for that
    account's key.  A username no account has is answered 401 whatever the
    password, and one that cannot be encoded (it holds a surrogate) makes
    the query raise.  Conversely, with usernames unique in the table, a
    body that names an account and carries a password its hash accepts
    is answered 200 with that account's token. *)
Theorem login_sound body users :
  (∀ token,
     login check_password_hash create_access_token body users = Reply 200 (inl token) →
     ∃ username password user,
       auth_request body username password
       ∧ user ∈ users
       ∧ account_username user = username
       ∧ check_password_hash (account_password_hash user) password = inr true
       ∧ token = create_access_token (account_id user))
  ∧ (∀ username password,
       auth_request body username password →
       username ∉ account_username <$> users →
       if Py.encodable username
       then login check_password_hash create_access_token body users
            = Reply 401 (inr invalid_credentials)
       else ∃ e, login check_password_hash create_access_token body users = Failed e)
  ∧ (∀ username password user,
       auth_request body username password →
       Py.encodable username = true →
       NoDup (account_username <$> users) →
       user ∈ users →
       account_username user = username →
       check_password_hash (account_password_hash user) password = inr true →
       login check_password_hash create_access_token body users
       = Reply 200 (inl (create_access_token (account_id user)))).
Proof.
  split_and!.
  - intros token. unfold login.
    destruct (Py.as_dict _) as [data|] eqn:Hdata; [|done].
    destruct (username_field data) as [e|username] eqn:Hu; [done|].
    destruct (Py.encodable username); simpl; [|done].
    destruct (list_find _ users) as [[i user]|] eqn:Hfind; [|done].
    destruct (check_password_hash _ _) as [e|[]] eqn:Hcheck; [done| |done].
    intros [= <-]. apply list_find_Some in Hfind as (Hi & Hname & _).
    exists username, (password_field data), user. split_and!; try done.
    + by exists data.
    + by eapply list_elem_of_lookup_2.
  - intros username password (data & Hdata & Hu & _) Hnone.
    unfold login. rewrite Hdata, Hu.
    destruct (Py.encodable username); simpl; [|eauto].
    assert (list_find (by_username username) users = None) as ->; [|done].
    apply list_find_None, Forall_forall. intros u Hin Hname.
    apply Hnone. rewrite <-Hname. by apply list_elem_of_fmap_2.
  - intros username password user (data & Hdata & Hu & Hp) Henc Hnd Hin Hname Hcheck.
    unfold login. rewrite Hdata, Hu, Hp, Henc. simpl.
    destruct (list_find (by_username username) users) as [[i user']|] eqn:Hfind.
    + apply list_find_Some in Hfind as (Hi & Hname' & _).
      assert (user' = user) as ->.
      { apply (NoDup_fmap_inj_on account_username users); [done| |done|].
        - by eapply list_elem_of_lookup_2.
        - unfold by_username in Hname'. congruence. }
      by rewrite Hcheck.
    + apply list_find_None in Hfind. rewrite Forall_forall in Hfind.
      by destruct (Hfind user Hin).
Qed.

(** X8. In a table built by registrations no two accounts share a key or
    a username, and every username is a non-empty text that can be
    encoded: the unique constraint on [username] never has to refuse a
    row. *)
Theorem registrations_distinct users :
  registrations generate_password_hash users →
  NoDup (account_id <$> users)
  ∧ NoDup (account_username <$> users)
  ∧ Forall (λ u, account_username u ≠ "" ∧ Py.encodable (account_username u) = true) users.
Proof.
  induction 1 as [|users now salt body _ (Hids & Hnames & Hfilled)].
  - split_and!; constructor.
  - pose proof (register_unchanged now salt body users) as Hsame.
    pose proof (register_appends now salt body users) as Hnew.
    destruct (decide ((register generate_password_hash now salt body users).1
                      = Reply 201 registered)) as [Hok|Hko].
    + destruct (Hnew Hok)
        as (username & password & h & _ & _ & Hne & Henc & Hname & Hid & ->).
      rewrite !fmap_app. simpl. split_and!.
      * apply NoDup_app. split_and!; [done| |apply NoDup_singleton].
        by intros i Hi ->%list_elem_of_singleton.
      * apply NoDup_app. split_and!; [done| |apply NoDup_singleton].
        by intros n Hn ->%list_elem_of_singleton.
      * apply Forall_app. split; [done|]. by repeat constructor.
    + by rewrite (Hsame Hko).
Qed.
End accounts_facts.

(** The [plain] method accepts the password a hash was made from. *)
Lemma plain_check_generate salt password h :
  plain_hash salt password = inr h → plain_check h password = inr true.
Proof.
  destruct password; try done. intros [= <-]. simpl. by rewrite bool_decide_true.
Qed.

Lemma auth_request_credentials username password :
  auth_request (credentials username password)
    (Py.lower (Py.strip username)) (Py.VStr password).
Proof.
  exists (<[Py.KStr "username" := Py.VStr username]>
            (<[Py.KStr "password" := Py.VStr password]> ∅)).
  unfold credentials, Py.or, username_field, password_field. simpl.
  rewrite bool_decide_false by apply insert_non_empty. simpl.
  rewrite lookup_insert_eq, lookup_insert_ne, lookup_insert_eq by done. done.
Qed.

Lemma auth_request_normalized username password normalized :
  Py.lower (Py.strip username) = normalized →
  auth_request (credentials username password) normalized (Py.VStr password).
Proof. intros <-. apply auth_request_credentials. Qed.

(** A body determines the fields read from it. *)
Lemma auth_request_fun body username password username' password' :
  auth_request body username password → auth_request body username' password' →
  username = username' ∧ password = password'.
Proof.
  intros (data & Hdata & Hu & Hp) (data' & Hdata' & Hu' & Hp').
  rewrite Hdata in Hdata'. injection Hdata' as <-. split; congruence.
Qed.

Lemma register_then_login_witness :
  login plain_check Py.str (credentials "  Alice " "pw")
    (register plain_hash 5 "s" (credentials "  Alice " "pw") []).2
  = Reply 200 (inl "1").
Proof.
  apply (register_then_login plain_hash plain_check Py.str 5 "s"
           (credentials "  Alice " "pw") [] registered).
  - apply plain_check_generate.
  - by vm_compute.
Defined.

(** A username the driver cannot encode: the query raises and nothing is
    stored; a username of spaces only is answered 400. *)
Example register_unusual_names :
  register plain_hash 9 "t" (credentials lone_surrogate "pw") ecole_table
  = (Failed Py.UnicodeEncodeError, ecole_table)
  ∧ register plain_hash 9 "t" (credentials (nbsp +:+ em_space) "pw") ecole_table
    = (Reply 400 credentials_required, ecole_table).
Proof. split; by vm_compute. Qed.

(** On the table that holds [école]: a registration without a password
    changes nothing, and the registration of [" Bob "] appends the account
    [bob] with the next key. *)
Lemma register_effect_witness :
  (register plain_hash 9 "t" (credentials "carol" "") ecole_table).2 = ecole_table
  ∧ (register plain_hash 9 "t" (credentials " Bob " "pw2") ecole_table).2
    = ecole_table ++ [ {| account_id := 2; account_username := "bob";
                          account_password_hash := "plain$$pw2";
                          account_created_at := 9 |} ].
Proof.
  split.
  - apply (proj1 (register_effect plain_hash 9 "t" (credentials "carol" "") ecole_table)).
    by vm_compute.
  - destruct (proj2 (register_effect plain_hash 9 "t" (credentials " Bob " "pw2")
                      ecole_table))
      as (username & password & h & Hreq & Hgen & _ & _ & _ & _ & ->); [by vm_compute|].
    destruct (auth_request_fun _ _ _ _ _ Hreq (auth_request_credentials " Bob " "pw2"))
      as [-> ->].
    injection Hgen as <-. by vm_compute.
Defined.

(** The name registered with a no-break space before it and an em space
    after it is taken: [école] is answered 409. *)
Lemma register_again_witness :
  register plain_hash 9 "t" (credentials "école" "other") ecole_table
  = (Reply 409 username_taken, ecole_table).
Proof.
  apply (register_again plain_hash 5 "s"
           (credentials (nbsp +:+ "ÉCOLE" +:+ em_space) "pw") [] registered _
           "école" (Py.VStr "pw") 9 "t" (credentials "école" "other") (Py.VStr "other")).
  - by vm_compute.
  - apply auth_request_normalized. by vm_compute.
  - apply auth_request_normalized. by vm_compute.
  - by vm_compute.
Defined.

(** On the table that holds [école]: nobody is called [carol], and
    [ÉCOLE] with the right password gets the token of account 1. *)
Lemma login_sound_witness :
  login plain_check Py.str (credentials "carol" "pw") ecole_table
  = Reply 401 (inr invalid_credentials)
  ∧ login plain_check Py.str (credentials "ÉCOLE" "pw") ecole_table
    = Reply 200 (inl "1").
Proof.
  destruct (login_sound plain_check Py.str (credentials "carol" "pw") ecole_table)
    as (_ & Hunknown & _).
  destruct (login_sound plain_check Py.str (credentials "ÉCOLE" "pw") ecole_table)
    as (_ & _ & Hknown).
  split.
  - pose proof (Hunknown _ _ (auth_request_credentials "carol" "pw")) as H401.
    replace (Py.encodable (Py.lower (Py.strip "carol"))) with true in H401
      by (by vm_compute).
    apply H401. apply (bool_decide_unpack _). by vm_compute.
  - apply (Hknown _ _ {| account_id := 1; account_username := "école";
                         account_password_hash := "plain$$pw";
                         account_created_at := 5 |}
             (auth_request_credentials "ÉCOLE" "pw")).
    + by vm_compute.
    + apply (bool_decide_unpack _). by vm_compute.
    + assert (ecole_table = [ {| account_id := 1; account_username := "école";
                                 account_password_hash := "plain$$pw";
                                 account_created_at := 5 |} ]) as ->
        by (by vm_compute).
      by left.
    + by vm_compute.
    + by vm_compute.
Defined.

(** Three registrations, the second refused: two accounts, two names. *)
Lemma registrations_distinct_witness :
  account_username <$>
    (register plain_hash 9 "t" (credentials "Bob" "x")
       (register plain_hash 7 "u" (credentials "école" "y") ecole_table).2).2
  = ["école"; "bob"]
  ∧ NoDup (account_username <$>
             (register plain_hash 9 "t" (credentials "Bob" "x")
                (register plain_hash 7 "u" (credentials "école" "y") ecole_table).2).2).
Proof.
  split; [by vm_compute|].
  apply (registrations_distinct plain_hash).
  do 3 constructor. constructor.
Defined.

(** ** One user's day and the others *)

Lemma filter_insert_irrel {A} (P : A → Prop) `{!∀ x, Decision (P x)} (l : list A) i x y :
  l !! i = Some x → ¬ P x → ¬ P y → filter P (<[i:=y]> l) = filter P l.
Proof.
  revert i. induction l as [|a l IH]; intros [|i] Hi Hx Hy; simplify_eq/=.
  - by rewrite !filter_cons_False.
  - rewrite !filter_cons. by rewrite (IH i).
Qed.

(** The rows a query for another user or another day sees are not
    touched by the loop of [save_habits]. *)
Lemma filter_upsert_other user_id d id c es u' d' :
  (u', d') ≠ (user_id, d) →
  filter (by_user_date u' d') (upsert user_id d id c es)
  = filter (by_user_date u' d') es.
Proof.
  intros Hne.
  assert (∀ e, entry_key e = (user_id, id, d) → ¬ by_user_date u' d' e) as Hkey.
  { intros e Hk [Hu Hd]. unfold entry_key in Hk. by simplify_eq. }
  destruct (upsert_cases user_id d id c es) as [(i & x & Hf & ->)|[Hf ->]].
  - apply list_find_Some in Hf as (Hi & Hk & _).
    apply (filter_insert_irrel _ _ _ x); [done|by apply Hkey|by apply Hkey].
  - rewrite filter_app, filter_cons_False, filter_nil, app_nil_r; [done|].
    by apply Hkey.
Qed.

Lemma filter_save_rows_other user_id d completions habits es u' d' :
  (u', d') ≠ (user_id, d) →
  filter (by_user_date u' d') (save_rows user_id d completions habits es)
  = filter (by_user_date u' d') es.
Proof.
  intros Hne. revert es. induction habits as [|h hs IH]; intros es; simpl; [done|].
  by rewrite IH, filter_upsert_other.
Qed.

(** The rows of the store after a save, as a query for another user or
    day sees them; a rejected body changes nothing. *)
Lemma filter_save_habits_other user_id body st u' d' :
  (∀ d completions, save_validate body = inr (d, completions) →
                    (u', d') ≠ (user_id, d)) →
  filter (by_user_date u' d') (entries_table (save_habits user_id body st).2)
  = filter (by_user_date u' d') (entries_table st).
Proof.
  intros Hne. rewrite save_habits_split.
  destruct (save_validate body) as [r|[d completions]]; simpl; [done|].
  apply filter_save_rows_other. by eapply Hne.
Qed.

Lemma save_habits_catalog user_id body st :
  habits_table (save_habits user_id body st).2 = habits_table st.
Proof.
  rewrite save_habits_split. by destruct (save_validate body) as [r|[d completions]].
Qed.

Lemma all_habits_by_id_catalog st st' :
  habits_table st' = habits_table st → all_habits_by_id st' = all_habits_by_id st.
Proof. unfold all_habits_by_id. by intros ->. Qed.

Lemma save_validate_request data d completions :
  save_request data d completions → save_validate (Py.VDict data) = inr (d, completions).
Proof.
  intros (s & Hdate & Hparse & Hcompl). unfold save_validate, Py.or. simpl.
  assert (data ≠ ∅) as Hne by (intros ->; by rewrite lookup_empty in Hdate).
  rewrite bool_decide_false by done. simpl.
  unfold Py.get. rewrite Hdate, Hcompl. simpl.
  destruct s as [|c s]; [done|]. simpl. by rewrite Hparse.
Qed.

(** The loop of [progress] depends on the ledger only through the rows
    of the user on the days it visits. *)
Lemma count_entries_ext user_id habits es1 es2 end_date :
  ∀ k current_date habit_stats,
    (Z.to_nat (end_date - current_date + 1) ≤ k)%nat →
    (∀ day, current_date ≤ day ≤ end_date →
       filter (by_user_date user_id day) es1 = filter (by_user_date user_id day) es2) →
    count_entries user_id habits es1 end_date current_date habit_stats
    = count_entries user_id habits es2 end_date current_date habit_stats.
Proof.
  induction k as [|k IH]; intros cur stats Hk Hext;
    rewrite (count_entries_step _ _ es1), (count_entries_step _ _ es2);
    destruct (decide (cur ≤ end_date)) as [Hle|]; try done; [lia|].
  rewrite (Hext cur) by lia.
  destruct (count_day _ _ _) as [e|stats']; [done|].
  unfold date_add_days. destruct (_ && _); [|done].
  apply IH; [lia|]. intros day Hday. apply Hext. lia.
Qed.

(** X9. A save by one user for one day does not change what GET /habits
    answers for any other user or any other day. *)
Theorem save_habits_read_frame user_id data d completions st u' date_arg today d' :
  save_request data d completions →
  date_param date_arg today = inr d' →
  (u', d') ≠ (user_id, d) →
  get_habits u' date_arg today (save_habits user_id (Py.VDict data) st).2
  = get_habits u' date_arg today st.
Proof.
  intros Hreq Hd Hne. unfold get_habits. rewrite Hd.
  rewrite filter_save_habits_other.
  - by rewrite (all_habits_by_id_catalog st) by apply save_habits_catalog.
  - intros d0 c0 Hv. rewrite (save_validate_request _ _ _ Hreq) in Hv. by simplify_eq.
Qed.

(** X10. No request to POST /habits by one user, accepted or not, changes
    what GET /progress answers another user, for any period and end
    date. *)
Theorem save_habits_progress_frame user_id body st u' period_arg end_date_arg today :
  u' ≠ user_id →
  progress u' period_arg end_date_arg today (save_habits user_id body st).2
  = progress u' period_arg end_date_arg today st.
Proof.
  intros Hne. unfold progress.
  destruct (date_param end_date_arg today) as [e|end_date]; [done|].
  destruct (window_start _ end_date) as [[e|start_date]|]; [done| |done].
  rewrite (all_habits_by_id_catalog st) by apply save_habits_catalog.
  rewrite (count_entries_ext u' _ _ (entries_table st) end_date
             (Z.to_nat (end_date - start_date + 1))); [done|lia|].
  intros day _. apply filter_save_habits_other. intros d c _. congruence.
Qed.

(** User 8 saves for 2024-01-01; user 7 reads the same day. *)
Lemma save_habits_read_frame_witness :
  get_habits 7 (Some "2024-01-01") 738000
    (save_habits 8 (save_body "2024-01-01" two_done) after_first_save).2
  = get_habits 7 (Some "2024-01-01") 738000 after_first_save.
Proof.
  apply (save_habits_read_frame 8 _ 738886 two_done after_first_save 7
           (Some "2024-01-01") 738000 738886 two_done_request).
  - by vm_compute.
  - intros [=].
Defined.

Lemma save_habits_progress_frame_witness :
  progress 7 (Some "weekly") (Some "2024-01-07") 738000
    (save_habits 8 (save_body "2024-01-01" two_done) after_first_save).2
  = progress 7 (Some "weekly") (Some "2024-01-07") 738000 after_first_save.
Proof. apply save_habits_progress_frame. lia. Defined.

(** ** The exceptions of [progress] *)

(** A window that ends on the last date: the loop counts every day and
    then fails to step past the last one. *)
Lemma count_entries_last_day user_id es habits k :
  catalog_unique habits →
  ∀ current_date f n,
    MINORDINAL ≤ current_date →
    current_date + Z.of_nat k = MAXORDINAL →
    count_entries user_id habits es MAXORDINAL current_date
      (stats_row f n <$> habits) = inl Py.OverflowError.
Proof.
  intros Hnd. induction k as [|k IH]; intros cur f n Hmin Hcur;
    rewrite count_entries_step, decide_True by lia;
    rewrite (count_day_rows _ f n [] habits Hnd); simpl;
    unfold date_add_days; unfold MINORDINAL in *.
  - rewrite (proj2 (Z.leb_le _ _)) by lia.
    by rewrite (proj2 (Z.leb_gt _ _)) by lia.
  - rewrite (proj2 (Z.leb_le _ _)), (proj2 (Z.leb_le _ _)) by lia. simpl.
    apply IH; lia.
Qed.

Lemma window_start_cases period end_date :
  window_start period end_date =
  if decide (period = "weekly") then Some (date_add_days end_date (- (7 - 1)))
  else if decide (period = "monthly") then Some (date_add_days end_date (- (30 - 1)))
  else None.
Proof. done. Qed.

Lemma window_start_days period days end_date :
  period_days period days →
  window_start period end_date = Some (date_add_days end_date (- (days - 1))).
Proof. by intros [[-> ->]|[-> ->]]. Qed.

Lemma window_start_unknown period end_date :
  (∀ days, ¬ period_days period days) → window_start period end_date = None.
Proof.
  intros Hno. unfold window_start.
  destruct (decide (period = "weekly")) as [->|]; [destruct (Hno 7); by left|].
  destruct (decide (period = "monthly")) as [->|]; [destruct (Hno 30); by right|].
  done.
Qed.

Lemma period_days_dec period : (∃ days, period_days period days) ∨ ∀ days, ¬ period_days period days.
Proof.
  destruct (decide (period = "weekly")) as [->|Hw]; [left; exists 7; by left|].
  destruct (decide (period = "monthly")) as [->|Hm]; [left; exists 30; by right|].
  right. intros days [[? _]|[? _]]; done.
Qed.

Lemma period_days_range period days : period_days period days → 1 ≤ days ≤ 30.
Proof. intros [[_ ->]|[_ ->]]; lia. Qed.

Lemma period_days_fun period days days' :
  period_days period days → period_days period days' → days = days'.
Proof. intros [[-> ->]|[-> ->]] [[? ->]|[? ->]]; done. Qed.

(** The outcome of [progress] on a date and a period it accepts. *)
Lemma progress_outcome user_id period_arg end_date_arg today st end_date days :
  catalog_unique (habits_table st) →
  date_param end_date_arg today = inr end_date →
  date_valid end_date →
  period_days (Py.lower (default "weekly" period_arg)) days →
  if decide (MINORDINAL ≤ end_date - (days - 1) ∧ end_date < MAXORDINAL)
  then ∃ report, progress user_id period_arg end_date_arg today st = Ok report
  else progress user_id period_arg end_date_arg today st = Raised Py.OverflowError.
Proof.
  intros Hnd Hd [Hlo Hhi] Hdays. pose proof (period_days_range _ _ Hdays) as Hrange.
  case_decide as Hwin.
  - destruct Hwin. eexists.
    by apply (progress_report user_id period_arg end_date_arg today st end_date
                (Py.lower (default "weekly" period_arg)) days).
  - unfold progress. rewrite Hd, (window_start_days _ days) by done.
    unfold date_add_days.
    destruct (decide (MINORDINAL ≤ end_date - (days - 1))) as [Hmin|Hmin].
    + assert (end_date = MAXORDINAL) as -> by lia.
      rewrite (proj2 (Z.leb_le _ _)), (proj2 (Z.leb_le _ _)) by lia. simpl.
      rewrite init_stats_rows by (by apply all_habits_unique).
      rewrite (count_entries_last_day user_id _ _ (Z.to_nat (days - 1)));
        [done|by apply all_habits_unique|lia|lia].
    + by rewrite (proj2 (Z.leb_gt _ _)) by lia.
Qed.

(** X11. GET /progress lets an exception escape only as [OverflowError],
    and exactly when the date and the period are accepted but the window
    would start before 0001-01-01 or ends on 9999-12-31; no [KeyError]
    leaves the counting loop. *)
Theorem progress_raises user_id period_arg end_date_arg today st e :
  catalog_unique (habits_table st) → date_valid today →
  progress user_id period_arg end_date_arg today st = Raised e ↔
  e = Py.OverflowError
  ∧ ∃ end_date days,
      date_param end_date_arg today = inr end_date
      ∧ period_days (Py.lower (default "weekly" period_arg)) days
      ∧ (end_date - (days - 1) < MINORDINAL ∨ end_date = MAXORDINAL).
Proof.
  intros Hnd Htoday. split.
  - intros Hraise.
    destruct (date_param end_date_arg today) as [e'|end_date] eqn:Hd.
    { unfold progress in Hraise. by rewrite Hd in Hraise. }
    pose proof (date_param_valid _ _ _ Htoday Hd) as Hvalid.
    destruct (period_days_dec (Py.lower (default "weekly" period_arg)))
      as [[days Hdays]|Hno].
    + pose proof (progress_outcome user_id period_arg end_date_arg today st
                    end_date days Hnd Hd Hvalid Hdays) as Hout.
      case_decide as Hwin.
      * destruct Hout as [report Hok]. congruence.
      * rewrite Hout in Hraise. injection Hraise as <-. split; [done|].
        exists end_date, days. split_and!; [done..|].
        destruct Hvalid. lia.
    + unfold progress in Hraise.
      by rewrite Hd, window_start_unknown in Hraise.
  - intros (-> & end_date & days & Hd & Hdays & Hout).
    pose proof (date_param_valid _ _ _ Htoday Hd) as Hvalid.
    pose proof (progress_outcome user_id period_arg end_date_arg today st
                  end_date days Hnd Hd Hvalid Hdays) as Hrun.
    rewrite decide_False in Hrun; [done|]. lia.
Qed.

(** A month that would start in the year before year 1, and a week,
    spelled with the Kelvin sign, that would. *)
Lemma progress_raises_witness :
  progress 7 (Some "Monthly") (Some "0001-01-29") 738000 seeded
  = Raised Py.OverflowError
  ∧ progress 7 (Some ("WEE" +:+ kelvin_sign +:+ "LY")) (Some "0001-01-03") 738000 seeded
    = Raised Py.OverflowError.
Proof.
  split.
  - apply (progress_raises 7 (Some "Monthly") (Some "0001-01-29") 738000 seeded).
    + apply (bool_decide_unpack _). by vm_compute.
    + split; by vm_compute.
    + split; [done|]. exists 29, 30.
      split_and!; [by vm_compute|by right|left; by vm_compute].
  - apply (progress_raises 7 (Some ("WEE" +:+ kelvin_sign +:+ "LY")) (Some "0001-01-03")
             738000 seeded).
    + apply (bool_decide_unpack _). by vm_compute.
    + split; by vm_compute.
    + split; [done|]. exists 3, 7.
      split_and!; [by vm_compute|left; split; by vm_compute|left; by vm_compute].
Defined.

(** ** GET /habits and GET /progress on the same store *)

Lemma filter_ext_in {A} (P Q : A → Prop) `{!∀ x, Decision (P x), !∀ x, Decision (Q x)}
    (l : list A) :
  (∀ x, x ∈ l → P x ↔ Q x) → filter P l = filter Q l.
Proof.
  induction l as [|x l IH]; intros Hext; [done|].
  rewrite !filter_cons. rewrite IH by (intros y ?; apply Hext; by right).
  pose proof (Hext x (list_elem_of_here _ _)) as Hx.
  destruct (decide (P x)), (decide (Q x)); tauto || done.
Qed.

Lemma reads_completed_spec user_id today st i h day :
  date_valid day → all_habits_by_id st !! i = Some h →
  reads_completed user_id today st i day
  = completed_on user_id day (entries_table st) (habit_id h).
Proof.
  intros Hday Hh. unfold reads_completed, get_habits.
  rewrite date_param_isoformat by done.
  by rewrite list_lookup_fmap, Hh.
Qed.

(** X12. The two read views agree: for every habit, [completed_days] of
    the report counts the days of the window for which GET /habits, asked
    with that day's date, shows the habit at the same position as
    completed; the count lies between 0 and [total_days]. *)
Theorem progress_counts_reads user_id period days end_date_arg today st end_date :
  catalog_unique (habits_table st) →
  date_param end_date_arg today = inr end_date →
  period_days period days →
  date_valid (end_date - (days - 1)) → date_valid (end_date + 1) →
  ∃ report,
    progress user_id (Some period) end_date_arg today st = Ok report
    ∧ ∀ i p, report_habits report !! i = Some p →
        progress_completed_days p =
          Z.of_nat (length (filter (λ day, reads_completed user_id today st i day)
                                   (seqZ (end_date - (days - 1)) days)))
        ∧ 0 ≤ progress_completed_days p ≤ progress_total_days p.
Proof.
  intros Hnd Hd Hdays [Hmin _] [_ Hnext].
  assert (end_date < MAXORDINAL) as Hmax by lia.
  assert (Py.lower (default "weekly" (Some period)) = period) as Hp.
  { by destruct Hdays as [[-> _]|[-> _]]. }
  pose proof (period_days_range _ _ Hdays) as Hrange.
  eexists. split.
  { by apply (progress_report user_id (Some period) end_date_arg today st
                end_date period days). }
  simpl. intros i p Hp'. rewrite list_lookup_fmap in Hp'.
  destruct (all_habits_by_id st !! i) as [h|] eqn:Hh; [|done].
  injection Hp' as <-. simpl. split.
  - unfold days_completed. rewrite Z2Nat.id by lia. do 2 f_equal.
    apply filter_ext_in. intros day [? ?]%elem_of_seqZ.
    rewrite (reads_completed_spec _ _ _ _ h); [done| |done].
    unfold date_valid. lia.
  - pose proof (days_completed_bounds user_id (entries_table st) (habit_id h)
                  (end_date - (days - 1)) (Z.to_nat days)). lia.
Qed.

Lemma progress_counts_reads_witness :
  ∃ report,
    progress 7 (Some "weekly") (Some "2024-01-07") 738000 after_first_save = Ok report
    ∧ ∀ i p, report_habits report !! i = Some p →
        progress_completed_days p =
          Z.of_nat (length (filter (λ day, reads_completed 7 738000 after_first_save i day)
                                   (seqZ (738892 - (7 - 1)) 7)))
        ∧ 0 ≤ progress_completed_days p ≤ progress_total_days p.
Proof.
  apply (progress_counts_reads 7 "weekly" 7 (Some "2024-01-07") 738000
           after_first_save 738892).
  - apply (bool_decide_unpack _). by vm_compute.
  - by vm_compute.
  - by left.
  - split; by vm_compute.
  - split; by vm_compute.
Defined.

(** ** The ledger over a history of saves *)

(** X13. Referential integrity: in a store produced by requests to
    POST /habits from an empty ledger, every row of the ledger belongs to
    a habit of the catalog; a key of the mapping that names no habit never
    becomes a row. *)
Theorem reachable_references st :
  reachable st →
  ∀ e, e ∈ entries_table st → ∃ h, h ∈ habits_table st ∧ habit_id h = entry_habit_id e.
Proof.
  induction 1 as [hs|st user_id body _ IH]; intros e He.
  { by apply elem_of_nil in He. }
  rewrite save_habits_split in He |- *.
  destruct (save_validate body) as [r|[d completions]]; simpl in *; [by apply IH|].
  destruct (save_rows_keys user_id d completions (all_habits_by_id st) (entries_table st))
    as (new & Hkeys & _ & Hnew).
  apply (list_elem_of_fmap_2 entry_key) in He. rewrite Hkeys in He.
  apply elem_of_app in He as [He|He].
  - apply list_elem_of_fmap in He as (e0 & Hk & He0).
    destruct (IH e0 He0) as (h & Hh & Hid). exists h. split; [done|].
    unfold entry_key in Hk. congruence.
  - destruct (Hnew _ He) as (_ & h & Hh%all_habits_elem & Hk).
    exists h. split; [done|]. unfold entry_key in Hk. congruence.
Qed.

Lemma reachable_references_witness :
  ∃ h, h ∈ habits_table after_first_save ∧ habit_id h = 2.
Proof.
  apply (reachable_references after_first_save
           (reachable_save _ 7 (save_body "2024-01-01" two_done)
              (reachable_init (habits_table seeded)))
           (new_entry 7 738886 2 true)).
  apply (bool_decide_unpack _). by vm_compute.
Defined.

Lemma upsert_length user_id d id c es :
  length (upsert user_id d id c es) =
  (length es + if decide ((user_id, id, d) ∈ entry_key <$> es) then 0 else 1)%nat.
Proof.
  pose proof (f_equal length (upsert_keys user_id d id c es)) as Hlen.
  rewrite length_app, !length_fmap in Hlen. rewrite Hlen. by case_decide.
Qed.

(** The loop adds one row for each habit that has none for the user and
    the date. *)
Lemma save_rows_length user_id d completions habits es :
  catalog_unique habits →
  length (save_rows user_id d completions habits es) =
  (length es
   + length (filter (λ h, (user_id, habit_id h, d) ∉ entry_key <$> es) habits))%nat.
Proof.
  unfold catalog_unique. revert es.
  induction habits as [|h hs IH]; intros es Hnd; simpl; [lia|].
  apply NoDup_cons in Hnd as [Hh Hnd]. rewrite IH, upsert_length by done.
  rewrite (filter_ext_in
             (λ h', (user_id, habit_id h', d)
                    ∉ entry_key <$> upsert user_id d (habit_id h)
                                      (desired completions (habit_id h)) es)
             (λ h', (user_id, habit_id h', d) ∉ entry_key <$> es)).
  - rewrite filter_cons. case_decide; case_decide; simpl; tauto || lia.
  - intros h' Hh'. rewrite upsert_keys, elem_of_app.
    assert (habit_id h' ≠ habit_id h) as Hne.
    { intros Heq. apply Hh. rewrite <-Heq. by apply list_elem_of_fmap_2. }
    case_decide; [rewrite elem_of_nil|rewrite list_elem_of_singleton]; split.
    + tauto.
    + tauto.
    + tauto.
    + intros Hes [?|[= ?]]; done.
Qed.

(** X14. An accepted save lengthens the ledger by exactly one row for
    each catalog habit that had no row for the user and the date, whether
    or not the habit is marked completed. *)
Theorem save_habits_growth user_id data d completions st :
  catalog_unique (habits_table st) →
  save_request data d completions →
  length (entries_table (save_habits user_id (Py.VDict data) st).2) =
  (length (entries_table st)
   + length (filter (λ h, (user_id, habit_id h, d) ∉ entry_key <$> entries_table st)
                    (habits_table st)))%nat.
Proof.
  intros Hnd Hreq. rewrite (save_habits_ok _ _ _ _ _ Hreq). simpl.
  rewrite save_rows_length by (by apply all_habits_unique).
  by rewrite all_habits_perm.
Qed.

(** The first save of user 7 on the seeded store stores fifteen rows,
    two of them completed. *)
Lemma save_habits_growth_witness :
  length (entries_table (save_habits 7 (save_body "2024-01-01" two_done) seeded).2)
  = 15%nat.
Proof.
  etransitivity.
  - apply (save_habits_growth 7 _ 738886 two_done seeded); [|exact two_done_request].
    apply (bool_decide_unpack _). by vm_compute.
  - by vm_compute.
Defined.

(** ** A save seen by GET /progress *)

Lemma days_completed_update user_id es es' id d :
  (∀ day, day ≠ d → completed_on user_id day es' id = completed_on user_id day es id) →
  ∀ k start,
    days_completed user_id es' id start k =
    if bool_decide (start ≤ d < start + Z.of_nat k)
    then days_completed user_id es id start k
         - Z.b2z (completed_on user_id d es id) + Z.b2z (completed_on user_id d es' id)
    else days_completed user_id es id start k.
Proof.
  intros Hother. induction k as [|k IH]; intros start.
  { rewrite bool_decide_false by lia. by rewrite !days_completed_0. }
  rewrite !days_completed_S, IH.
  destruct (decide (start = d)) as [->|Hne].
  - rewrite bool_decide_false, bool_decide_true by lia.
    destruct (completed_on user_id d es id), (completed_on user_id d es' id);
      simpl; lia.
  - rewrite Hother by done.
    case_bool_decide; case_bool_decide; lia.
Qed.

Lemma completed_on_save_other user_id d completions habits es day id :
  day ≠ d →
  completed_on user_id day (save_rows user_id d completions habits es) id
  = completed_on user_id day es id.
Proof.
  intros Hne. unfold completed_on.
  rewrite filter_save_rows_other; [done|congruence].
Qed.

(** X15. A save moves each habit's [completed_days] by the day it
    rewrites and by nothing else: when the saved date lies in the window
    the new count is the old one, less one if the habit read as completed
    on that date before, plus one if the mapping marks it completed; when
    the date lies outside the window the count is unchanged. *)
Theorem save_then_progress user_id data d completions period days end_date_arg
    today st end_date :
  catalog_unique (habits_table st) → ledger_unique (entries_table st) →
  save_request data d completions →
  date_param end_date_arg today = inr end_date →
  period_days period days →
  date_valid (end_date - (days - 1)) → date_valid (end_date + 1) →
  ∃ before after,
    progress user_id (Some period) end_date_arg today st = Ok before
    ∧ progress user_id (Some period) end_date_arg today
        (save_habits user_id (Py.VDict data) st).2 = Ok after
    ∧ progress_id <$> report_habits after = progress_id <$> report_habits before
    ∧ ∀ i p p',
        report_habits before !! i = Some p → report_habits after !! i = Some p' →
        progress_completed_days p' =
        if bool_decide (end_date - (days - 1) ≤ d ≤ end_date)
        then progress_completed_days p
             - Z.b2z (completed_on user_id d (entries_table st) (progress_id p))
             + Z.b2z (requested completions (progress_id p))
        else progress_completed_days p.
Proof.
  intros Hnd Hu Hreq Hd Hdays [Hmin _] [_ Hnext].
  assert (end_date < MAXORDINAL) as Hmax by lia.
  assert (Py.lower (default "weekly" (Some period)) = period) as Hp.
  { by destruct Hdays as [[-> _]|[-> _]]. }
  pose proof (period_days_range _ _ Hdays) as Hrange.
  do 2 eexists. split_and!.
  { by apply (progress_report user_id (Some period) end_date_arg today st
                end_date period days). }
  { apply (progress_report user_id (Some period) end_date_arg today _
             end_date period days); try done.
    by rewrite save_habits_catalog. }
  - simpl. rewrite (all_habits_by_id_catalog st (save_habits _ _ st).2)
      by apply save_habits_catalog.
    rewrite <-!list_fmap_compose. by apply list_fmap_ext.
  - simpl. rewrite (all_habits_by_id_catalog st (save_habits _ _ st).2)
      by apply save_habits_catalog.
    rewrite (save_habits_ok _ _ _ _ _ Hreq). simpl.
    intros i p p'. rewrite !list_lookup_fmap.
    destruct (all_habits_by_id st !! i) as [h|] eqn:Hh; [|done].
    intros [= <-] [= <-]. simpl.
    rewrite (days_completed_update user_id (entries_table st) _ (habit_id h) d)
      by (intros day Hday; by apply completed_on_save_other).
    rewrite read_after_save;
      [|done|by eapply all_habits_elem, list_elem_of_lookup_2].
    case_bool_decide; case_bool_decide; lia.
Qed.

(** User 7 unchecks habit 1 and keeps habit 2 on 2024-01-01, a day of
    the week that ends on 2024-01-07. *)
Lemma save_then_progress_witness :
  ∃ before after,
    progress 7 (Some "weekly") (Some "2024-01-07") 738000 after_first_save = Ok before
    ∧ progress 7 (Some "weekly") (Some "2024-01-07") 738000
        (save_habits 7 (save_body "2024-01-01" (<[Py.KStr "2" := Py.VBool true]> ∅))
           after_first_save).2 = Ok after
    ∧ progress_id <$> report_habits after = progress_id <$> report_habits before
    ∧ ∀ i p p',
        report_habits before !! i = Some p → report_habits after !! i = Some p' →
        progress_completed_days p' =
        if bool_decide (738892 - (7 - 1) ≤ 738886 ≤ 738892)
        then progress_completed_days p
             - Z.b2z (completed_on 7 738886 (entries_table after_first_save)
                        (progress_id p))
             + Z.b2z (requested (<[Py.KStr "2" := Py.VBool true]> ∅) (progress_id p))
        else progress_completed_days p.
Proof.
  apply (save_then_progress 7 _ 738886 (<[Py.KStr "2" := Py.VBool true]> ∅)
           "weekly" 7 (Some "2024-01-07") 738000 after_first_save 738892).
  - apply (bool_decide_unpack _). by vm_compute.
  - apply (bool_decide_unpack _). by vm_compute.
  - exists "2024-01-01". split_and!; by vm_compute.
  - by vm_compute.
  - by left.
  - split; by vm_compute.
  - split; by vm_compute.
Defined.

(** ** Seeding *)

(** X16. [seed_habits] can run at every start: it keeps the habit ids
    distinct, leaves a catalog that is not empty, leaves the ledger alone,
    and a second run changes nothing. *)
Theorem seed_habits_stable st :
  catalog_unique (habits_table st) →
  catalog_unique (habits_table (seed_habits st))
  ∧ habits_table (seed_habits st) ≠ []
  ∧ entries_table (seed_habits st) = entries_table st
  ∧ seed_habits (seed_habits st) = seed_habits st.
Proof.
  destruct st as [[|h hs] es]; intros Hnd.
  - split_and!; [|done..]. apply (bool_decide_unpack _). by vm_compute.
  - by split_and!.
Qed.

Lemma seed_habits_stable_witness :
  catalog_unique (habits_table seeded)
  ∧ habits_table seeded ≠ []
  ∧ entries_table seeded = []
  ∧ seed_habits seeded = seeded.
Proof. apply (seed_habits_stable empty_store). constructor. Defined.

(** ** GET /quote *)

(** X17. [get_quote] never lets an exception out and always answers with
    a pair: the pair of the service when the payload is a non-empty list
    whose first element is an object, members the object lacks being
    [None], and the fallback quote in every other case. *)
Theorem get_quote_cases {E : Type} (fetched : E + Py.val) :
  (∀ item rest,
     fetched = inr (Py.VList (Py.VDict item :: rest)) →
     get_quote fetched = Ok (Py.get item (Py.KStr "q"), Py.get item (Py.KStr "a")))
  ∧ ((∀ item rest, fetched ≠ inr (Py.VList (Py.VDict item :: rest))) →
     get_quote fetched = Ok fallback_quote).
Proof.
  split.
  - by intros item rest ->.
  - intros Hno. destruct fetched as [e|data]; [done|].
    destruct data as [| | | | |l|m]; try done.
    destruct l as [|first rest]; [done|].
    destruct first as [| | | | | |item]; try done. by destruct (Hno item rest).
Qed.

Lemma get_quote_cases_witness :
  get_quote (inr (Py.VList [Py.VDict ∅]) : Py.exn + Py.val) = Ok (Py.VNone, Py.VNone)
  ∧ get_quote (inr (Py.VList [Py.VStr "busy"]) : Py.exn + Py.val) = Ok fallback_quote.
Proof.
  split.
  - etransitivity.
    + by apply (proj1 (get_quote_cases (inr (Py.VList [Py.VDict ∅]) : Py.exn + Py.val))
                  ∅ []).
    + by vm_compute.
  - apply (proj2 (get_quote_cases (inr (Py.VList [Py.VStr "busy"]) : Py.exn + Py.val))).
    intros item rest [=].
Defined.
